(** * Bot_checker_date_planka: the due-card report of [checker_date_planka.py]

    A shallow embedding of the functions of [checker_date_planka.py] that
    talk to the Planka REST API ([get_token], [clean_comment],
    [get_last_comment], [get_due_cards]) and of the button handler
    [send_tasks], followed by the properties of the specification that
    concern them.

    Python values are embedded as follows.
    - A [str] is a list of Unicode code points ([pystr]), so that [len] and
      slicing count characters as Python does.
    - A decoded JSON document is a [json] value; [None] is [JNull].
    - An exception is a value of [exn]; a computation that may raise returns
      a [pyresult].
    - The network, the log file and the chat are a [world] that every
      effectful function threads; what the outside answers is fixed by an
      [env]. *)

From Stdlib Require Import String Ascii List ZArith NArith Lia Bool.
Import ListNotations.
Local Open Scope Z_scope.

(* ================================================================== *)
(** ** Python strings *)

Module PyStr.

Definition pystr : Type := list N.

(** A literal of the source, character by character. *)
Definition str (s : string) : pystr :=
  List.map N_of_ascii (list_ascii_of_string s).
Arguments str : simpl never.

Fixpoint eqb (s t : pystr) : bool :=
  match s, t with
  | [], [] => true
  | c :: s', d :: t' => N.eqb c d && eqb s' t'
  | _, _ => false
  end.

(** [s.startswith(p)] *)
Fixpoint startswith (p s : pystr) : bool :=
  match p, s with
  | [], _ => true
  | c :: p', d :: s' => N.eqb c d && startswith p' s'
  | _ :: _, [] => false
  end.

(** [p in s] for two strings: [p] occurs in [s] as a substring. *)
Fixpoint contains (p s : pystr) : bool :=
  startswith p s ||
  match s with
  | [] => false
  | _ :: s' => contains p s'
  end.

(** [s.replace(c, empty)] for a one-character [c]: [c] is removed. *)
Definition remove_char (c : N) (s : pystr) : pystr :=
  filter (fun d => negb (N.eqb d c)) s.

(** The characters Python treats as whitespace, both for [\s] in a [str]
    pattern and for [str.strip()]. *)
Definition isspace (c : N) : bool :=
  ((9 <=? c) && (c <=? 13) || (28 <=? c) && (c <=? 32) ||
   (c =? 133) || (c =? 160) || (c =? 5760) ||
   (8192 <=? c) && (c <=? 8202) || (c =? 8232) || (c =? 8233) ||
   (c =? 8239) || (c =? 8287) || (c =? 12288))%N.

Definition SP : N := 32%N.

Fixpoint lstrip (s : pystr) : pystr :=
  match s with
  | [] => []
  | c :: s' => if isspace c then lstrip s' else s
  end.

Definition rstrip (s : pystr) : pystr := rev (lstrip (rev s)).

(** [s.strip()] *)
Definition strip (s : pystr) : pystr := rstrip (lstrip s).

(** [re.sub(r"\s+", " ", s)]: every maximal run of whitespace becomes one
    space.  [in_run] tells that the character before was whitespace, so the
    run it belongs to has been replaced already. *)
Fixpoint sub_ws (in_run : bool) (s : pystr) : pystr :=
  match s with
  | [] => []
  | c :: s' =>
      if isspace c
      then (if in_run then sub_ws true s' else SP :: sub_ws true s')
      else c :: sub_ws false s'
  end.

(** [s[:n]] *)
Definition slice_to (n : nat) (s : pystr) : pystr := firstn n s.
Arguments slice_to : simpl never.

(** Decimal digits of a natural number, zero-padded to [width]. *)
Fixpoint digits_fuel (fuel : nat) (n : Z) (acc : pystr) : pystr :=
  match fuel with
  | O => acc
  | S fuel' =>
      let acc' := N.of_nat (48 + Z.to_nat (n mod 10)) :: acc in
      if n / 10 =? 0 then acc' else digits_fuel fuel' (n / 10) acc'
  end.

Definition decimal (n : Z) : pystr :=
  if n <? 0
  then 45%N :: digits_fuel (S (Z.to_nat (Z.log2 (- n)))) (- n) []
  else digits_fuel (S (Z.to_nat (Z.log2 n))) n [].

Definition zfill (width : nat) (s : pystr) : pystr :=
  repeat 48%N (width - length s) ++ s.

End PyStr.
Import PyStr.

(* ================================================================== *)
(** ** Python values that come out of [json()] *)

#[local] Set Warnings "-register-all".

Inductive json : Type :=
| JNull
| JBool (b : bool)
| JNum (n : Z)
| JStr (s : pystr)
| JList (l : list json)
| JObj (kv : list (pystr * json)).

(** JSON numbers are integers here: on every path of this program a float
    behaves as an integer does (it has no items, no length and no methods,
    and it is false exactly when it is zero). *)

(** The exceptions this program can meet. *)
Inductive exn : Type :=
| KeyError (key : json)
| TypeError
| AttributeError
| ValueError
| OverflowError
| IndexError
| ConnectionError          (* requests: the transport failed *)
| HTTPError (status : Z)   (* requests: raise_for_status() *)
| JSONDecodeError.         (* requests: the body is not JSON *)

(** [except requests.RequestException]: the request exceptions, which
    since requests 2.27 include the JSON decoding error. *)
Definition is_RequestException (e : exn) : bool :=
  match e with
  | ConnectionError | HTTPError _ | JSONDecodeError => true
  | _ => false
  end.

(** [except ValueError]: the JSON decoding error is a [ValueError] too. *)
Definition is_ValueError (e : exn) : bool :=
  match e with
  | ValueError | JSONDecodeError => true
  | _ => false
  end.

Inductive pyresult (A : Type) : Type :=
| Ok (a : A)
| Raise (e : exn).
Arguments Ok {A} a.
Arguments Raise {A} e.

Module Py.

(** A dict is read by the first binding of a key. *)
Fixpoint lookup (k : pystr) (kv : list (pystr * json)) : option json :=
  match kv with
  | [] => None
  | (k', v) :: kv' => if PyStr.eqb k k' then Some v else lookup k kv'
  end.

(** [x[k]] for a string key [k]. *)
Definition getitem (x : json) (k : pystr) : pyresult json :=
  match x with
  | JObj kv =>
      match lookup k kv with
      | Some v => Ok v
      | None => Raise (KeyError (JStr k))
      end
  | _ => Raise TypeError
  end.

(** [x.get(k, default)]: only a dict has the method. *)
Definition get (x : json) (k : pystr) (default : json) : pyresult json :=
  match x with
  | JObj kv =>
      match lookup k kv with
      | Some v => Ok v
      | None => Ok default
      end
  | _ => Raise AttributeError
  end.

(** [x == s] for a string [s]. *)
Definition eq_str (x : json) (s : pystr) : bool :=
  match x with
  | JStr t => PyStr.eqb t s
  | _ => false
  end.

(** [k in x] for a string key [k]: a key of a dict, an element of a list,
    a substring of a string; the other values are not containers. *)
Definition contains (k : pystr) (x : json) : pyresult bool :=
  match x with
  | JObj kv =>
      Ok (match lookup k kv with Some _ => true | None => false end)
  | JList l => Ok (existsb (fun y => eq_str y k) l)
  | JStr s => Ok (PyStr.contains k s)
  | _ => Raise TypeError
  end.

(** The elements a [for] loop or a comprehension visits. *)
Definition iter (x : json) : pyresult (list json) :=
  match x with
  | JList l => Ok l
  | JObj kv => Ok (List.map (fun p => JStr (fst p)) kv)
  | JStr s => Ok (List.map (fun c => JStr [c]) s)
  | _ => Raise TypeError
  end.

(** Truth value of [x] in a condition. *)
Definition truthy (x : json) : bool :=
  match x with
  | JNull => false
  | JBool b => b
  | JNum n => negb (n =? 0)
  | JStr s => match s with [] => false | _ => true end
  | JList l => match l with [] => false | _ => true end
  | JObj kv => match kv with [] => false | _ => true end
  end.

(** Lists and dicts cannot be members of a set or keys of a dict. *)
Definition hashable (x : json) : bool :=
  match x with
  | JList _ | JObj _ => false
  | _ => true
  end.

(** [x == y] between hashable values; [True == 1] and [False == 0]. *)
Definition eq_scalar (x y : json) : bool :=
  match x, y with
  | JNull, JNull => true
  | JBool a, JBool b => Bool.eqb a b
  | JBool a, JNum n | JNum n, JBool a => n =? Z.b2z a
  | JNum n, JNum m => n =? m
  | JStr s, JStr t => PyStr.eqb s t
  | _, _ => false
  end.

(** [len(x)] *)
Definition len (x : json) : pyresult nat :=
  match x with
  | JStr s => Ok (length s)
  | JList l => Ok (length l)
  | JObj kv => Ok (length kv)
  | _ => Raise TypeError
  end.

End Py.

(* ================================================================== *)
(** ** Dates and times of the [datetime] module *)

Module PyDatetime.

(** A [date] is its proleptic Gregorian ordinal: 1 is 0001-01-01. *)
Record date : Type := Date { toordinal : Z }.

(** A [datetime] is the number of microseconds its wall clock shows since
    0001-01-01T00:00:00, with the UTC offset (in microseconds) of its
    [tzinfo]; [None] is a naive value. *)
Record datetime : Type := Datetime { wall : Z; tzinfo : option Z }.

Definition us_per_second : Z := 1000000.
Definition us_per_day : Z := 86400 * us_per_second.
Definition MAXORDINAL : Z := 3652059.   (* date(9999, 12, 31).toordinal() *)

Definition date_min : date := Date 1.

(** [a <= b] on dates. *)
Definition date_le (a b : date) : bool := toordinal a <=? toordinal b.

(** [d + datetime.timedelta(days=n)] *)
Definition date_add_days (d : date) (n : Z) : pyresult date :=
  let o := toordinal d + n in
  if (0 <? o) && (o <=? MAXORDINAL) then Ok (Date o) else Raise OverflowError.

(** [dt.date()] *)
Definition date_of (dt : datetime) : date := Date (wall dt / us_per_day + 1).

(** [dt.replace(tzinfo=datetime.timezone.utc)]: the wall clock is kept. *)
Definition replace_tzinfo_utc (dt : datetime) : datetime :=
  Datetime (wall dt) (Some 0).

Definition in_range (us : Z) : bool :=
  (0 <=? us) && (us <? MAXORDINAL * us_per_day).

(** [dt.astimezone(tz)]; [tz] gives the UTC offset in force at a UTC
    instant.  The program converts aware values only; a naive one, which
    Python would read in the zone of the system, is read as UTC here.  The
    arithmetic raises outside the years 1 to 9999. *)
Definition astimezone (tz : Z -> Z) (dt : datetime) : pyresult datetime :=
  let off := match tzinfo dt with Some off => off | None => 0 end in
  let utc := wall dt - off in
  if in_range utc
  then (let loc := utc + tz utc in
        if in_range loc then Ok (Datetime loc (Some (tz utc)))
        else Raise OverflowError)
  else Raise OverflowError.

(** The instant two values of the same kind are ordered by. *)
Definition sort_key (dt : datetime) : Z :=
  match tzinfo dt with
  | None => wall dt
  | Some off => wall dt - off
  end.

(** Ordering a naive against an aware value raises [TypeError]. *)
Definition comparable (a b : datetime) : bool :=
  match tzinfo a, tzinfo b with
  | None, None | Some _, Some _ => true
  | _, _ => false
  end.

Definition is_leap (year : Z) : bool :=
  (year mod 4 =? 0) && (negb (year mod 100 =? 0) || (year mod 400 =? 0)).

Definition days_before_year (year : Z) : Z :=
  let y := year - 1 in y * 365 + y / 4 - y / 100 + y / 400.

Definition DAYS_IN_MONTH : list Z :=
  [-1; 31; 28; 31; 30; 31; 30; 31; 31; 30; 31; 30; 31].
Definition DAYS_BEFORE_MONTH : list Z :=
  [-1; 0; 31; 59; 90; 120; 151; 181; 212; 243; 273; 304; 334].

Definition days_before_month (year month : Z) : Z :=
  nth (Z.to_nat month) DAYS_BEFORE_MONTH 0 +
  Z.b2z ((2 <? month) && is_leap year).

Definition ymd2ord (year month day : Z) : Z :=
  days_before_year year + days_before_month year month + day.

(** Year, month and day of an ordinal. *)
Definition ord2ymd (n : Z) : Z * Z * Z :=
  let n := n - 1 in
  let n400 := n / 146097 in let n := n mod 146097 in
  let year := n400 * 400 + 1 in
  let n100 := n / 36524 in let n := n mod 36524 in
  let n4 := n / 1461 in let n := n mod 1461 in
  let n1 := n / 365 in let n := n mod 365 in
  let year := year + n100 * 100 + n4 * 4 + n1 in
  if (n1 =? 4) || (n100 =? 4) then (year - 1, 12, 31)
  else
    let leapyear := (n1 =? 3) && (negb (n4 =? 24) || (n100 =? 3)) in
    let month := Z.shiftr (n + 50) 5 in
    let preceding :=
      nth (Z.to_nat month) DAYS_BEFORE_MONTH 0 +
      Z.b2z ((2 <? month) && leapyear) in
    if n <? preceding
    then (let month := month - 1 in
          let preceding :=
            preceding - (nth (Z.to_nat month) DAYS_IN_MONTH 0 +
                         Z.b2z ((month =? 2) && leapyear)) in
          (year, month, n - preceding + 1))
    else (year, month, n - preceding + 1).

(** [dt.strftime("%d-%m-%Y %H:%M")]; the year is written with four digits
    (below year 1000 the C library decides the padding). *)
Definition strftime_dmY_HM (dt : datetime) : pystr :=
  let '(y, m, d) := ord2ymd (wall dt / us_per_day + 1) in
  let secs := (wall dt mod us_per_day) / us_per_second in
  zfill 2 (decimal d) ++ str "-" ++ zfill 2 (decimal m) ++ str "-" ++
  zfill 4 (decimal y) ++ str " " ++
  zfill 2 (decimal (secs / 3600)) ++ str ":" ++
  zfill 2 (decimal ((secs / 60) mod 60)).

(** A naive value from its fields. *)
Definition naive (year month day hour minute second us : Z) : datetime :=
  Datetime
    (((ymd2ord year month day - 1) * 86400 + hour * 3600 + minute * 60 + second)
       * us_per_second + us)
    None.

Arguments date_of : simpl never.
Arguments date_le : simpl never.
Arguments strftime_dmY_HM : simpl never.

End PyDatetime.
Import PyDatetime.

(* ================================================================== *)
(** ** Results and effects *)

(** The two shapes a piece of the program has: a pure computation that may
    raise ([pyresult]) and one that also talks to the outside ([M], below).
    Both are sequenced with the same notation. *)
Class PyMonad (m : Type -> Type) : Type := {
  ret : forall {A : Type}, A -> m A;
  bind : forall {A B : Type}, m A -> (A -> m B) -> m B;
  raise : forall {A : Type}, exn -> m A
}.

Declare Scope py_scope.
Delimit Scope py_scope with py.
Notation "x <- c ;; k" := (bind c (fun x => k))
  (at level 61, c at next level, right associativity) : py_scope.
Notation "c ;; k" := (bind c (fun _ => k))
  (at level 61, right associativity) : py_scope.
Local Open Scope py_scope.

#[export] Instance pyresult_monad : PyMonad pyresult := {
  ret := fun A a => Ok a;
  bind := fun A B c k => match c with Ok a => k a | Raise e => Raise e end;
  raise := fun A e => Raise e
}.

(** The requests the program sends.  The URL and the [Authorization] header
    of a request are f-strings over [PLANKA_URL], the token and an id; a
    request is kept as the values they are formatted from. *)
Inductive request : Type :=
| POST_access_tokens (emailOrUsername password : pystr)
| GET_projects (token : json)
| GET_project (token project_id : json)
| GET_board (token board_id : json)
| GET_card_actions (token card_id : json).

(** What comes back: no answer at all, or a status with a body that is a
    JSON document or is not. *)
Inductive http_result : Type :=
| Transport_error
| Response (status_code : Z) (body : option json).

Record response : Type := { status_code : Z; body : option json }.

(** A record of [bot.log]. *)
Inductive logrec : Type :=
| Error_receiving_token (e : exn).

(** [message.reply(text, reply_markup=..., parse_mode=...)] *)
Record reply : Type := {
  text : pystr;
  reply_markup : bool;      (* the keyboard is attached *)
  parse_mode_HTML : bool
}.

(** [config.py] is not part of the sources; the names the program imports
    from it are taken as given.  [BOARD_IDS] holds board ids as the API
    spells them (strings); [TIMEZONE] is the UTC offset, in microseconds,
    the configured zone has at a UTC instant. *)
Record config : Type := {
  USERNAME : pystr;
  PASSWORD : pystr;
  BOARD_IDS : list pystr;
  TIMEZONE : Z -> Z
}.

(** Everything the program reads from outside during one command. *)
Record env : Type := {
  cfg : config;
  http : request -> http_result;          (* the Planka server *)
  fromisoformat : pystr -> option datetime;
      (* [datetime.datetime.fromisoformat]; [None] is its [ValueError] *)
  repr : json -> pystr;                   (* [repr] of a list or a dict *)
  utcnow : Z;                             (* the clock, as a UTC instant *)
  log_exists : bool;                      (* [os.path.exists("bot.log")] *)
  log_age_days : Z                        (* whole days since its mtime *)
}.

(** Everything the program changes outside. *)
Record world : Type := {
  sent : list request;      (* requests made, oldest first *)
  logfile : list logrec;    (* bot.log *)
  outbox : list reply       (* replies to the chat *)
}.

Definition M (A : Type) : Type := world -> pyresult A * world.

#[export] Instance M_monad : PyMonad M := {
  ret := fun A a w => (Ok a, w);
  bind := fun A B c k w =>
    match c w with
    | (Ok a, w') => k a w'
    | (Raise e, w') => (Raise e, w')
    end;
  raise := fun A e w => (Raise e, w)
}.

(** A pure computation inside an effectful one. *)
Definition lift {A : Type} (r : pyresult A) : M A := fun w => (r, w).

(** [try: body  except ...: handler]; [handler e] is [None] when no
    [except] clause matches [e], which then propagates. *)
Definition try_except {A : Type} (body : M A) (handler : exn -> option (M A))
  : M A :=
  fun w =>
    match body w with
    | (Ok a, w') => (Ok a, w')
    | (Raise e, w') =>
        match handler e with
        | Some h => h w'
        | None => (Raise e, w')
        end
    end.

(** [for x in l: acc = body x acc] *)
Fixpoint for_each {A B : Type} (l : list A) (body : A -> B -> M B) (acc : B)
  : M B :=
  match l with
  | [] => ret acc
  | x :: l' => acc' <- body x acc ;; for_each l' body acc'
  end.

(** [[x for x in l if keep x]], where the test may raise. *)
Fixpoint filter_r {A : Type} (keep : A -> pyresult bool) (l : list A)
  : pyresult (list A) :=
  match l with
  | [] => Ok []
  | x :: l' =>
      b <- keep x ;;
      rest <- filter_r keep l' ;;
      ret (if b : bool then x :: rest else rest)
  end.

(** [[f x for x in l]], where [f] may raise. *)
Fixpoint map_r {A B : Type} (f : A -> pyresult B) (l : list A)
  : pyresult (list B) :=
  match l with
  | [] => Ok []
  | x :: l' => y <- f x ;; rest <- map_r f l' ;; ret (y :: rest)
  end.

(* ================================================================== *)
(** ** Dicts and sets keyed by JSON values *)

Module PyDict.

Fixpoint find {V : Type} (k : json) (d : list (json * V)) : option V :=
  match d with
  | [] => None
  | (k', v) :: d' => if Py.eq_scalar k' k then Some v else find k d'
  end.

(** [k in d]; hashing a list or a dict raises. *)
Definition contains {V : Type} (k : json) (d : list (json * V))
  : pyresult bool :=
  if Py.hashable k
  then Ok (match find k d with Some _ => true | None => false end)
  else Raise TypeError.

(** [d[k]] *)
Definition getitem {V : Type} (k : json) (d : list (json * V)) : pyresult V :=
  if Py.hashable k
  then match find k d with Some v => Ok v | None => Raise (KeyError k) end
  else Raise TypeError.

(** [d[k] = v]: an existing key keeps its place, a new one goes last. *)
Fixpoint setitem {V : Type} (k : json) (v : V) (d : list (json * V))
  : list (json * V) :=
  match d with
  | [] => [(k, v)]
  | (k', v') :: d' =>
      if Py.eq_scalar k' k then (k', v) :: d' else (k', v') :: setitem k v d'
  end.

(** [x in s] for a set [s], kept as the list of its members. *)
Definition set_contains (x : json) (s : list json) : pyresult bool :=
  if Py.hashable x
  then Ok (existsb (fun y => Py.eq_scalar y x) s)
  else Raise TypeError.

(** [{f(x) for x in l}]: every member must be hashable. *)
Definition set_of (l : list json) : pyresult (list json) :=
  if forallb Py.hashable l then Ok l else Raise TypeError.

End PyDict.

(* ================================================================== *)
(** ** The Report *)

(** [(short_name, due date as text, last comment)] *)
Definition entry : Type := (json * pystr * pystr)%type.

(** [{project_name: {board_name: [entry, ...]}}], in insertion order. *)
Definition board_map : Type := list (json * list entry).
Definition report : Type := list (json * board_map).

(** Lines 117 to 124: the nested entries are created on first use, then the
    entry is appended. *)
Definition report_add (project_name board_name : json) (e : entry)
  (result : report) : pyresult report :=
  (* if project_name not in result: result[project_name] = {} *)
  present <- PyDict.contains project_name result ;;
  let result :=
    if present : bool then result else PyDict.setitem project_name [] result in
  (* if board_name not in result[project_name]:
         result[project_name][board_name] = [] *)
  boards <- PyDict.getitem project_name result ;;
  present <- PyDict.contains board_name boards ;;
  let boards :=
    if present : bool then boards else PyDict.setitem board_name [] boards in
  (* result[project_name][board_name].append(...) *)
  cards <- PyDict.getitem board_name boards ;;
  ret (PyDict.setitem project_name
         (PyDict.setitem board_name (cards ++ [e]) boards) result).

(* ================================================================== *)
(** ** The program *)

(** Line 41: [re.sub(r"\s+", " ", text).strip()] *)
Definition clean_comment (text : pystr) : pystr :=
  strip (sub_ws false text).

(** [clean_comment] on whatever the API sent: [re.sub] wants a string. *)
Definition clean_comment_value (text : json) : pyresult pystr :=
  match text with
  | JStr s => Ok (clean_comment s)
  | _ => Raise TypeError
  end.

(** [x.replace("Z", empty)], which removes every [Z]: only a string has
    the method. *)
Definition replace_Z (x : json) : pyresult pystr :=
  match x with
  | JStr s => Ok (remove_char 90%N s)
  | _ => Raise AttributeError
  end.

(** One element of the list [comments] of [get_last_comment]. *)
Record comment : Type := { c_text : pystr; createdAt : datetime }.

(** [comments.sort(key=lambda x: x["createdAt"], reverse=True)].  The sort is
    stable, also when reversed: equal keys keep their order.  Whatever the
    order of its comparisons, sorting a list that mixes naive and aware
    values has to compare two of them, which raises. *)
Fixpoint insert_desc (x : comment) (l : list comment) : list comment :=
  match l with
  | [] => [x]
  | y :: l' =>
      if sort_key (createdAt x) <? sort_key (createdAt y)
      then y :: insert_desc x l'
      else x :: l
  end.

Definition sort_desc (l : list comment) : pyresult (list comment) :=
  match l with
  | [] => Ok []
  | x :: l' =>
      if forallb (fun y => comparable (createdAt x) (createdAt y)) l'
      then Ok (fold_right insert_desc [] l)
      else Raise TypeError
  end.

Arguments sort_desc : simpl never.

Section Program.

Variable E : env.

Definition add_sent (r : request) (w : world) : world :=
  {| sent := sent w ++ [r]; logfile := logfile w; outbox := outbox w |}.

(** [requests.get(url, headers=headers)], [requests.post(url, json=payload)] *)
Definition requests_send (r : request) : M response :=
  fun w =>
    match http E r with
    | Transport_error => (Raise ConnectionError, add_sent r w)
    | Response s b => (Ok {| status_code := s; body := b |}, add_sent r w)
    end.

(** [response.raise_for_status()] *)
Definition raise_for_status (r : response) : pyresult unit :=
  if (400 <=? status_code r) && (status_code r <? 600)
  then Raise (HTTPError (status_code r))
  else Ok tt.

(** [response.json()] *)
Definition response_json (r : response) : pyresult json :=
  match body r with
  | Some j => Ok j
  | None => Raise JSONDecodeError
  end.

(** [requests.get(url, headers=headers).json()] *)
Definition get_json (r : request) : M json :=
  resp <- requests_send r ;;
  lift (response_json resp).

(** Lines 20 to 25. *)
Definition clear_log : M unit :=
  fun w =>
    if log_exists E
    then (if 7 <=? log_age_days E
          then (Ok tt, {| sent := sent w; logfile := []; outbox := outbox w |})
          else (Ok tt, w))
    else (Ok tt, w).

(** [logging.error(...)] *)
Definition logging_error (r : logrec) : M unit :=
  fun w =>
    (Ok tt,
     {| sent := sent w; logfile := logfile w ++ [r]; outbox := outbox w |}).

(** Lines 28 to 38. *)
Definition get_token : M json :=
  clear_log ;;
  try_except
    (response <- requests_send
                   (POST_access_tokens (USERNAME (cfg E)) (PASSWORD (cfg E))) ;;
     lift (raise_for_status response) ;;
     j <- lift (response_json response) ;;
     lift (Py.getitem j (str "item")))
    (fun e =>
       if is_RequestException e
       then Some (logging_error (Error_receiving_token e) ;; ret JNull)
       else None).

(** [datetime.datetime.fromisoformat(s)] *)
Definition parse_iso (s : pystr) : pyresult datetime :=
  match fromisoformat E s with
  | Some dt => Ok dt
  | None => Raise ValueError
  end.

(** Lines 55 to 58: the dict built for one comment action. *)
Definition comment_of (c : json) : pyresult comment :=
  data <- Py.getitem c (str "data") ;;
  text <- Py.getitem data (str "text") ;;
  text <- clean_comment_value text ;;
  created <- Py.getitem c (str "createdAt") ;;
  created <- replace_Z created ;;
  created <- parse_iso created ;;
  ret {| c_text := text; createdAt := created |}.

(** Lines 54 to 60: the comprehension over [response["items"]]. *)
Fixpoint comments_of (items : list json) : pyresult (list comment) :=
  match items with
  | [] => Ok []
  | c :: rest =>
      type <- Py.getitem c (str "type") ;;
      if Py.eq_str type (str "commentCard")
      then (x <- comment_of c ;; xs <- comments_of rest ;; ret (x :: xs))
      else comments_of rest
  end.

(** Lines 45 to 69. *)
Definition get_last_comment (token card_id : json) : M pystr :=
  try_except
    (response <- get_json (GET_card_actions token card_id) ;;
     has_items <- lift (Py.contains (str "items") response) ;;
     if negb has_items then ret []
     else
       (items <- lift (Py.getitem response (str "items")) ;;
        items <- lift (Py.iter items) ;;
        comments <- lift (comments_of items) ;;
        match comments with
        | [] => ret []
        | _ :: _ =>
            sorted <- lift (sort_desc comments) ;;
            match sorted with
            | c :: _ => ret (slice_to 50 (c_text c))
            | [] => raise IndexError
            end
        end))
    (fun e =>
       if is_RequestException e then Some (ret [])
       else if is_ValueError e then Some (ret [])
       else None).

(** [id in BOARD_IDS] *)
Definition in_BOARD_IDS (id : json) : bool :=
  match id with
  | JStr s => existsb (PyStr.eqb s) (BOARD_IDS (cfg E))
  | _ => false
  end.

(** Line 114:
    [(card["name"][:30] + "...") if len(card["name"]) > 30 else card["name"]].
    Only a string can be sliced and then joined to ["..."]. *)
Definition short_name (name : json) : pyresult json :=
  n <- Py.len name ;;
  if (30 <? n)%nat
  then match name with
       | JStr s => Ok (JStr (slice_to 30 s ++ str "..."))
       | _ => Raise TypeError
       end
  else Ok name.

(** Line 110: the due date in the display timezone. *)
Definition due_date_local (due_date : json) : pyresult datetime :=
  s <- replace_Z due_date ;;
  dt <- parse_iso s ;;
  astimezone (TIMEZONE (cfg E)) (replace_tzinfo_utc dt).

(** Lines 103 to 124: the body of [for card in cards]. *)
Definition scan_card (token project_name board_name : json)
  (valid_list_ids : list json) (start_date end_date : date)
  (card : json) (result : report) : M report :=
  has_list <- lift (Py.contains (str "listId") card) ;;
  if negb has_list then ret result
  else
    (listId <- lift (Py.getitem card (str "listId")) ;;
     valid <- lift (PyDict.set_contains listId valid_list_ids) ;;
     if negb valid then ret result
     else
       (due_date <- lift (Py.get card (str "dueDate") JNull) ;;
        completed <-
          lift (Py.get card (str "isDueDateCompleted") (JBool false)) ;;
        if Py.truthy due_date && negb (Py.truthy completed)
        then
          (due_date_obj <- lift (due_date_local due_date) ;;
           let due_date_date := date_of due_date_obj in
           if date_le start_date due_date_date
              && date_le due_date_date end_date
           then
             (name <- lift (Py.getitem card (str "name")) ;;
              short <- lift (short_name name) ;;
              id <- lift (Py.getitem card (str "id")) ;;
              comment <- get_last_comment token id ;;
              lift (report_add project_name board_name
                      (short, strftime_dmY_HM due_date_obj, comment) result))
           else ret result)
        else ret result)).

(** Line 98: [{lst["id"] for lst in included_lists}] *)
Definition list_ids (included_lists : list json) : pyresult (list json) :=
  map_r (fun lst =>
           id <- Py.getitem lst (str "id") ;;
           if Py.hashable id then Ok id else Raise TypeError)
        included_lists.

(** Lines 91 to 124: the body of [for board in filtered_boards]. *)
Definition scan_board (token project_name : json) (start_date end_date : date)
  (board : json) (result : report) : M report :=
  board_name <- lift (Py.getitem board (str "name")) ;;
  board_id <- lift (Py.getitem board (str "id")) ;;
  board_response <- get_json (GET_board token board_id) ;;
  included <- lift (Py.getitem board_response (str "included")) ;;
  included_lists <- lift (Py.getitem included (str "lists")) ;;
  included_lists <- lift (Py.iter included_lists) ;;
  valid_list_ids <- lift (list_ids included_lists) ;;
  included <- lift (Py.getitem board_response (str "included")) ;;
  cards <- lift (Py.getitem included (str "cards")) ;;
  cards <- lift (Py.iter cards) ;;
  for_each cards
    (scan_card token project_name board_name valid_list_ids
       start_date end_date)
    result.

(** Line 88: [[b for b in boards if b["id"] in BOARD_IDS]] *)
Definition filter_boards (boards : list json) : pyresult (list json) :=
  filter_r (fun b => id <- Py.getitem b (str "id") ;; ret (in_BOARD_IDS id))
           boards.

(** Lines 81 to 124: the body of [for project in projects]. *)
Definition scan_project (token : json) (start_date end_date : date)
  (project : json) (result : report) : M report :=
  project_name <- lift (Py.getitem project (str "name")) ;;
  project_id <- lift (Py.getitem project (str "id")) ;;
  boards_response <- get_json (GET_project token project_id) ;;
  included <- lift (Py.getitem boards_response (str "included")) ;;
  boards <- lift (Py.getitem included (str "boards")) ;;
  boards <- lift (Py.iter boards) ;;
  filtered_boards <- lift (filter_boards boards) ;;
  for_each filtered_boards
    (scan_board token project_name start_date end_date)
    result.

(** Lines 72 to 125. *)
Definition get_due_cards (token : json) (start_date end_date : date)
  : M report :=
  projects_response <- get_json (GET_projects token) ;;
  projects <- lift (Py.getitem projects_response (str "items")) ;;
  projects <- lift (Py.iter projects) ;;
  for_each projects (scan_project token start_date end_date) [].

End Program.

Arguments due_date_local : simpl never.
Arguments get_last_comment : simpl never.
Arguments short_name : simpl never.
Arguments report_add : simpl never.

(* ================================================================== *)
(** ** The button handler *)

Definition NL : pystr := [10%N].

(** The pictographs of the source, code point by code point. *)
Definition CALENDAR : pystr := [240; 376; 8212; 8220]%N.
Definition PAGE : pystr := [240; 376; 8220; 8222]%N.
Definition CLOCK : pystr := [240; 376; 8226; 8217]%N.
Definition BALLOON : pystr := [240; 376; 8217; 172]%N.

(** Lines 134 to 136: the three buttons [send_tasks] is registered for. *)
Definition TASKS_TODAY : pystr := CALENDAR ++ str " Tasks for today".
Definition TASKS_TOMORROW : pystr := CALENDAR ++ str " Tomorrow's tasks".
Definition TASKS_WEEK : pystr := CALENDAR ++ str " Tasks for the week".

(** Line 150: the filter [F.text.in_([...])] of [send_tasks]. *)
Definition is_tasks_button (message_text : pystr) : bool :=
  existsb (PyStr.eqb message_text) [TASKS_TODAY; TASKS_TOMORROW; TASKS_WEEK].

Definition NO_TASKS : pystr :=
  str "Congratulations! There are no tasks for the selected period!".

Section Handler.

Variable E : env.

(** Line 152: [datetime.datetime.now(TIMEZONE).date()] *)
Definition today : date :=
  let off := TIMEZONE (cfg E) (utcnow E) in
  date_of (Datetime (utcnow E + off) (Some off)).

(** Lines 153 to 161: the window the pressed button asks for. *)
Definition select_window (message_text : pystr) : pyresult (date * date) :=
  if PyStr.contains (str "today") message_text
  then Ok (date_min, today)
  else if PyStr.contains (str "tomorrow") message_text
  then (start_date <- date_add_days today 1 ;;
        end_date <- date_add_days today 1 ;;
        ret (start_date, end_date))
  else (end_date <- date_add_days today 7 ;;
        ret (date_min, end_date)).

(** [f"{x}"] *)
Definition format_value (x : json) : pystr :=
  match x with
  | JStr s => s
  | JNull => str "None"
  | JBool true => str "True"
  | JBool false => str "False"
  | JNum n => decimal n
  | JList _ | JObj _ => repr E x
  end.

(** Lines 174 to 177. *)
Definition render_card (e : entry) : pystr :=
  let '(name, date, comment) := e in
  NL ++ PAGE ++ str " Card: " ++ format_value name ++ str "(" ++ CLOCK ++
  str " " ++ date ++ str ")" ++ NL ++
  match comment with
  | [] => []
  | _ :: _ =>
      str "<i>" ++ BALLOON ++ str " Comment: " ++ comment ++ str "</i>" ++ NL
  end.

(** Lines 172 to 178. *)
Definition render_board (b : json * list entry) : pystr :=
  NL ++ str "Board: <b>" ++ format_value (fst b) ++ str "</b>" ++ NL ++
  concat (List.map render_card (snd b)) ++ str "---" ++ NL.

(** Lines 170 to 178. *)
Definition render_project (p : json * board_map) : pystr :=
  NL ++ str "----- Project: <b>" ++ format_value (fst p) ++
  str "</b> -----" ++ NL ++
  concat (List.map render_board (snd p)).

(** Lines 169 to 178. *)
Definition response_text (tasks : report) : pystr :=
  concat (List.map render_project tasks).

(** [await message.reply(...)] *)
Definition message_reply (r : reply) : M unit :=
  fun w =>
    (Ok tt,
     {| sent := sent w; logfile := logfile w; outbox := outbox w ++ [r] |}).

(** Lines 151 to 180. *)
Definition send_tasks (message_text : pystr) : M unit :=
  window <- lift (select_window message_text) ;;
  let '(start_date, end_date) := window in
  token <- get_token E ;;
  tasks <- get_due_cards E token start_date end_date ;;
  match tasks with
  | [] =>
      message_reply
        {| text := NO_TASKS; reply_markup := false; parse_mode_HTML := false |}
  | _ :: _ =>
      message_reply
        {| text := match strip (response_text tasks) with
                   | [] => NO_TASKS
                   | t => t
                   end;
           reply_markup := true;
           parse_mode_HTML := true |}
  end.

End Handler.

(** The world before a command. *)
Definition quiet : world := {| sent := []; logfile := []; outbox := [] |}.

(* ================================================================== *)
(** ** The other handlers *)

(** Line 146, line 147, line 185 and line 192: the fixed replies. *)
Definition REFUSAL : pystr := str "You're not allowed access to the bot".
Definition GREETING : pystr :=
  str "Hi. Choose an action by clicking on the button below to get information from your Planka".
Definition ASK_DATE : pystr :=
  str "Enter the date in DD-MM-YYYYY format (e.g. 10-06-2025)".
Definition BAD_DATE : pystr :=
  str "Incorrect date format. Use DD-MM-YYYYY (be sure to use the '-' character)".

Section OtherHandlers.

Variable E : env.

(** [ALLOWED_USERS] of [config.py]: the ids of the users let in. *)
Variable ALLOWED_USERS : list Z.

(** [datetime.datetime.strptime(text, "%d-%m-%Y")]; [None] is its
    [ValueError]. *)
Variable strptime_dmY : pystr -> option datetime.

(** Lines 144 to 147; [user_id] is [message.from_user.id]. *)
Definition start (user_id : Z) : M unit :=
  if negb (existsb (Z.eqb user_id) ALLOWED_USERS)
  then message_reply
         {| text := REFUSAL; reply_markup := false; parse_mode_HTML := false |}
  else message_reply
         {| text := GREETING; reply_markup := true; parse_mode_HTML := false |}.

(** Lines 184 to 185. *)
Definition ask_date : M unit :=
  message_reply
    {| text := ASK_DATE; reply_markup := false; parse_mode_HTML := false |}.

(** Lines 205 to 208: as [render_card], but for the pictograph before
    [Comment:], which this handler leaves out. *)
Definition render_card_by_date (e : entry) : pystr :=
  let '(name, date, comment) := e in
  NL ++ PAGE ++ str " Card: " ++ format_value E name ++ str "(" ++ CLOCK ++
  str " " ++ date ++ str ")" ++ NL ++
  match comment with
  | [] => []
  | _ :: _ => str "<i>Comment: " ++ comment ++ str "</i>" ++ NL
  end.

(** Lines 203 to 209. *)
Definition render_board_by_date (b : json * list entry) : pystr :=
  NL ++ str "Board: <b>" ++ format_value E (fst b) ++ str "</b>" ++ NL ++
  concat (List.map render_card_by_date (snd b)) ++ str "---" ++ NL.

(** Lines 201 to 209. *)
Definition render_project_by_date (p : json * board_map) : pystr :=
  NL ++ str "----- Project: <b>" ++ format_value E (fst p) ++
  str "</b> -----" ++ NL ++
  concat (List.map render_board_by_date (snd p)).

(** Lines 200 to 209. *)
Definition response_text_by_date (tasks : report) : pystr :=
  concat (List.map render_project_by_date tasks).

(** Lines 197 to 211: the reply for the tasks found. *)
Definition reply_by_date (tasks : report) : M unit :=
  match tasks with
  | [] =>
      message_reply
        {| text := NO_TASKS; reply_markup := false; parse_mode_HTML := false |}
  | _ :: _ =>
      message_reply
        {| text := match strip (response_text_by_date tasks) with
                   | [] => NO_TASKS
                   | t => t
                   end;
           reply_markup := true;
           parse_mode_HTML := true |}
  end.

(** Lines 188 to 211. *)
Definition tasks_by_date (message_text : pystr) : M unit :=
  match strptime_dmY message_text with
  | None =>
      message_reply
        {| text := BAD_DATE; reply_markup := false; parse_mode_HTML := false |}
  | Some parsed =>
      let target_date := date_of parsed in
      token <- get_token E ;;
      tasks <- get_due_cards E token target_date target_date ;;
      reply_by_date tasks
  end.

End OtherHandlers.

(* ================================================================== *)
(** ** A sample outside world *)

(** The examples below run the program against a small Planka instance.
    Its timestamps have the shape Planka sends once the [Z] is removed,
    [YYYY-MM-DDTHH:MM:SS] with an optional [.fff], which every version of
    [fromisoformat] reads the same way. *)
Module Sample.

Local Open Scope string_scope.
Local Open Scope Z_scope.

Definition digit (c : N) : option Z :=
  if ((48 <=? c) && (c <=? 57))%N then Some (Z.of_N c - 48) else None.

Fixpoint number (s : pystr) (acc : Z) : option Z :=
  match s with
  | [] => Some acc
  | c :: s' =>
      match digit c with
      | Some d => number s' (acc * 10 + d)
      | None => None
      end
  end.

(** The number written by the [len] characters of [s] from [pos], provided
    the character after them is [sep] (or the string ends, for [None]). *)
Definition field (s : pystr) (pos len : nat) (sep : option N) : option Z :=
  let digits := firstn len (skipn pos s) in
  let next := nth_error s (pos + len) in
  if (length digits =? len)%nat &&
     match sep, next with
     | None, None => true
     | Some c, Some d => N.eqb c d
     | _, _ => false
     end
  then number digits 0
  else None.

Definition days_in_month (year month : Z) : Z :=
  if (month =? 2) && is_leap year then 29
  else nth (Z.to_nat month) DAYS_IN_MONTH 0.

Definition parse_timestamp (s : pystr) : option datetime :=
  let with_ms := (length s =? 23)%nat in
  match field s 0 4 (Some 45%N), field s 5 2 (Some 45%N),
        field s 8 2 (Some 84%N), field s 11 2 (Some 58%N),
        field s 14 2 (Some 58%N),
        field s 17 2 (if with_ms then Some 46%N else None),
        (if with_ms then field s 20 3 None else Some 0) with
  | Some y, Some m, Some d, Some hh, Some mm, Some ss, Some ms =>
      if (1 <=? y) && (1 <=? m) && (m <=? 12) && (1 <=? d) &&
         (d <=? days_in_month y m) && (hh <? 24) && (mm <? 60) && (ss <? 60)
      then Some (naive y m d hh mm ss (ms * 1000))
      else None
  | _, _, _, _, _, _, _ => None
  end.

(** UTC+3 all year. *)
Definition config0 : config := {|
  USERNAME := str "bot";
  PASSWORD := str "secret";
  BOARD_IDS := [str "b1"];
  TIMEZONE := fun _ => 3 * 3600 * us_per_second
|}.

Definition obj (kv : list (string * json)) : json :=
  JObj (List.map (fun p => (str (fst p), snd p)) kv).
Definition s (x : string) : json := JStr (str x).

(** A comment action of a card. *)
Definition comment_action (text created : string) : json :=
  obj [("type", s "commentCard"); ("data", obj [("text", s text)]);
       ("createdAt", s created)].

(** A card of list [l1], due on 2025-06-10 at 10:00 UTC. *)
Definition card0 : json :=
  obj [("id", s "c1"); ("name", s "Fix pipeline"); ("listId", s "l1");
       ("dueDate", s "2025-06-10T10:00:00.000Z");
       ("isDueDateCompleted", JBool false)].

(** The same without the completion flag, and with a name of 35
    characters. *)
Definition card_long : json :=
  obj [("id", s "c2"); ("name", s "Review the deployment pipeline logs");
       ("listId", s "l1"); ("dueDate", s "2025-06-10T10:00:00.000Z")].

(** A card with neither a due date, a name nor an id. *)
Definition card_bare : list (pystr * json) := [(str "listId", s "l1")].

(** A due card without an id. *)
Definition card_no_id : json :=
  obj [("name", s "Fix pipeline"); ("listId", s "l1");
       ("dueDate", s "2025-06-10T10:00:00.000Z")].

(** The action log of a card: two comments and a move. *)
Definition actions : list json :=
  [comment_action "first   note" "2025-06-01T08:00:00.000Z";
   obj [("type", s "moveCard")];
   comment_action " second
 note " "2025-06-02T08:00:00.000Z"].

Definition token_body : json := obj [("item", s "tok")].
Definition projects_body : json :=
  obj [("items", JList [obj [("id", s "p1"); ("name", s "Ops")]])].
(** Board [b2] is not allow-listed, and has no name. *)
Definition project_body : json :=
  obj [("included",
        obj [("boards",
              JList [obj [("id", s "b1"); ("name", s "Sprint")];
                     obj [("id", s "b2")]])])].
Definition board_body (cards : list json) : json :=
  obj [("included",
        obj [("lists", JList [obj [("id", s "l1")]]);
             ("cards", JList cards)])].

(** Project Ops, board Sprint with list [l1] and the given cards, each
    with the given action log. *)
Definition planka (cards log : list json) (r : request) : http_result :=
  match r with
  | POST_access_tokens _ _ => Response 200 (Some token_body)
  | GET_projects _ => Response 200 (Some projects_body)
  | GET_project _ _ => Response 200 (Some project_body)
  | GET_board _ _ => Response 200 (Some (board_body cards))
  | GET_card_actions _ _ => Response 200 (Some (JObj [(str "items", JList log)]))
  end.

(** A server that cannot be reached for a token and turns every other
    request down. *)
Definition planka_down (r : request) : http_result :=
  match r with
  | POST_access_tokens _ _ => Transport_error
  | _ => Response 401 (Some (obj [("code", s "E_UNAUTHORIZED")]))
  end.

(** The clock shows 2025-06-10 12:00 UTC. *)
Definition env0 (server : request -> http_result) : env := {|
  cfg := config0;
  http := server;
  fromisoformat := parse_timestamp;
  repr := fun _ => str "[...]";
  utcnow := wall (naive 2025 6 10 12 0 0 0);
  log_exists := true;
  log_age_days := 0
|}.

Definition day (y m d : Z) : date := Date (ymd2ord y m d).

Definition tok : json := s "tok".
Definition june10 : date := day 2025 6 10.

(** The sample instance with its one due card. *)
Definition E0 : env := env0 (planka [card0] actions).

(** A card of list [l1] due at the given instant. *)
Definition card_due (stamp : string) : json :=
  obj [("id", s "c3"); ("name", s "Rotate keys"); ("listId", s "l1");
       ("dueDate", s stamp)].

(** A 69-character comment. *)
Definition long_comment : pystr :=
  str "The quick  brown fox jumps over the lazy dog and then takes a long nap".

(** A log whose latest comment is that one. *)
Definition long_log : list json :=
  [comment_action "first note" "2025-06-01T08:00:00.000Z";
   comment_action
     "The quick  brown fox jumps over the lazy dog and then takes a long nap"
     "2025-06-02T08:00:00.000Z"].

End Sample.

(** More of the sample world, for the further properties. *)
Module SampleMore.

Import Sample.

Local Open Scope string_scope.
Local Open Scope Z_scope.

(** A log whose two latest comments carry the same timestamp. *)
Definition actions_tie : list json :=
  [comment_action "old note" "2025-06-01T08:00:00.000Z";
   comment_action "first of two" "2025-06-02T08:00:00.000Z";
   comment_action "second of two" "2025-06-02T08:00:00.000Z"].

(** An open card of list [l1] whose due date is no timestamp. *)
Definition card_bad_date : list (pystr * json) :=
  [(str "id", s "c4"); (str "name", s "Renew domain");
   (str "listId", s "l1"); (str "dueDate", s "soon")].

(** A completed card of list [l1] whose due date is no timestamp. *)
Definition card_done : list (pystr * json) :=
  [(str "listId", s "l1"); (str "dueDate", s "soon");
   (str "isDueDateCompleted", JBool true)].

(** A completed card whose listId is a list. *)
Definition card_odd_list : list (pystr * json) :=
  [(str "listId", JList [s "l1"]); (str "isDueDateCompleted", JBool true)].

(** The sample instance seen with an empty allow-list. *)
Definition env_closed : env := {|
  cfg := {| USERNAME := str "bot"; PASSWORD := str "secret";
            BOARD_IDS := []; TIMEZONE := fun _ => 3 * 3600 * us_per_second |};
  http := planka [card0] actions;
  fromisoformat := parse_timestamp;
  repr := fun _ => str "[...]";
  utcnow := wall (naive 2025 6 10 12 0 0 0);
  log_exists := true;
  log_age_days := 0
|}.

(** A token request answered without an ["item"]. *)
Definition planka_no_item (r : request) : http_result :=
  match r with
  | POST_access_tokens _ _ =>
      Response 200 (Some (obj [("error", s "unknown user")]))
  | _ => planka [card0] actions r
  end.

(** Dates typed as [DD-MM-YYYY] in ASCII digits, which every version of
    [strptime] reads the same way. *)
Definition parse_date (t : pystr) : option datetime :=
  match field t 0 2 (Some 45%N), field t 3 2 (Some 45%N), field t 6 4 None with
  | Some d, Some m, Some y =>
      if (1 <=? y) && (1 <=? m) && (m <=? 12) && (1 <=? d) &&
         (d <=? days_in_month y m)
      then Some (naive y m d 0 0 0 0)
      else None
  | _, _, _ => None
  end.

End SampleMore.

(* ================================================================== *)
(** ** Vocabulary of the statements *)

(** What [re.sub(r"\s+", " ", s)] leaves: the only whitespace is the space
    character, and never twice in a row.  [after_space] tells that the
    character before was a space. *)
Fixpoint collapsed (after_space : bool) (s : pystr) : bool :=
  match s with
  | [] => true
  | c :: s' =>
      if isspace c
      then negb after_space && N.eqb c SP && collapsed true s'
      else collapsed false s'
  end.

(** A string that does not start with whitespace. *)
Definition starts_clean (s : pystr) : Prop :=
  match s with
  | [] => True
  | c :: _ => isspace c = false
  end.

(** The text begins with whitespace. *)
Definition begins_with_space (s : pystr) : bool :=
  match s with
  | [] => false
  | c :: _ => isspace c
  end.

(** The words of a text: its maximal runs of characters that are not
    whitespace, in order. *)
Fixpoint words (s : pystr) : list pystr :=
  match s with
  | [] => []
  | c :: s' =>
      if isspace c then words s'
      else match words s' with
           | [] => [[c]]
           | w :: ws =>
               if begins_with_space s' then [c] :: w :: ws
               else (c :: w) :: ws
           end
  end.

(** The words with one space between each two. *)
Fixpoint unwords (ws : list pystr) : pystr :=
  match ws with
  | [] => []
  | w :: ws' =>
      match ws' with
      | [] => w
      | _ :: _ => w ++ SP :: unwords ws'
      end
  end.

(** The whitespace-normalised text, in the words of the specification:
    every run of whitespace collapsed to a single space, and the text
    trimmed.  What is left are the words, one space between each two. *)
Definition normalized (s : pystr) : pystr := unwords (words s).

(** The number of card entries of a Report. *)
Definition total {V : Type} (size : V -> nat) (d : list (json * V)) : nat :=
  fold_right (fun kv n => (size (snd kv) + n)%nat) 0%nat d.

Definition entries (r : report) : nat := total (total (@length entry)) r.

(** No project of the Report is without boards, no board without cards. *)
Definition no_empty_groups (r : report) : Prop :=
  Forall (fun p : json * board_map =>
            snd p <> [] /\
            Forall (fun b : json * list entry => snd b <> []) (snd p)) r.

(** The value a dict holds for a key, or an empty one. *)
Definition find_or_empty {V : Type} (k : json) (d : list (json * list V))
  : list V :=
  match PyDict.find k d with
  | Some v => v
  | None => []
  end.

(** A field of a card record. *)
Definition card_field (card : json) (k : string) : option json :=
  match card with
  | JObj kv => Py.lookup (str k) kv
  | _ => None
  end.

(** The Card of the data model: an object with an id, a string name, a
    hashable listId when it has one, a dueDate that is absent, null or a
    timestamp that can be shown in the display timezone, and an
    isDueDateCompleted that is absent or a boolean. *)
Definition well_typed_card (E : env) (card : json) : bool :=
  match card with
  | JObj _ =>
      match card_field card "id" with Some _ => true | None => false end &&
      match card_field card "name" with Some (JStr _) => true | _ => false end &&
      match card_field card "listId" with
      | Some l => Py.hashable l
      | None => true
      end &&
      match card_field card "dueDate" with
      | None | Some JNull => true
      | Some (JStr (c :: d)) =>
          match due_date_local E (JStr (c :: d)) with
          | Ok _ => true
          | Raise _ => false
          end
      | Some _ => false
      end &&
      match card_field card "isDueDateCompleted" with
      | None | Some (JBool _) => true
      | Some _ => false
      end
  | _ => false
  end.

(** What lines 103 to 113 ask of a card, as the code computes it: the
    listId is among the valid list ids, line 110 makes a date of the dueDate
    that lies in the window, and isDueDateCompleted is absent or false. *)
Definition test_conditions (E : env) (valid_list_ids : list json)
  (start_date end_date : date) (card : json) : Prop :=
  (exists l, card_field card "listId" = Some l /\
             existsb (fun y => Py.eq_scalar y l) valid_list_ids = true) /\
  (exists d dt, card_field card "dueDate" = Some d /\ d <> JNull /\
                due_date_local E d = Ok dt /\
                toordinal start_date <= toordinal (date_of dt)
                  <= toordinal end_date) /\
  (card_field card "isDueDateCompleted" = None \/
   card_field card "isDueDateCompleted" = Some (JBool false)).

(** A moment is counted in microseconds from 0001-01-01T00:00; the calendar
    of [datetime] ends with the year 9999. *)
Definition in_calendar (us : Z) : bool :=
  (0 <=? us) && (us <? MAXORDINAL * us_per_day).

(** [stamp] is a UTC timestamp of the moment [utc]: without its zone
    designator [Z] it reads as that moment, with no offset or with the
    offset zero. *)
Definition utc_timestamp (E : env) (stamp : pystr) (utc : Z) : Prop :=
  exists dt,
    fromisoformat E (remove_char 90%N stamp) = Some dt /\
    (tzinfo dt = None \/ tzinfo dt = Some 0) /\
    wall dt = utc.

(** The calendar date of the UTC moment [utc] in the display timezone is
    [d]: on the clocks of that zone, which are ahead of UTC by the offset
    in force at the moment, it lies between the midnight that begins [d]
    and the next one. *)
Definition local_date (E : env) (utc : Z) (d : date) : Prop :=
  let clock := utc + TIMEZONE (cfg E) utc in
  (toordinal d - 1) * us_per_day <= clock < toordinal d * us_per_day.

(** The Card of the data model, told without the program: an object with an
    id, a string name, a hashable listId when it has one, an
    isDueDateCompleted that is absent or a boolean, and a dueDate that is
    absent, null or a UTC timestamp of a moment that falls in the calendar
    both on the UTC clock and on the clocks of the display timezone. *)
Definition data_model_card (E : env) (card : json) : bool :=
  match card with
  | JObj _ =>
      match card_field card "id" with Some _ => true | None => false end &&
      match card_field card "name" with Some (JStr _) => true | _ => false end &&
      match card_field card "listId" with
      | Some l => Py.hashable l
      | None => true
      end &&
      match card_field card "dueDate" with
      | None | Some JNull => true
      | Some (JStr (c :: d)) =>
          match fromisoformat E (remove_char 90%N (c :: d)) with
          | Some dt =>
              match tzinfo dt with None => true | Some off => off =? 0 end &&
              in_calendar (wall dt) &&
              in_calendar (wall dt + TIMEZONE (cfg E) (wall dt))
          | None => false
          end
      | Some _ => false
      end &&
      match card_field card "isDueDateCompleted" with
      | None | Some (JBool _) => true
      | Some _ => false
      end
  | _ => false
  end.

(** The inclusion predicate, in the words of the specification: the listId
    is present and among the board's valid list ids, the dueDate is present,
    a UTC timestamp whose calendar date in the display timezone lies in
    [[start_date, end_date]], and isDueDateCompleted is false (which is
    also what an absent field counts as). *)
Definition due_relevant (E : env) (valid_list_ids : list json)
  (start_date end_date : date) (card : json) : Prop :=
  (exists l, card_field card "listId" = Some l /\
             existsb (fun y => Py.eq_scalar y l) valid_list_ids = true) /\
  (exists stamp utc d,
      card_field card "dueDate" = Some (JStr stamp) /\
      utc_timestamp E stamp utc /\
      local_date E utc d /\
      toordinal start_date <= toordinal d <= toordinal end_date) /\
  (card_field card "isDueDateCompleted" = None \/
   card_field card "isDueDateCompleted" = Some (JBool false)).

(** Lines 103 to 113 on their own: the tests a card goes through, giving
    its due date in the display timezone when it passes them all. *)
Definition card_test (E : env) (valid_list_ids : list json)
  (start_date end_date : date) (card : json) : pyresult (option datetime) :=
  has_list <- Py.contains (str "listId") card ;;
  if negb has_list then ret None
  else
    (listId <- Py.getitem card (str "listId") ;;
     valid <- PyDict.set_contains listId valid_list_ids ;;
     if negb valid then ret None
     else
       (due_date <- Py.get card (str "dueDate") JNull ;;
        completed <- Py.get card (str "isDueDateCompleted") (JBool false) ;;
        if Py.truthy due_date && negb (Py.truthy completed)
        then
          (due_date_obj <- due_date_local E due_date ;;
           if date_le start_date (date_of due_date_obj)
              && date_le (date_of due_date_obj) end_date
           then ret (Some due_date_obj)
           else ret None)
        else ret None)).

(** Lines 114 to 124 on their own: what is done with a card that passed. *)
Definition store_card (E : env) (token project_name board_name : json)
  (card : json) (due_date_obj : datetime) (result : report) : M report :=
  name <- lift (Py.getitem card (str "name")) ;;
  short <- lift (short_name name) ;;
  id <- lift (Py.getitem card (str "id")) ;;
  comment <- get_last_comment E token id ;;
  lift (report_add project_name board_name
          (short, strftime_dmY_HM due_date_obj, comment) result).

(** The card passes the tests of the loop. *)
Definition passes (E : env) (valid_list_ids : list json)
  (start_date end_date : date) (card : json) : bool :=
  match card_test E valid_list_ids start_date end_date card with
  | Ok (Some _) => true
  | _ => false
  end.

(** The document a request is answered with, when there is one. *)
Definition json_of (E : env) (r : request) : pyresult json :=
  match http E r with
  | Transport_error => Raise ConnectionError
  | Response _ (Some j) => Ok j
  | Response _ None => Raise JSONDecodeError
  end.

(** [item] is a comment action with text [raw], created at [created]. *)
Definition is_comment_action (E : env) (item : json) (raw : pystr)
  (created : datetime) : Prop :=
  exists type data stamp,
    Py.getitem item (str "type") = Ok type /\
    Py.eq_str type (str "commentCard") = true /\
    Py.getitem item (str "data") = Ok data /\
    Py.getitem data (str "text") = Ok (JStr raw) /\
    Py.getitem item (str "createdAt") = Ok (JStr stamp) /\
    fromisoformat E (remove_char 90%N stamp) = Some created.

(** An action as Planka sends it: an object with a type, and for a comment
    a string [data.text] and a string [createdAt] which, where it parses,
    gives a naive value. *)
Definition well_formed_action (E : env) (item : json) : bool :=
  match Py.getitem item (str "type") with
  | Ok type =>
      if Py.eq_str type (str "commentCard")
      then match Py.getitem item (str "data") with
           | Ok data =>
               match Py.getitem data (str "text"),
                     Py.getitem item (str "createdAt") with
               | Ok (JStr _), Ok (JStr stamp) =>
                   match fromisoformat E (remove_char 90%N stamp) with
                   | Some dt =>
                       match tzinfo dt with None => true | Some _ => false end
                   | None => true
                   end
               | _, _ => false
               end
           | Raise _ => false
           end
      else true
  | Raise _ => false
  end.

(** [item] is a comment action. *)
Definition is_comment (item : json) : bool :=
  match Py.getitem item (str "type") with
  | Ok type => Py.eq_str type (str "commentCard")
  | Raise _ => false
  end.

(** Lines 51 to 65 on their own: what [get_last_comment] makes of the
    document it fetched. *)
Definition pick_last_comment (E : env) (response : json) : pyresult pystr :=
  has_items <- Py.contains (str "items") response ;;
  if negb has_items then ret []
  else
    (items <- Py.getitem response (str "items") ;;
     items <- Py.iter items ;;
     comments <- comments_of E items ;;
     match comments with
     | [] => ret []
     | _ :: _ =>
         sorted <- sort_desc comments ;;
         match sorted with
         | c :: _ => ret (slice_to 50 (c_text c))
         | [] => raise IndexError
         end
     end).

(** Lines 66 to 69 on their own: the two [except] clauses. *)
Definition absorb (r : pyresult pystr) : pyresult pystr :=
  match r with
  | Ok s => Ok s
  | Raise e =>
      if is_RequestException e then Ok []
      else if is_ValueError e then Ok []
      else Raise e
  end.

(** [item] is a comment action whose [createdAt] does not parse. *)
Definition unparsable (E : env) (item : json) : bool :=
  is_comment item &&
  match Py.getitem item (str "createdAt") with
  | Ok (JStr stamp) =>
      match fromisoformat E (remove_char 90%N stamp) with
      | None => true
      | Some _ => false
      end
  | _ => false
  end.

(** Lines 166 to 180 on their own: the reply for the tasks found. *)
Definition reply_with (E : env) (tasks : report) : M unit :=
  match tasks with
  | [] =>
      message_reply
        {| text := NO_TASKS; reply_markup := false; parse_mode_HTML := false |}
  | _ :: _ =>
      message_reply
        {| text := match strip (response_text E tasks) with
                   | [] => NO_TASKS
                   | t => t
                   end;
           reply_markup := true;
           parse_mode_HTML := true |}
  end.

(** The token request the program sends. *)
Definition token_request (E : env) : request :=
  POST_access_tokens (USERNAME (cfg E)) (PASSWORD (cfg E)).

(** The token request fails in transport or is answered with an error
    status. *)
Definition token_request_fails (E : env) : Prop :=
  http E (token_request E) = Transport_error \/
  exists st b, http E (token_request E) = Response st b /\ 400 <= st < 600.

(** The three buttons, and the window the specification gives each: today
    with all the past, tomorrow only, the seven days after today. *)
Inductive button : Type := Today | Tomorrow | Week.

Definition label (b : button) : pystr :=
  match b with
  | Today => TASKS_TODAY
  | Tomorrow => TASKS_TOMORROW
  | Week => TASKS_WEEK
  end.

Definition plus_days (d : date) (n : Z) : date := Date (toordinal d + n).

Definition specified_window (today : date) (b : button) : date * date :=
  match b with
  | Today => (date_min, today)
  | Tomorrow => (plus_days today 1, plus_days today 1)
  | Week => (plus_days today 1, plus_days today 7)
  end.

(** What the traversal reads, level by level, as functions of the
    outside alone.  Lines 77 to 78: the projects. *)
Definition projects_view (E : env) (token : json) : pyresult (list json) :=
  projects_response <- json_of E (GET_projects token) ;;
  projects <- Py.getitem projects_response (str "items") ;;
  Py.iter projects.

(** Lines 81 to 88: the name of a project and its allow-listed boards. *)
Definition project_view (E : env) (token project : json)
  : pyresult (json * list json) :=
  project_name <- Py.getitem project (str "name") ;;
  project_id <- Py.getitem project (str "id") ;;
  boards_response <- json_of E (GET_project token project_id) ;;
  included <- Py.getitem boards_response (str "included") ;;
  boards <- Py.getitem included (str "boards") ;;
  boards <- Py.iter boards ;;
  filtered_boards <- filter_boards E boards ;;
  ret (project_name, filtered_boards).

(** Lines 91 to 100: the name of a board, its valid list ids, its cards. *)
Definition board_view (E : env) (token board : json)
  : pyresult (json * list json * list json) :=
  board_name <- Py.getitem board (str "name") ;;
  board_id <- Py.getitem board (str "id") ;;
  board_response <- json_of E (GET_board token board_id) ;;
  included <- Py.getitem board_response (str "included") ;;
  included_lists <- Py.getitem included (str "lists") ;;
  included_lists <- Py.iter included_lists ;;
  valid_list_ids <- list_ids included_lists ;;
  included <- Py.getitem board_response (str "included") ;;
  cards <- Py.getitem included (str "cards") ;;
  cards <- Py.iter cards ;;
  ret (board_name, valid_list_ids, cards).

(** Some card of the board passes the tests; some card of some board of the
    project does. *)
Definition board_hits (E : env) (token : json) (s e : date) (board : json)
  : bool :=
  match board_view E token board with
  | Ok (_, valid, cards) => existsb (passes E valid s e) cards
  | Raise _ => false
  end.

Definition project_hits (E : env) (token : json) (s e : date)
  (project : json) : bool :=
  match project_view E token project with
  | Ok (_, boards) => existsb (board_hits E token s e) boards
  | Raise _ => false
  end.

(** Every card the traversal scans, with the valid list ids of its board. *)
Definition scanned_cards (E : env) (token : json) : list (list json * json) :=
  match projects_view E token with
  | Ok projects =>
      flat_map
        (fun project =>
           match project_view E token project with
           | Ok (_, boards) =>
               flat_map
                 (fun board =>
                    match board_view E token board with
                    | Ok (_, valid, cards) => List.map (pair valid) cards
                    | Raise _ => []
                    end)
                 boards
           | Raise _ => []
           end)
        projects
  | Raise _ => []
  end.

(** The object [x] has no key [k]. *)
Definition lacks (x : json) (k : string) : Prop :=
  exists kv, x = JObj kv /\ Py.lookup (str k) kv = None.

(** The computation raises, whatever the world it starts in. *)
Definition fails {A : Type} (c : M A) : Prop :=
  forall w, exists x w', c w = (Raise x, w').

(** A key the traversal reads is missing: in a card that passed the
    tests ... *)
Inductive card_lacks_key (E : env) (valid : list json) (s e : date)
  (card : json) : Prop :=
| Card_lacks (k : string) :
    passes E valid s e card = true ->
    k = "name"%string \/ k = "id"%string ->
    lacks card k ->
    card_lacks_key E valid s e card.

(** ... in an allow-listed board, its detail view, one of its lists or one
    of its cards ... *)
Inductive board_lacks_key (E : env) (token : json) (s e : date)
  (board : json) : Prop :=
| Board_lacks (k : string) :
    k = "name"%string \/ k = "id"%string ->
    lacks board k ->
    board_lacks_key E token s e board
| Board_response_lacks (id response : json) :
    Py.getitem board (str "id") = Ok id ->
    json_of E (GET_board token id) = Ok response ->
    lacks response "included" ->
    board_lacks_key E token s e board
| Board_included_lacks (id response included : json) (k : string) :
    Py.getitem board (str "id") = Ok id ->
    json_of E (GET_board token id) = Ok response ->
    Py.getitem response (str "included") = Ok included ->
    k = "lists"%string \/ k = "cards"%string ->
    lacks included k ->
    board_lacks_key E token s e board
| Board_list_lacks (id response included lst : json) (lists : list json) :
    Py.getitem board (str "id") = Ok id ->
    json_of E (GET_board token id) = Ok response ->
    Py.getitem response (str "included") = Ok included ->
    Py.getitem included (str "lists") = Ok (JList lists) ->
    In lst lists ->
    lacks lst "id" ->
    board_lacks_key E token s e board
| Board_card_lacks (name card : json) (valid cards : list json) :
    board_view E token board = Ok (name, valid, cards) ->
    In card cards ->
    card_lacks_key E valid s e card ->
    board_lacks_key E token s e board.

(** ... in a project, its detail view, or one of its boards ... *)
Inductive project_lacks_key (E : env) (token : json) (s e : date)
  (project : json) : Prop :=
| Project_lacks (k : string) :
    k = "name"%string \/ k = "id"%string ->
    lacks project k ->
    project_lacks_key E token s e project
| Project_response_lacks (id response : json) :
    Py.getitem project (str "id") = Ok id ->
    json_of E (GET_project token id) = Ok response ->
    lacks response "included" ->
    project_lacks_key E token s e project
| Project_included_lacks (id response included : json) :
    Py.getitem project (str "id") = Ok id ->
    json_of E (GET_project token id) = Ok response ->
    Py.getitem response (str "included") = Ok included ->
    lacks included "boards" ->
    project_lacks_key E token s e project
| Project_board_lacks_id (id response included board : json)
    (boards : list json) :
    Py.getitem project (str "id") = Ok id ->
    json_of E (GET_project token id) = Ok response ->
    Py.getitem response (str "included") = Ok included ->
    Py.getitem included (str "boards") = Ok (JList boards) ->
    In board boards ->
    lacks board "id" ->
    project_lacks_key E token s e project
| Project_board_lacks (name board : json) (boards : list json) :
    project_view E token project = Ok (name, boards) ->
    In board boards ->
    board_lacks_key E token s e board ->
    project_lacks_key E token s e project.

(** ... or in the list of projects. *)
Inductive traversal_lacks_key (E : env) (token : json) (s e : date) : Prop :=
| Projects_lack_items (response : json) :
    json_of E (GET_projects token) = Ok response ->
    lacks response "items" ->
    traversal_lacks_key E token s e
| Projects_project_lacks (project : json) (projects : list json) :
    projects_view E token = Ok projects ->
    In project projects ->
    project_lacks_key E token s e project ->
    traversal_lacks_key E token s e.

(** ** Vocabulary of the further statements *)

(** A string that does not end with whitespace. *)
Definition ends_clean (s : pystr) : Prop := starts_clean (rev s).

(** The world after the requests [l] were sent and nothing else was done. *)
Definition add_sents (l : list request) (w : world) : world :=
  {| sent := sent w ++ l; logfile := logfile w; outbox := outbox w |}.

(** The request asks for the actions of a card. *)
Definition is_card_actions (r : request) : bool :=
  match r with
  | GET_card_actions _ _ => true
  | _ => false
  end.

(** The number of comment fetches among the requests [l]. *)
Definition tally (l : list request) : nat :=
  length (filter is_card_actions l).

(** A request [get_due_cards] may send for [token]: a read that carries the
    token and, for a board, names an allow-listed one. *)
Definition reads_for (E : env) (token : json) (r : request) : Prop :=
  match r with
  | POST_access_tokens _ _ => False
  | GET_projects t | GET_project t _ | GET_card_actions t _ => t = token
  | GET_board t id => t = token /\ in_BOARD_IDS E id = true
  end.

(** The computation only reads from Planka for [token], and when it returns
    a Report, that has one more entry than [acc] for each comment fetched. *)
Definition reads (E : env) (token : json) (acc : report) (c : M report)
  : Prop :=
  forall w, exists l,
    snd (c w) = add_sents l w /\
    Forall (reads_for E token) l /\
    (forall acc', fst (c w) = Ok acc' ->
                  entries acc' = (entries acc + tally l)%nat).

(** Every entry of the Report satisfies [Q]. *)
Definition all_entries (Q : entry -> Prop) (r : report) : Prop :=
  Forall (fun p : json * board_map =>
            Forall (fun b : json * list entry => Forall Q (snd b)) (snd p)) r.

(** The entry fits a chat message: a comment of at most 50 characters and,
    when the name is a string, at most 33 of them. *)
Definition entry_fits (e : entry) : Prop :=
  (length (snd e) <= 50)%nat /\
  (forall n, fst (fst e) = JStr n -> (length n <= 33)%nat).

(** Lines 103 to 111 on their own: the tests of a card that do not look at
    the window, giving its due date in the display timezone. *)
Definition due_date_of_card (E : env) (valid_list_ids : list json)
  (card : json) : pyresult (option datetime) :=
  has_list <- Py.contains (str "listId") card ;;
  if negb has_list then ret None
  else
    (listId <- Py.getitem card (str "listId") ;;
     valid <- PyDict.set_contains listId valid_list_ids ;;
     if negb valid then ret None
     else
       (due_date <- Py.get card (str "dueDate") JNull ;;
        completed <- Py.get card (str "isDueDateCompleted") (JBool false) ;;
        if Py.truthy due_date && negb (Py.truthy completed)
        then (due_date_obj <- due_date_local E due_date ;;
              ret (Some due_date_obj))
        else ret None)).

(** The world [clear_log] leaves. *)
Definition cleared (E : env) (w : world) : world := snd (clear_log E w).

(** The token request is answered with a status that
    [raise_for_status] lets through and a JSON document. *)
Definition token_answered (E : env) (j : json) : Prop :=
  exists st, http E (token_request E) = Response st (Some j) /\
             (st < 400 \/ 600 <= st).

(** The entry the card loop makes of a card that passes: its shortened
    name, its due date in the display timezone as text, its last
    comment. *)
Definition entry_of (E : env) (token : json) (valid : list json)
  (s e : date) (card : json) (x : entry) : Prop :=
  exists name dt id v,
    card_test E valid s e card = Ok (Some dt) /\
    Py.getitem card (str "name") = Ok name /\
    short_name name = Ok (fst (fst x)) /\
    snd (fst x) = strftime_dmY_HM dt /\
    Py.getitem card (str "id") = Ok id /\
    fst (get_last_comment E token id v) = Ok (snd x).

(* ================================================================== *)
(** * Properties *)

(** ** Whitespace normalisation *)

Section Whitespace.

Lemma sub_ws_collapsed (s : pystr) :
  forall b, collapsed b (sub_ws b s) = true.
Proof.
  induction s as [|c s IH]; intros b; simpl; [reflexivity|].
  destruct (isspace c) eqn:Hc.
  - destruct b; simpl; [apply IH|].
    change (isspace SP) with true; simpl. apply IH.
  - simpl. rewrite Hc. apply IH.
Qed.

Lemma collapsed_fixed (s : pystr) :
  forall b, collapsed b s = true -> sub_ws b s = s.
Proof.
  induction s as [|c s IH]; intros b H; simpl in *; [reflexivity|].
  destruct (isspace c) eqn:Hc.
  - apply andb_prop in H as [H H2]. apply andb_prop in H as [H0 H1].
    destruct b; [discriminate|].
    apply N.eqb_eq in H1. subst c. f_equal. apply IH, H2.
  - f_equal. apply IH, H.
Qed.

Lemma collapsed_weaken (s : pystr) b :
  collapsed b s = true -> collapsed false s = true.
Proof.
  destruct s as [|c s]; simpl; [reflexivity|].
  destruct (isspace c); [|tauto].
  destruct b; simpl; [discriminate|tauto].
Qed.

Lemma collapsed_prefix (p q : pystr) :
  forall b, collapsed b (p ++ q) = true -> collapsed b p = true.
Proof.
  induction p as [|c p IH]; intros b H; simpl in *; [reflexivity|].
  destruct (isspace c).
  - apply andb_prop in H as [H H2]. rewrite H. simpl. apply IH, H2.
  - apply IH, H.
Qed.

Lemma collapsed_suffix (p q : pystr) :
  forall b, collapsed b (p ++ q) = true -> collapsed false q = true.
Proof.
  induction p as [|c p IH]; intros b H; simpl in *.
  - eapply collapsed_weaken, H.
  - destruct (isspace c).
    + apply andb_prop in H as [_ H]. apply (IH _ H).
    + apply (IH _ H).
Qed.

(** [lstrip] removes a prefix. *)
Lemma lstrip_suffix (s : pystr) : exists ws, s = ws ++ lstrip s.
Proof.
  induction s as [|c s [ws IH]]; [exists []; reflexivity|].
  simpl. destruct (isspace c).
  - exists (c :: ws). simpl. f_equal. exact IH.
  - exists []. reflexivity.
Qed.

Lemma lstrip_starts_clean (s : pystr) : starts_clean (lstrip s).
Proof.
  induction s as [|c s IH]; simpl; [exact I|].
  destruct (isspace c) eqn:Hc; [exact IH|]. simpl. exact Hc.
Qed.

Lemma lstrip_fixed (s : pystr) : starts_clean s -> lstrip s = s.
Proof.
  destruct s as [|c s]; simpl; [reflexivity|]. intros ->. reflexivity.
Qed.

(** [rstrip] removes a suffix. *)
Lemma rstrip_prefix (s : pystr) : exists ws, s = rstrip s ++ ws.
Proof.
  unfold rstrip. destruct (lstrip_suffix (rev s)) as [ws H].
  exists (rev ws).
  rewrite <- rev_app_distr, <- H. symmetry. apply rev_involutive.
Qed.

Lemma rstrip_rstrip (s : pystr) : rstrip (rstrip s) = rstrip s.
Proof.
  unfold rstrip. rewrite rev_involutive.
  rewrite (lstrip_fixed _ (lstrip_starts_clean _)). reflexivity.
Qed.

Lemma rstrip_starts_clean (s : pystr) : starts_clean s -> starts_clean (rstrip s).
Proof.
  intros H. destruct (rstrip_prefix s) as [ws Hs].
  destruct (rstrip s) as [|c r]; [exact I|].
  rewrite Hs in H. exact H.
Qed.

Lemma clean_comment_collapsed (s : pystr) :
  collapsed false (clean_comment s) = true.
Proof.
  unfold clean_comment, strip.
  pose proof (sub_ws_collapsed s false) as H.
  destruct (lstrip_suffix (sub_ws false s)) as [ws Hl].
  rewrite Hl in H. apply collapsed_suffix in H.
  destruct (rstrip_prefix (lstrip (sub_ws false s))) as [ws' Hr].
  rewrite Hr in H. apply collapsed_prefix in H. exact H.
Qed.

Lemma clean_comment_fixed (s : pystr) :
  clean_comment (clean_comment s) = clean_comment s.
Proof.
  unfold clean_comment at 1.
  rewrite (collapsed_fixed _ _ (clean_comment_collapsed s)).
  unfold clean_comment, strip.
  rewrite lstrip_fixed.
  - apply rstrip_rstrip.
  - apply rstrip_starts_clean, lstrip_starts_clean.
Qed.

(** [clean_comment] against the normalised text of the specification. *)

Lemma lstrip_app (l m : pystr) :
  lstrip (l ++ m) = match lstrip l with
                    | [] => lstrip m
                    | c :: r => (c :: r) ++ m
                    end.
Proof.
  induction l as [|c l IH]; simpl; [destruct (lstrip m); reflexivity|].
  destruct (isspace c); [exact IH|reflexivity].
Qed.

Lemma rstrip_cons (c : N) (t : pystr) :
  rstrip (c :: t) = match rstrip t with
                    | [] => if isspace c then [] else [c]
                    | d :: r => c :: d :: r
                    end.
Proof.
  unfold rstrip. simpl rev. rewrite lstrip_app.
  destruct (lstrip (rev t)) as [|d r] eqn:Hl; simpl.
  - destruct (isspace c); reflexivity.
  - rewrite rev_app_distr. simpl.
    destruct (rev r ++ [d]) eqn:Hr.
    + destruct (rev r); discriminate.
    + reflexivity.
Qed.

Lemma words_not_empty (s : pystr) : Forall (fun w => w <> []) (words s).
Proof.
  induction s as [|c s IH]; simpl; [constructor|].
  destruct (isspace c); [exact IH|].
  destruct (words s) as [|w ws]; [repeat constructor; discriminate|].
  inversion IH; subst.
  destruct (begins_with_space s); repeat constructor; auto; discriminate.
Qed.

Lemma unwords_empty (ws : list pystr) :
  Forall (fun w => w <> []) ws -> unwords ws = [] -> ws = [].
Proof.
  destruct ws as [|w ws]; [reflexivity|].
  intros H. inversion H; subst. simpl.
  destruct ws; [congruence|]. destruct w; [congruence|discriminate].
Qed.

Lemma unwords_cons_char (c : N) (w : pystr) (ws : list pystr) :
  unwords ((c :: w) :: ws) = c :: unwords (w :: ws).
Proof. simpl. destruct ws; reflexivity. Qed.

(** After [re.sub] and [rstrip] the words are left, one space apart, after
    one space more where the text began with whitespace ahead of a word. *)
Lemma rstrip_sub_ws (s : pystr) :
  rstrip (sub_ws true s) = normalized s /\
  rstrip (sub_ws false s)
  = match words s with
    | [] => []
    | _ :: _ => if begins_with_space s then [SP] else []
    end ++ normalized s.
Proof.
  unfold normalized.
  induction s as [|c s [IH1 IH2]]; [split; reflexivity|].
  simpl sub_ws. simpl words. simpl begins_with_space.
  destruct (isspace c) eqn:Hc.
  - split; [exact IH1|].
    rewrite rstrip_cons, IH1. change (isspace SP) with true.
    destruct (words s) as [|w ws] eqn:Hw; [reflexivity|].
    destruct (unwords (w :: ws)) eqn:Hu; [|reflexivity].
    apply unwords_empty in Hu; [discriminate|].
    rewrite <- Hw. apply words_not_empty.
  - assert (H : rstrip (c :: sub_ws false s)
                = c :: match words s with
                       | [] => []
                       | _ :: _ => if begins_with_space s then [SP] else []
                       end ++ unwords (words s)).
    { rewrite rstrip_cons, IH2, Hc.
      destruct (_ ++ unwords (words s)); reflexivity. }
    rewrite H. clear H IH1 IH2.
    assert (G : c :: match words s with
                     | [] => []
                     | _ :: _ => if begins_with_space s then [SP] else []
                     end ++ unwords (words s)
                = unwords match words s with
                          | [] => [[c]]
                          | w :: ws =>
                              if begins_with_space s then [c] :: w :: ws
                              else (c :: w) :: ws
                          end).
    { destruct (words s) as [|w ws]; [reflexivity|].
      destruct (begins_with_space s).
      - reflexivity.
      - rewrite unwords_cons_char. reflexivity. }
    split; [exact G|].
    rewrite <- G.
    match goal with
    | |- _ = match ?x with _ => _ end ++ _ => destruct x; reflexivity
    end.
Qed.

Lemma sub_ws_true_starts_clean (s : pystr) : starts_clean (sub_ws true s).
Proof.
  induction s as [|c s IH]; simpl; [exact I|].
  destruct (isspace c) eqn:Hc; [exact IH|exact Hc].
Qed.

Lemma lstrip_sub_ws (s : pystr) : lstrip (sub_ws false s) = sub_ws true s.
Proof.
  destruct s as [|c s]; [reflexivity|]. simpl.
  destruct (isspace c) eqn:Hc.
  - change (lstrip (SP :: sub_ws true s)) with (lstrip (sub_ws true s)).
    apply lstrip_fixed, sub_ws_true_starts_clean.
  - simpl. rewrite Hc. reflexivity.
Qed.

(** [clean_comment] computes the normalised text of the specification. *)
Lemma clean_comment_normalized (s : pystr) : clean_comment s = normalized s.
Proof.
  unfold clean_comment, strip. rewrite lstrip_sub_ws.
  apply rstrip_sub_ws.
Qed.

End Whitespace.

Lemma slice_to_length (n : nat) (s : pystr) :
  (n <= length s)%nat -> length (slice_to n s) = n.
Proof. intros H. unfold slice_to. apply firstn_length_le, H. Qed.

(** ** Dicts *)

Section Dicts.

Context {V : Type}.
Implicit Types (k : json) (d : list (json * V)).

Lemma eq_scalar_refl k : Py.hashable k = true -> Py.eq_scalar k k = true.
Proof.
  destruct k; simpl; try discriminate; intros _; try reflexivity.
  - apply Bool.eqb_reflx.
  - apply Z.eqb_refl.
  - induction s as [|c s IH]; simpl; [reflexivity|].
    rewrite N.eqb_refl. exact IH.
Qed.

Lemma find_setitem k (v : V) d :
  Py.hashable k = true -> PyDict.find k (PyDict.setitem k v d) = Some v.
Proof.
  intros Hk. induction d as [|[k' v'] d IH]; simpl.
  - rewrite (eq_scalar_refl _ Hk). reflexivity.
  - destruct (Py.eq_scalar k' k) eqn:He; simpl; rewrite He; auto.
Qed.

Lemma setitem_setitem k (v v0 : V) d :
  Py.hashable k = true ->
  PyDict.setitem k v (PyDict.setitem k v0 d) = PyDict.setitem k v d.
Proof.
  intros Hk. induction d as [|[k' v'] d IH]; simpl.
  - rewrite (eq_scalar_refl _ Hk). reflexivity.
  - destruct (Py.eq_scalar k' k) eqn:He; simpl; rewrite He; [reflexivity|].
    f_equal. exact IH.
Qed.

Lemma setitem_not_empty k (v : V) d : PyDict.setitem k v d <> [].
Proof.
  destruct d as [|[k' v'] d]; simpl; [discriminate|].
  destruct (Py.eq_scalar k' k); discriminate.
Qed.

Lemma setitem_Forall (P : V -> Prop) k (v : V) d :
  P v -> Forall (fun kv => P (snd kv)) d ->
  Forall (fun kv => P (snd kv)) (PyDict.setitem k v d).
Proof.
  intros Hv H. induction H as [|[k' v'] d Hx H IH]; simpl.
  - constructor; [exact Hv|constructor].
  - destruct (Py.eq_scalar k' k); constructor; auto.
Qed.

Lemma total_setitem (size : V -> nat) k (v : V) d :
  (total size (PyDict.setitem k v d)
   + match PyDict.find k d with Some v0 => size v0 | None => 0 end
   = total size d + size v)%nat.
Proof.
  induction d as [|[k' v'] d IH]; simpl; [lia|].
  destruct (Py.eq_scalar k' k); simpl; lia.
Qed.

End Dicts.

(** ** The Report *)

Lemma find_or_empty_some {V : Type} (k : json) (d : list (json * list V)) v :
  PyDict.find k d = Some v -> find_or_empty k d = v.
Proof. unfold find_or_empty. intros ->. reflexivity. Qed.

Lemma find_or_empty_none {V : Type} (k : json) (d : list (json * list V)) :
  PyDict.find k d = None -> find_or_empty k d = [].
Proof. unfold find_or_empty. intros ->. reflexivity. Qed.

Lemma size_find_or_empty {V : Type} (size : list V -> nat) (k : json)
  (d : list (json * list V)) :
  size [] = 0%nat ->
  match PyDict.find k d with Some v => size v | None => 0%nat end
  = size (find_or_empty k d).
Proof.
  intros H. unfold find_or_empty. destruct (PyDict.find k d); auto.
Qed.

(** What lines 117 to 124 amount to: the entry goes to the end of
    [result[project_name][board_name]], whose place in the Report is kept
    or, when new, is the last. *)
Lemma report_add_eq (p b : json) (e : entry) (r : report) :
  Py.hashable p = true -> Py.hashable b = true ->
  report_add p b e r =
  Ok (PyDict.setitem p
        (PyDict.setitem b (find_or_empty b (find_or_empty p r) ++ [e])
           (find_or_empty p r)) r).
Proof.
  intros Hp Hb. unfold report_add, PyDict.contains, PyDict.getitem.
  rewrite Hp. cbn.
  destruct (PyDict.find p r) as [boards|] eqn:Hf; cbn;
    rewrite ?Hp, ?Hf, ?Hb; cbn.
  - rewrite (find_or_empty_some _ _ _ Hf).
    destruct (PyDict.find b boards) as [cards|] eqn:Hg; cbn;
      rewrite ?Hb, ?Hg; cbn.
    + rewrite (find_or_empty_some _ _ _ Hg). reflexivity.
    + rewrite (find_or_empty_none _ _ Hg).
      rewrite (find_setitem _ _ _ Hb), (setitem_setitem _ _ _ _ Hb).
      reflexivity.
  - rewrite (find_or_empty_none _ _ Hf).
    rewrite (find_setitem _ _ _ Hp). cbn.
    rewrite (eq_scalar_refl _ Hb). cbn.
    rewrite (setitem_setitem _ _ _ _ Hp).
    reflexivity.
Qed.

Lemma report_add_hashable (p b : json) (e : entry) (r r' : report) :
  report_add p b e r = Ok r' -> Py.hashable p = true /\ Py.hashable b = true.
Proof.
  unfold report_add, PyDict.contains, PyDict.getitem.
  destruct (Py.hashable p) eqn:Hp; [|discriminate].
  destruct (Py.hashable b) eqn:Hb; [auto|].
  simpl.
  destruct (PyDict.find p r); simpl; rewrite ?Hp; simpl.
  - destruct (PyDict.find p r); simpl; discriminate.
  - rewrite (find_setitem _ _ _ Hp). discriminate.
Qed.

Lemma report_add_entries (p b : json) (e : entry) (r r' : report) :
  report_add p b e r = Ok r' -> entries r' = S (entries r).
Proof.
  intros H. destruct (report_add_hashable _ _ _ _ _ H) as [Hp Hb].
  rewrite (report_add_eq _ _ _ _ Hp Hb) in H. injection H as <-.
  unfold entries.
  pose proof (total_setitem (total (@length entry)) p
    (PyDict.setitem b (find_or_empty b (find_or_empty p r) ++ [e])
       (find_or_empty p r)) r) as H1.
  pose proof (total_setitem (@length entry) b
    (find_or_empty b (find_or_empty p r) ++ [e]) (find_or_empty p r)) as H2.
  rewrite length_app in H2. cbn [length] in H2.
  set (boards := find_or_empty p r) in *.
  set (cards := find_or_empty b boards) in *.
  rewrite (size_find_or_empty (total (@length entry))) in H1 by reflexivity.
  rewrite (size_find_or_empty (@length entry)) in H2 by reflexivity.
  fold boards in H1. fold cards in H2. lia.
Qed.

Lemma report_add_not_empty (p b : json) (e : entry) (r r' : report) :
  report_add p b e r = Ok r' -> r' <> [].
Proof.
  intros H. destruct (report_add_hashable _ _ _ _ _ H) as [Hp Hb].
  rewrite (report_add_eq _ _ _ _ Hp Hb) in H. injection H as <-.
  apply setitem_not_empty.
Qed.

Lemma find_Forall {V : Type} (P : V -> Prop) (k : json) (d : list (json * V)) v :
  Forall (fun kv => P (snd kv)) d -> PyDict.find k d = Some v -> P v.
Proof.
  intros H. induction H as [|[k' v'] d Hx H IH]; simpl; [discriminate|].
  destruct (Py.eq_scalar k' k); [|exact IH].
  intros [= <-]. exact Hx.
Qed.

Lemma report_add_no_empty_groups (p b : json) (e : entry) (r r' : report) :
  no_empty_groups r -> report_add p b e r = Ok r' -> no_empty_groups r'.
Proof.
  intros Hr H. destruct (report_add_hashable _ _ _ _ _ H) as [Hp Hb].
  rewrite (report_add_eq _ _ _ _ Hp Hb) in H. injection H as <-.
  unfold no_empty_groups in *.
  apply (setitem_Forall
           (fun bs : board_map =>
              bs <> [] /\
              Forall (fun b0 : json * list entry => snd b0 <> []) bs)).
  - split; [apply setitem_not_empty|].
    apply (setitem_Forall (fun cs : list entry => cs <> [])).
    + intros Hn. apply app_eq_nil in Hn as [_ Hn]. discriminate.
    + destruct (PyDict.find p r) as [boards|] eqn:Hf.
      * rewrite (find_or_empty_some _ _ _ Hf).
        apply (find_Forall
                 (fun bs : board_map =>
                    bs <> [] /\
                    Forall (fun b0 : json * list entry => snd b0 <> []) bs)
                 _ _ _ Hr Hf).
      * rewrite (find_or_empty_none _ _ Hf). constructor.
  - exact Hr.
Qed.

(** ** One card *)

Ltac break_match :=
  match goal with
  | |- context [match ?x with _ => _ end] =>
      lazymatch x with
      | context [match _ with _ => _ end] => fail
      | _ => destruct x eqn:?
      end
  end.

(** The body of the card loop is its tests followed, for a card that
    passes, by the storing of its entry. *)
Lemma scan_card_test (E : env) (token p b : json) (valid : list json)
  (s e : date) (card : json) (result : report) (w : world) :
  scan_card E token p b valid s e card result w =
  match card_test E valid s e card with
  | Raise x => (Raise x, w)
  | Ok None => (Ok result, w)
  | Ok (Some dt) => store_card E token p b card dt result w
  end.
Proof.
  unfold scan_card, card_test, store_card. cbn.
  unfold lift.
  repeat (break_match; cbn; try reflexivity; try discriminate).
Qed.

Lemma date_le_spec (a b : date) :
  date_le a b = true <-> toordinal a <= toordinal b.
Proof. unfold date_le. apply Z.leb_le. Qed.

Lemma window_spec (s e d : date) :
  date_le s d && date_le d e = true <->
  toordinal s <= toordinal d <= toordinal e.
Proof. rewrite andb_true_iff, !date_le_spec. tauto. Qed.

(** On a well-typed card the tests do not raise, and they pass exactly the
    cards that meet their conditions. *)
Lemma card_test_well_typed (E : env) (valid : list json) (s e : date)
  (card : json) :
  well_typed_card E card = true ->
  exists o, card_test E valid s e card = Ok o /\
            ((exists dt, o = Some dt) <-> test_conditions E valid s e card).
Proof.
  destruct card as [| | | | |kv]; try discriminate.
  unfold well_typed_card, test_conditions, card_field, card_test.
  unfold Py.contains, Py.getitem, Py.get, PyDict.set_contains.
  intros H.
  repeat (apply andb_prop in H as [H ?]).
  destruct (Py.lookup (str "listId") kv) as [l|] eqn:Hl; cbn.
  2:{ eexists; split; [reflexivity|].
      split; [intros [dt [=]]|intros [[l [[=] _]] _]]. }
  rewrite H2. cbn.
  destruct (existsb (fun y => Py.eq_scalar y l) valid) eqn:Hv; cbn.
  2:{ eexists; split; [reflexivity|].
      split; [intros [dt [=]]|intros [[l' [[= <-] Hx]] _]; congruence]. }
  assert (Hc : exists c,
             match Py.lookup (str "isDueDateCompleted") kv with
             | Some v => Ok v
             | None => Ok (JBool false)
             end = Ok (JBool c) /\
             (c = false <->
              (Py.lookup (str "isDueDateCompleted") kv = None \/
               Py.lookup (str "isDueDateCompleted") kv = Some (JBool false)))).
  { destruct (Py.lookup (str "isDueDateCompleted") kv) as [[| c | | | |]|];
      try discriminate.
    - exists c. split; [reflexivity|]. split.
      + intros ->. right. reflexivity.
      + intros [[=]|[= ->]]. reflexivity.
    - exists false. split; [reflexivity|]. split; auto. }
  destruct Hc as [c [-> Hc]].
  destruct (Py.lookup (str "dueDate") kv) as [d|] eqn:Hd; cbn.
  2:{ eexists; split; [reflexivity|].
      split; [intros [dt [=]]|intros [_ [[d [dt [[=] _]]] _]]]. }
  destruct d as [| | |[|ch d]| |]; try discriminate; cbn.
  { eexists; split; [reflexivity|].
    split; [intros [dt [=]]|intros [_ [[d' [dt [[= <-] [Hn _]]]] _]]].
    congruence. }
  destruct (due_date_local E (JStr (ch :: d))) as [dt|] eqn:Hdt;
    [|discriminate].
  destruct c; cbn.
  { eexists; split; [reflexivity|].
    split; [intros [dt' [=]]|intros [_ [_ Hx]]].
    apply Hc in Hx. discriminate. }
  destruct (date_le s (date_of dt) && date_le (date_of dt) e) eqn:Hw.
  - eexists; split; [reflexivity|]. split; [intros _|eauto].
    split; [eauto|]. split; [|apply Hc; reflexivity].
    exists (JStr (ch :: d)), dt. repeat split; try congruence;
      apply window_spec in Hw; lia.
  - eexists; split; [reflexivity|].
    split; [intros [dt' [=]]|intros [_ [[d' [dt' [[= <-] [_ [Hp Hx]]]]] _]]].
    rewrite Hdt in Hp. injection Hp as <-.
    apply window_spec in Hx. congruence.
Qed.

Lemma short_name_str (name : pystr) :
  short_name (JStr name) =
  Ok (JStr (if (30 <? length name)%nat
            then slice_to 30 name ++ str "..."
            else name)).
Proof.
  unfold short_name. change (Py.len (JStr name)) with (Ok (length name)).
  cbn [bind pyresult_monad].
  destruct (30 <? length name)%nat; reflexivity.
Qed.

Lemma well_typed_card_name (E : env) (card : json) :
  well_typed_card E card = true ->
  exists name, card_field card "name" = Some (JStr name).
Proof.
  destruct card as [| | | | |kv]; try discriminate.
  unfold well_typed_card. intros H.
  repeat (apply andb_prop in H as [H ?]).
  destruct (card_field (JObj kv) "name") as [[| | |name| |]|];
    try discriminate.
  exists name. reflexivity.
Qed.

(** What storing does with a card that has a string name and an id, once
    its last comment has come back. *)
Lemma store_card_run (E : env) (token p b card : json) (dt : datetime)
  (result : report) (w w' : world) (name c : pystr) (id : json) :
  card_field card "name" = Some (JStr name) ->
  card_field card "id" = Some id ->
  get_last_comment E token id w = (Ok c, w') ->
  store_card E token p b card dt result w =
  (report_add p b
     (JStr (if (30 <? length name)%nat
            then slice_to 30 name ++ str "..."
            else name),
      strftime_dmY_HM dt, c) result, w').
Proof.
  destruct card as [| | | | |kv]; try discriminate.
  unfold card_field. intros Hn Hi Hc.
  unfold store_card, Py.getitem, lift. cbn [bind M_monad].
  rewrite Hn. rewrite short_name_str. rewrite Hi, Hc. reflexivity.
Qed.

(** Line 110 on a string: the parsed clock reading is taken as UTC and
    moved by the offset of the display timezone. *)
Lemma due_date_local_run (E : env) (stamp : pystr) (dt : datetime) :
  fromisoformat E (remove_char 90%N stamp) = Some dt ->
  due_date_local E (JStr stamp) =
  if in_range (wall dt)
  then (if in_range (wall dt + TIMEZONE (cfg E) (wall dt))
        then Ok (Datetime (wall dt + TIMEZONE (cfg E) (wall dt))
                   (Some (TIMEZONE (cfg E) (wall dt))))
        else Raise OverflowError)
  else Raise OverflowError.
Proof.
  intros H. unfold due_date_local, parse_iso.
  cbn [replace_Z bind pyresult_monad]. rewrite H.
  cbn [bind pyresult_monad]. unfold astimezone, replace_tzinfo_utc.
  cbn [tzinfo wall]. rewrite Z.sub_0_r. reflexivity.
Qed.

(** What line 110 returns, read backwards. *)
Lemma due_date_local_inv (E : env) (d : json) (dt' : datetime) :
  due_date_local E d = Ok dt' ->
  exists stamp dt,
    d = JStr stamp /\
    fromisoformat E (remove_char 90%N stamp) = Some dt /\
    wall dt' = wall dt + TIMEZONE (cfg E) (wall dt).
Proof.
  destruct d as [| | |stamp| |]; try discriminate.
  destruct (fromisoformat E (remove_char 90%N stamp)) as [dt|] eqn:Hp.
  - rewrite (due_date_local_run E stamp dt Hp).
    destruct (in_range (wall dt)); [|discriminate].
    destruct (in_range _); [|discriminate].
    intros [= <-]. exists stamp, dt. auto.
  - unfold due_date_local, parse_iso. cbn [replace_Z bind pyresult_monad].
    rewrite Hp. discriminate.
Qed.

(** The day of a clock reading is the day whose span holds it. *)
Lemma date_of_span (clock : Z) (tz : option Z) (d : date) :
  (toordinal d - 1) * us_per_day <= clock < toordinal d * us_per_day <->
  d = date_of (Datetime clock tz).
Proof.
  unfold date_of. cbn [wall]. destruct d as [o]. cbn [toordinal].
  assert (HD : 0 < us_per_day) by reflexivity.
  split.
  - intros H. f_equal.
    assert (clock / us_per_day = o - 1); [|lia].
    symmetry. apply (Z.div_unique_pos clock us_per_day (o - 1)
                       (clock - (o - 1) * us_per_day)); lia.
  - intros [= ->].
    pose proof (Z.mul_div_le clock us_per_day HD).
    pose proof (Z.mul_succ_div_gt clock us_per_day HD). lia.
Qed.

Lemma local_date_of (E : env) (dt dt' : datetime) (d : date) :
  wall dt' = wall dt + TIMEZONE (cfg E) (wall dt) ->
  local_date E (wall dt) d <-> d = date_of dt'.
Proof.
  intros H. unfold local_date. cbv zeta. rewrite <- H.
  destruct dt' as [clock tz]. apply date_of_span.
Qed.

(** The due date of a card of the data model, when it is a string, is a
    UTC timestamp that line 110 turns into the local clock reading. *)
Lemma data_model_due_date (E : env) (card : json) (stamp : pystr) :
  data_model_card E card = true ->
  card_field card "dueDate" = Some (JStr stamp) ->
  exists dt,
    stamp <> [] /\
    fromisoformat E (remove_char 90%N stamp) = Some dt /\
    (tzinfo dt = None \/ tzinfo dt = Some 0) /\
    due_date_local E (JStr stamp)
    = Ok (Datetime (wall dt + TIMEZONE (cfg E) (wall dt))
            (Some (TIMEZONE (cfg E) (wall dt)))).
Proof.
  destruct card as [| | | | |kv]; try discriminate.
  unfold data_model_card. intros H Hd.
  repeat (apply andb_prop in H as [H ?]).
  rewrite Hd in *. destruct stamp as [|c d]; [discriminate|].
  destruct (fromisoformat E (remove_char 90%N (c :: d))) as [dt|] eqn:Hp;
    [|discriminate].
  repeat match goal with
         | G : _ && _ = true |- _ => apply andb_prop in G as [G ?]
         end.
  exists dt. split; [discriminate|]. split; [reflexivity|]. split.
  - destruct (tzinfo dt) as [off|]; [right|left; reflexivity].
    f_equal. apply Z.eqb_eq. assumption.
  - rewrite (due_date_local_run E (c :: d) dt Hp).
    unfold in_calendar in *. unfold in_range.
    repeat match goal with G : _ = true |- _ => rewrite G; clear G end.
    reflexivity.
Qed.

Lemma data_model_well_typed (E : env) (card : json) :
  data_model_card E card = true -> well_typed_card E card = true.
Proof.
  intros H.
  destruct card as [| | | | |kv]; try discriminate.
  destruct (card_field (JObj kv) "dueDate") as [[| | |[|c d]| |]|] eqn:Hd;
    try (unfold data_model_card, well_typed_card in *;
         rewrite Hd in *; exact H).
  destruct (data_model_due_date E (JObj kv) (c :: d) H Hd)
    as [dt [_ [_ [_ Hl]]]].
  unfold data_model_card in H. unfold well_typed_card.
  rewrite Hd in *. rewrite Hl.
  repeat (apply andb_prop in H as [H ?]).
  repeat (apply andb_true_intro; split); assumption || reflexivity.
Qed.

(** On a card of the data model the conditions of the tests are the
    inclusion predicate of the specification. *)
Lemma test_conditions_due_relevant (E : env) (valid : list json)
  (s e : date) (card : json) :
  data_model_card E card = true ->
  test_conditions E valid s e card <-> due_relevant E valid s e card.
Proof.
  intros Hdm. unfold test_conditions, due_relevant.
  split; intros [Hl [Hd Hc]]; (split; [exact Hl|split; [|exact Hc]]).
  - destruct Hd as [d [dt' [Hf [_ [Hloc Hwin]]]]].
    destruct (due_date_local_inv E d dt' Hloc) as [stamp [dt [-> [Hp Hw]]]].
    destruct (data_model_due_date E card stamp Hdm Hf)
      as [dt0 [_ [Hp0 [Htz _]]]].
    rewrite Hp in Hp0. injection Hp0 as <-.
    exists stamp, (wall dt), (date_of dt').
    split; [exact Hf|]. split; [exists dt; auto|].
    split; [apply (local_date_of E dt dt' _ Hw); reflexivity|exact Hwin].
  - destruct Hd as [stamp [utc [d [Hf [[dt [Hp [_ <-]]] [Hday Hwin]]]]]].
    destruct (data_model_due_date E card stamp Hdm Hf)
      as [dt0 [Hne [Hp0 [_ Hloc]]]].
    rewrite Hp in Hp0. injection Hp0 as <-.
    apply (local_date_of E dt
             (Datetime (wall dt + TIMEZONE (cfg E) (wall dt))
                (Some (TIMEZONE (cfg E) (wall dt)))) d) in Hday;
      [|reflexivity].
    exists (JStr stamp). eexists.
    split; [exact Hf|]. split; [discriminate|]. split; [exact Hloc|].
    rewrite <- Hday. exact Hwin.
Qed.

(** C1. A card of the data model that the card loop of [get_due_cards]
    scans adds one entry to the Report exactly when its listId is present
    and among the board's valid list ids, its dueDate is present, its
    isDueDateCompleted is false, and the calendar date of its dueDate in the
    display timezone lies between [start_date] and [end_date], both
    included; any other card leaves the Report as it was.  The calendar
    date is the one of [due_relevant]: the day whose span from midnight to
    midnight, on the clocks of the display timezone, holds the moment the
    UTC timestamp names. *)
Theorem due_card_contributes_iff (E : env) (token p b : json)
  (valid : list json) (s e : date) (card : json) (result : report)
  (w w' : world) (id : json) (c : pystr) :
  data_model_card E card = true ->
  Py.hashable p = true -> Py.hashable b = true ->
  card_field card "id" = Some id ->
  get_last_comment E token id w = (Ok c, w') ->
  exists result' w'',
    scan_card E token p b valid s e card result w = (Ok result', w'') /\
    (due_relevant E valid s e card <-> entries result' = S (entries result)) /\
    (~ due_relevant E valid s e card <-> result' = result).
Proof.
  intros Hdm Hp Hb Hid Hc.
  pose proof (data_model_well_typed E card Hdm) as Hwt.
  pose proof (test_conditions_due_relevant E valid s e card Hdm) as Hspec.
  rewrite scan_card_test.
  destruct (card_test_well_typed E valid s e card Hwt) as [o [Ho Hiff]].
  destruct (well_typed_card_name E card Hwt) as [name Hname].
  rewrite Ho. destruct o as [dt|].
  - rewrite (store_card_run E token p b card dt result w w' name c id
               Hname Hid Hc).
    match goal with
    | |- context [report_add p b ?x result] =>
        destruct (report_add p b x result) as [r'|] eqn:Hadd
    end.
    2:{ rewrite (report_add_eq _ _ _ _ Hp Hb) in Hadd. discriminate. }
    exists r', w'. split; [reflexivity|].
    assert (Hr : due_relevant E valid s e card)
      by (apply Hspec, Hiff; eauto).
    pose proof (report_add_entries _ _ _ _ _ Hadd) as He.
    split; [tauto|]. split; [tauto|]. intros ->. lia.
  - exists result, w. split; [reflexivity|].
    assert (Hr : ~ due_relevant E valid s e card).
    { intros Hr. apply Hspec, Hiff in Hr as [dt [=]]. }
    split; [|tauto]. split; [tauto|]. intros He. lia.
Qed.

(** C7. For a card that passes the tests of the loop, the name stored in
    its entry of the Report is the card's name when that has at most 30
    characters, and otherwise its first 30 characters followed by three
    dots; so a name of 35 characters is stored as 30 characters and the
    dots. *)
Theorem stored_name_shortened (E : env) (token p b : json)
  (valid : list json) (s e : date) (card : json) (result : report)
  (w w' : world) (id : json) (c name : pystr) :
  passes E valid s e card = true ->
  Py.hashable p = true -> Py.hashable b = true ->
  card_field card "name" = Some (JStr name) ->
  card_field card "id" = Some id ->
  get_last_comment E token id w = (Ok c, w') ->
  exists stored date,
    scan_card E token p b valid s e card result w =
    (Ok (PyDict.setitem p
           (PyDict.setitem b
              (find_or_empty b (find_or_empty p result)
               ++ [(JStr stored, date, c)])
              (find_or_empty p result))
           result), w') /\
    ((length name <= 30)%nat -> stored = name) /\
    ((30 < length name)%nat ->
     stored = slice_to 30 name ++ str "..." /\
     length (slice_to 30 name) = 30%nat) /\
    (length name = 35%nat ->
     stored = slice_to 30 name ++ str "..." /\
     length (slice_to 30 name) = 30%nat /\ length stored = 33%nat).
Proof.
  intros Hpass Hp Hb Hname Hid Hc.
  unfold passes in Hpass.
  destruct (card_test E valid s e card) as [[dt|]|] eqn:Ht; try discriminate.
  exists (if (30 <? length name)%nat then slice_to 30 name ++ str "..."
          else name), (strftime_dmY_HM dt).
  split.
  - rewrite scan_card_test, Ht.
    rewrite (store_card_run E token p b card dt result w w' name c id
               Hname Hid Hc).
    rewrite (report_add_eq _ _ _ _ Hp Hb). reflexivity.
  - destruct (30 <? length name)%nat eqn:Hl.
    + apply Nat.ltb_lt in Hl.
      assert (Hs : length (slice_to 30 name) = 30%nat)
        by (apply slice_to_length; lia).
      repeat split; try lia; try reflexivity; try exact Hs.
      rewrite length_app, Hs. reflexivity.
    + apply Nat.ltb_ge in Hl.
      repeat split; try lia; try reflexivity.
Qed.

(** C10. A card of the data model without an isDueDateCompleted field
    counts as not completed: with a valid listId and a dueDate in the
    window it adds its entry to the Report.  And a card record without a
    dueDate key is passed over: the loop goes on with the Report as it
    was, and nothing is raised. *)
Theorem absent_completed_and_absent_due_date (E : env) (token p b : json)
  (valid : list json) (s e : date) (result : report) (w : world) :
  (forall card w' id c l d dt,
      well_typed_card E card = true ->
      card_field card "isDueDateCompleted" = None ->
      card_field card "listId" = Some l ->
      existsb (fun y => Py.eq_scalar y l) valid = true ->
      card_field card "dueDate" = Some d -> d <> JNull ->
      due_date_local E d = Ok dt ->
      toordinal s <= toordinal (date_of dt) <= toordinal e ->
      Py.hashable p = true -> Py.hashable b = true ->
      card_field card "id" = Some id ->
      get_last_comment E token id w = (Ok c, w') ->
      exists result',
        scan_card E token p b valid s e card result w = (Ok result', w') /\
        entries result' = S (entries result)) /\
  (forall kv,
      Py.lookup (str "dueDate") kv = None ->
      match Py.lookup (str "listId") kv with
      | Some l => Py.hashable l = true
      | None => True
      end ->
      scan_card E token p b valid s e (JObj kv) result w = (Ok result, w)).
Proof.
  split.
  - intros card w' id c l d dt Hwt Hcomp Hl Hv Hd Hn Hdt Hwin Hp Hb Hid Hc.
    destruct (card_test_well_typed E valid s e card Hwt) as [o [Ho Hiff]].
    destruct (well_typed_card_name E card Hwt) as [name Hname].
    assert (Hr : test_conditions E valid s e card).
    { split; [eauto|]. split; [|auto]. exists d, dt. auto. }
    apply Hiff in Hr as [dt' ->].
    rewrite scan_card_test, Ho.
    rewrite (store_card_run E token p b card dt' result w w' name c id
               Hname Hid Hc).
    match goal with
    | |- context [report_add p b ?x result] =>
        destruct (report_add p b x result) as [r'|] eqn:Hadd
    end.
    2:{ rewrite (report_add_eq _ _ _ _ Hp Hb) in Hadd. discriminate. }
    exists r'. split; [reflexivity|].
    apply (report_add_entries _ _ _ _ _ Hadd).
  - intros kv Hd Hl.
    rewrite scan_card_test.
    unfold card_test, Py.contains, Py.getitem, Py.get, PyDict.set_contains.
    destruct (Py.lookup (str "listId") kv) as [l|]; cbn; [|reflexivity].
    rewrite Hl. cbn.
    destruct (existsb (fun y => Py.eq_scalar y l) valid); cbn;
      [|reflexivity].
    rewrite Hd.
    destruct (Py.lookup (str "isDueDateCompleted") kv); reflexivity.
Qed.

(** ** The last comment *)

Lemma get_json_run (E : env) (r : request) (w : world) :
  get_json E r w = (json_of E r, add_sent r w).
Proof.
  unfold get_json, json_of, requests_send, response_json, lift.
  cbn. destruct (http E r) as [|st [j|]]; reflexivity.
Qed.

(** Sorting. *)

Lemma insert_desc_not_empty (x : comment) (l : list comment) :
  insert_desc x l <> [].
Proof.
  destruct l as [|y l]; simpl; [discriminate|].
  destruct (sort_key (createdAt x) <? sort_key (createdAt y)); discriminate.
Qed.

Lemma insert_desc_In (x y : comment) (l : list comment) :
  In y (insert_desc x l) -> y = x \/ In y l.
Proof.
  induction l as [|z l IH]; simpl.
  - intros [<-|[]]. auto.
  - destruct (sort_key (createdAt x) <? sort_key (createdAt z)); simpl.
    + intros [<-|H]; [auto|]. destruct (IH H); auto.
    + intros [<-|[<-|H]]; auto.
Qed.

Lemma sorted_In (y : comment) (l : list comment) :
  In y (fold_right insert_desc [] l) -> In y l.
Proof.
  induction l as [|x l IH]; simpl; [auto|].
  intros H. apply insert_desc_In in H as [<-|H]; auto.
Qed.

(** The head of the sorted list is the comment nothing else is as late as. *)
Lemma sorted_head (l : list comment) (c : comment) :
  In c l ->
  (forall x, In x l ->
             x = c \/ sort_key (createdAt x) < sort_key (createdAt c)) ->
  exists tl, fold_right insert_desc [] l = c :: tl.
Proof.
  induction l as [|x l IH]; simpl; [intros []|].
  intros Hin Hmax.
  destruct (fold_right insert_desc [] l) as [|y tl] eqn:Hs.
  - (* nothing after [x]: the sorted rest is empty only for an empty rest *)
    destruct l as [|z l].
    + destruct Hin as [<-|[]]. exists []. reflexivity.
    + simpl in Hs. destruct (insert_desc_not_empty _ _ Hs).
  - assert (Hy : In y l) by (apply sorted_In; rewrite Hs; left; reflexivity).
    simpl.
    destruct (Hmax x (or_introl eq_refl)) as [->|Hlt].
    + (* [x] is the latest *)
      destruct (Hmax y (or_intror Hy)) as [->|Hlt].
      * rewrite Z.ltb_irrefl. eauto.
      * destruct (Z.ltb_spec (sort_key (createdAt c)) (sort_key (createdAt y)));
          [lia|eauto].
    + (* the latest is further on *)
      destruct Hin as [->|Hin]; [lia|].
      destruct (IH Hin (fun z Hz => Hmax z (or_intror Hz))) as [tl' Htl].
      injection Htl as -> ->.
      destruct (Z.ltb_spec (sort_key (createdAt x)) (sort_key (createdAt c)));
        [eauto|lia].
Qed.

Lemma sort_desc_comparable (l : list comment) :
  (forall x y, In x l -> In y l ->
               comparable (createdAt x) (createdAt y) = true) ->
  sort_desc l = Ok (fold_right insert_desc [] l).
Proof.
  destruct l as [|x l]; [reflexivity|]. intros H. unfold sort_desc.
  rewrite (proj2 (forallb_forall _ _)); [reflexivity|].
  intros y Hy. apply H; simpl; auto.
Qed.

(** Where the comments come from. *)

Lemma comment_of_action (E : env) (item : json) (c : comment) :
  is_comment item = true ->
  comment_of E item = Ok c ->
  exists raw,
    is_comment_action E item raw (createdAt c) /\
    c_text c = clean_comment raw.
Proof.
  unfold is_comment, comment_of, is_comment_action.
  destruct (Py.getitem item (str "type")) as [type|] eqn:Ht; [|discriminate].
  intros Hty.
  destruct (Py.getitem item (str "data")) as [data|] eqn:Hd; [|discriminate].
  cbn [bind pyresult_monad].
  destruct (Py.getitem data (str "text")) as [[| | |raw| |]|] eqn:Hx;
    try discriminate.
  cbn [bind pyresult_monad clean_comment_value].
  destruct (Py.getitem item (str "createdAt")) as [[| | |stamp| |]|] eqn:Hs;
    try discriminate.
  cbn [bind pyresult_monad replace_Z]. unfold parse_iso.
  destruct (fromisoformat E (remove_char 90%N stamp)) as [dt|] eqn:Hp;
    [|discriminate].
  cbn. intros [= <-]. cbn.
  exists raw. split; [|reflexivity].
  exists type, data, stamp. auto 10.
Qed.

Lemma comments_of_In (E : env) (items : list json) :
  forall comments c,
    comments_of E items = Ok comments -> In c comments ->
    exists item raw,
      In item items /\ is_comment_action E item raw (createdAt c) /\
      c_text c = clean_comment raw.
Proof.
  induction items as [|item items IH]; intros comments c; simpl.
  - intros [= <-] [].
  - destruct (Py.getitem item (str "type")) as [type|] eqn:Ht;
      [|discriminate].
    cbn [bind pyresult_monad].
    destruct (Py.eq_str type (str "commentCard")) eqn:Hty.
    + destruct (comment_of E item) as [x|] eqn:Hx; [|discriminate].
      cbn [bind pyresult_monad].
      destruct (comments_of E items) as [xs|] eqn:Hxs; [|discriminate].
      cbn. intros [= <-] [<-|Hin].
      * destruct (comment_of_action E item x) as [raw [H1 H2]]; auto.
        { unfold is_comment. rewrite Ht. exact Hty. }
        exists item, raw. auto.
      * destruct (IH xs c eq_refl Hin) as [item' [raw [H1 H2]]].
        exists item', raw. auto.
    + intros Hc Hin.
      destruct (IH comments c Hc Hin) as [item' [raw [H1 H2]]].
      exists item', raw. auto.
Qed.

(** [get_last_comment] sends one request and answers with what the
    [except] clauses leave of the outcome. *)
Lemma get_last_comment_run (E : env) (token card_id : json) (w : world) :
  get_last_comment E token card_id w =
  (absorb (response <- json_of E (GET_card_actions token card_id) ;;
           pick_last_comment E response),
   add_sent (GET_card_actions token card_id) w).
Proof.
  unfold get_last_comment, try_except.
  cbn [bind M_monad]. rewrite get_json_run.
  destruct (json_of E (GET_card_actions token card_id)) as [response|x].
  2:{ cbn. destruct x; reflexivity. }
  unfold pick_last_comment, lift. cbn [bind M_monad pyresult_monad].
  destruct (Py.contains (str "items") response) as [[|]|x]; cbn;
    [|reflexivity|destruct x; reflexivity].
  destruct (Py.getitem response (str "items")) as [items|x]; cbn;
    [|destruct x; reflexivity].
  destruct (Py.iter items) as [l|x]; cbn; [|destruct x; reflexivity].
  destruct (comments_of E l) as [[|c cs]|x]; cbn;
    [reflexivity| |destruct x; reflexivity].
  destruct (sort_desc (c :: cs)) as [[|c' tl]|x]; cbn;
    [reflexivity|reflexivity|destruct x; reflexivity].
Qed.

Lemma comments_of_well_formed (E : env) (items : list json) :
  forallb (well_formed_action E) items = true ->
  if existsb (unparsable E) items
  then comments_of E items = Raise ValueError
  else exists comments,
      comments_of E items = Ok comments /\
      (forall x, In x comments -> tzinfo (createdAt x) = None) /\
      (existsb is_comment items = false -> comments = []).
Proof.
  induction items as [|item items IH]; intros Hwf.
  - exists []. repeat split; auto. intros x [].
  - cbn [forallb] in Hwf. apply andb_prop in Hwf as [Hi Hwf].
    specialize (IH Hwf).
    cbn [existsb comments_of]. unfold unparsable at 1, is_comment at 1 2.
    unfold well_formed_action in Hi.
    destruct (Py.getitem item (str "type")) as [type|]; [|discriminate].
    cbn [bind pyresult_monad].
    destruct (Py.eq_str type (str "commentCard")) eqn:Hty.
    2:{ cbn [andb orb]. destruct (existsb (unparsable E) items); exact IH. }
    cbn [andb orb]. unfold comment_of.
    destruct (Py.getitem item (str "data")) as [data|]; [|discriminate].
    cbn [bind pyresult_monad].
    destruct (Py.getitem data (str "text")) as [[| | |raw| |]|];
      try discriminate.
    destruct (Py.getitem item (str "createdAt")) as [[| | |stamp| |]|];
      try discriminate.
    cbn [bind pyresult_monad clean_comment_value replace_Z]. unfold parse_iso.
    destruct (fromisoformat E (remove_char 90%N stamp)) as [dt|];
      [|reflexivity].
    destruct (tzinfo dt) eqn:Htz; [discriminate|].
    cbn [bind pyresult_monad orb].
    destruct (existsb (unparsable E) items).
    + rewrite IH. reflexivity.
    + destruct IH as [comments [-> [Hn _]]]. cbn.
      eexists. split; [reflexivity|]. split; [|discriminate].
      intros x [<-|Hx]; [exact Htz|auto].
Qed.

(** The comment the comprehension makes of a comment action. *)
Lemma comment_of_comment_action (E : env) (item : json) (raw : pystr)
  (created : datetime) :
  is_comment_action E item raw created ->
  is_comment item = true /\
  comment_of E item
  = Ok {| c_text := clean_comment raw; createdAt := created |}.
Proof.
  intros [type [data [stamp [Ht [Hty [Hd [Hx [Hs Hp]]]]]]]].
  unfold is_comment, comment_of. rewrite Ht, Hd. split; [exact Hty|].
  cbn [bind pyresult_monad]. rewrite Hx.
  cbn [bind pyresult_monad clean_comment_value]. rewrite Hs.
  cbn [bind pyresult_monad replace_Z]. unfold parse_iso. rewrite Hp.
  reflexivity.
Qed.

Lemma comments_of_app (E : env) (l1 l2 : list json) :
  comments_of E (l1 ++ l2) =
  (xs <- comments_of E l1 ;; ys <- comments_of E l2 ;; ret (xs ++ ys)).
Proof.
  induction l1 as [|c l1 IH]; cbn [app comments_of].
  - cbn. destruct (comments_of E l2); reflexivity.
  - destruct (Py.getitem c (str "type")) as [type|]; [|reflexivity].
    cbn [bind pyresult_monad].
    destruct (Py.eq_str type (str "commentCard")); [|exact IH].
    destruct (comment_of E c) as [x|]; [|reflexivity].
    cbn [bind pyresult_monad]. rewrite IH.
    destruct (comments_of E l1) as [xs|]; [|reflexivity].
    cbn [bind pyresult_monad].
    destruct (comments_of E l2) as [ys|]; reflexivity.
Qed.

(** Every comment action of the items is among the comments. *)
Lemma comments_of_complete (E : env) (items : list json) :
  forall comments item raw created,
    comments_of E items = Ok comments ->
    In item items -> is_comment_action E item raw created ->
    In {| c_text := clean_comment raw; createdAt := created |} comments.
Proof.
  induction items as [|a items IH]; intros comments item raw created;
    [intros _ []|].
  cbn [comments_of].
  destruct (Py.getitem a (str "type")) as [type|] eqn:Ht; [|discriminate].
  cbn [bind pyresult_monad].
  intros Hc [->|Hin] Hact.
  - destruct (comment_of_comment_action E item raw created Hact) as [Hi Hco].
    unfold is_comment in Hi. rewrite Ht in Hi. rewrite Hi, Hco in Hc.
    cbn [bind pyresult_monad] in Hc.
    destruct (comments_of E items); [|discriminate].
    injection Hc as <-. left. reflexivity.
  - destruct (Py.eq_str type (str "commentCard")).
    + destruct (comment_of E a); [|discriminate].
      cbn [bind pyresult_monad] in Hc.
      destruct (comments_of E items) as [xs|] eqn:Hxs; [|discriminate].
      injection Hc as <-. right. apply (IH xs item raw created); auto.
    + apply (IH comments item raw created); auto.
Qed.

(** The comments of well-formed items whose timestamps all parse. *)
Lemma comments_of_parsable (E : env) (items : list json) :
  forallb (well_formed_action E) items = true ->
  existsb (unparsable E) items = false ->
  exists comments,
    comments_of E items = Ok comments /\
    (forall x, In x comments -> tzinfo (createdAt x) = None).
Proof.
  intros Hwf Hp. pose proof (comments_of_well_formed E items Hwf) as H.
  rewrite Hp in H. destruct H as [comments [Hc [Hn _]]]. eauto.
Qed.

Lemma naive_comparable (l : list comment) :
  (forall x, In x l -> tzinfo (createdAt x) = None) ->
  forall x y, In x l -> In y l ->
              comparable (createdAt x) (createdAt y) = true.
Proof.
  intros Hn x y Hx Hy. unfold comparable.
  rewrite (Hn x Hx), (Hn y Hy). reflexivity.
Qed.

Lemma naive_sort_key (dt : datetime) :
  tzinfo dt = None -> sort_key dt = wall dt.
Proof. unfold sort_key. intros ->. reflexivity. Qed.

(** What [get_last_comment] returns once the head of the sorted comments
    is known. *)
Lemma get_last_comment_head (E : env) (token card_id : json) (w : world)
  (st : Z) (kv : list (pystr * json)) (items : list json)
  (comments tl : list comment) (c : comment) :
  http E (GET_card_actions token card_id) = Response st (Some (JObj kv)) ->
  Py.lookup (str "items") kv = Some (JList items) ->
  comments_of E items = Ok comments ->
  (forall x, In x comments -> tzinfo (createdAt x) = None) ->
  fold_right insert_desc [] comments = c :: tl ->
  fst (get_last_comment E token card_id w) = Ok (slice_to 50 (c_text c)).
Proof.
  intros Hhttp Hitems Hcs Hn Hs.
  rewrite get_last_comment_run. unfold json_of. rewrite Hhttp.
  cbn [fst bind pyresult_monad].
  unfold pick_last_comment, Py.contains, Py.getitem. rewrite Hitems.
  cbn [bind pyresult_monad negb Py.iter]. rewrite Hcs.
  cbn [bind pyresult_monad].
  rewrite (sort_desc_comparable _ (naive_comparable _ Hn)). rewrite Hs.
  destruct comments; [discriminate|reflexivity].
Qed.

(** The comment action of the items that is later than every other one is
    the one returned, normalised and cut. *)
Lemma latest_comment_returned (E : env) (token card_id : json) (w : world)
  (st : Z) (kv : list (pystr * json)) (items : list json)
  (item : json) (raw : pystr) (created : datetime) :
  http E (GET_card_actions token card_id) = Response st (Some (JObj kv)) ->
  Py.lookup (str "items") kv = Some (JList items) ->
  forallb (well_formed_action E) items = true ->
  existsb (unparsable E) items = false ->
  In item items -> is_comment_action E item raw created ->
  (forall other raw' t',
      In other items -> is_comment_action E other raw' t' ->
      other = item \/ wall t' < wall created) ->
  fst (get_last_comment E token card_id w) = Ok (firstn 50 (normalized raw)).
Proof.
  intros Hhttp Hitems Hwf Hp Hin Hact Hmax.
  destruct (comments_of_parsable E items Hwf Hp) as [comments [Hcs Hn]].
  pose proof (comments_of_complete E items comments item raw created
                Hcs Hin Hact) as Hc.
  set (c := {| c_text := clean_comment raw; createdAt := created |}) in *.
  destruct (sorted_head comments c Hc) as [tl Hs].
  - intros x Hx.
    destruct (comments_of_In E items comments x Hcs Hx)
      as [other [raw' [Ho [Hact' Ht]]]].
    destruct (Hmax other raw' (createdAt x) Ho Hact') as [->|Hlt].
    + left.
      destruct (comment_of_comment_action E item raw created Hact) as [_ H1].
      destruct (comment_of_comment_action E item raw' (createdAt x) Hact')
        as [_ H2].
      rewrite H1 in H2. injection H2 as Hr Hd.
      destruct x as [xt xc]. cbn in *. subst c. congruence.
    + right. rewrite (naive_sort_key _ (Hn x Hx)).
      rewrite (naive_sort_key (createdAt c) (Hn c Hc)). exact Hlt.
  - rewrite (get_last_comment_head E token card_id w st kv items comments tl c
               Hhttp Hitems Hcs Hn Hs).
    cbn [c_text c]. rewrite clean_comment_normalized. reflexivity.
Qed.

(** Among comments with distinct timestamps the one with the maximum is
    later than every other one. *)
Lemma distinct_maximum_is_latest (E : env) (items : list json)
  (item : json) (raw : pystr) (created : datetime) :
  (forall a b ra rb ta tb,
      In a items -> In b items ->
      is_comment_action E a ra ta -> is_comment_action E b rb tb ->
      wall ta = wall tb -> a = b) ->
  In item items -> is_comment_action E item raw created ->
  (forall other raw' t',
      In other items -> is_comment_action E other raw' t' ->
      wall t' <= wall created) ->
  forall other raw' t',
    In other items -> is_comment_action E other raw' t' ->
    other = item \/ wall t' < wall created.
Proof.
  intros Hdist Hin Hact Hmax other raw' t' Ho Hact'.
  destruct (Z.eq_dec (wall t') (wall created)) as [Heq|Hne].
  - left. apply (Hdist other item raw' raw t' created); assumption.
  - right. specialize (Hmax other raw' t' Ho Hact'). lia.
Qed.

(** C5. When the comment entries of a card's action log have distinct
    timestamps, [get_last_comment] returns the text of the entry with the
    maximum timestamp, whitespace-normalised (its words, one space apart)
    and cut to its first 50 characters.  The log is one Planka sends: its
    entries are well formed and the timestamps of its comments parse. *)
Theorem last_comment_is_latest (E : env) (token card_id : json) (w : world)
  (st : Z) (kv : list (pystr * json)) (items : list json)
  (item : json) (raw : pystr) (created : datetime) :
  http E (GET_card_actions token card_id) = Response st (Some (JObj kv)) ->
  Py.lookup (str "items") kv = Some (JList items) ->
  forallb (well_formed_action E) items = true ->
  existsb (unparsable E) items = false ->
  (forall a b ra rb ta tb,
      In a items -> In b items ->
      is_comment_action E a ra ta -> is_comment_action E b rb tb ->
      wall ta = wall tb -> a = b) ->
  In item items -> is_comment_action E item raw created ->
  (forall other raw' t',
      In other items -> is_comment_action E other raw' t' ->
      wall t' <= wall created) ->
  fst (get_last_comment E token card_id w) = Ok (firstn 50 (normalized raw))
  /\ (length (firstn 50 (normalized raw)) <= 50)%nat.
Proof.
  intros Hhttp Hitems Hwf Hp Hdist Hin Hact Hmax.
  split; [|apply firstn_le_length].
  apply (latest_comment_returned E token card_id w st kv items item raw
           created Hhttp Hitems Hwf Hp Hin Hact).
  apply (distinct_maximum_is_latest E items item raw created); assumption.
Qed.

(** C6. Normalising a comment twice gives what normalising it once gives,
    for every string; and when the normalised text of the comment that
    [get_last_comment] retains, the latest of the log, is longer than 50
    characters, what it returns are exactly the first 50 of them. *)
Theorem clean_comment_idempotent_truncated (E : env) (token card_id : json)
  (w : world) (s : pystr) :
  clean_comment (clean_comment s) = clean_comment s /\
  (forall st kv items item raw created,
      http E (GET_card_actions token card_id)
      = Response st (Some (JObj kv)) ->
      Py.lookup (str "items") kv = Some (JList items) ->
      forallb (well_formed_action E) items = true ->
      existsb (unparsable E) items = false ->
      In item items -> is_comment_action E item raw created ->
      (forall other raw' t',
          In other items -> is_comment_action E other raw' t' ->
          other = item \/ wall t' < wall created) ->
      (50 < length (normalized raw))%nat ->
      exists kept rest,
        fst (get_last_comment E token card_id w) = Ok kept /\
        length kept = 50%nat /\
        rest <> [] /\ normalized raw = kept ++ rest).
Proof.
  split; [apply clean_comment_fixed|].
  intros st kv items item raw created Hhttp Hitems Hwf Hp Hin Hact Hmax Hlen.
  exists (firstn 50 (normalized raw)), (skipn 50 (normalized raw)).
  split.
  { apply (latest_comment_returned E token card_id w st kv items item raw
             created Hhttp Hitems Hwf Hp Hin Hact Hmax). }
  split; [apply firstn_length_le; lia|].
  split; [|symmetry; apply firstn_skipn].
  intros Hn. apply (f_equal (@length N)) in Hn.
  rewrite length_skipn in Hn. simpl in Hn. lia.
Qed.

(** C2, as the code has it.  [get_last_comment] answers with the empty
    string when the request fails in transport, when the body is not JSON,
    when the document has no ["items"], when no action is a comment and when
    the [createdAt] of a comment does not parse; and it answers with a
    string whenever the actions are well formed.  (An action that lacks a
    key it reads raises [KeyError], which no clause catches.) *)
Theorem get_last_comment_degrades (E : env) (token card_id : json)
  (w : world) :
  (http E (GET_card_actions token card_id) = Transport_error ->
   fst (get_last_comment E token card_id w) = Ok []) /\
  (forall st,
      http E (GET_card_actions token card_id) = Response st None ->
      fst (get_last_comment E token card_id w) = Ok []) /\
  (forall st j,
      http E (GET_card_actions token card_id) = Response st (Some j) ->
      Py.contains (str "items") j = Ok false ->
      fst (get_last_comment E token card_id w) = Ok []) /\
  (forall st kv items,
      http E (GET_card_actions token card_id)
      = Response st (Some (JObj kv)) ->
      Py.lookup (str "items") kv = Some (JList items) ->
      forallb (well_formed_action E) items = true ->
      exists s,
        fst (get_last_comment E token card_id w) = Ok s /\
        (existsb is_comment items = false -> s = []) /\
        (existsb (unparsable E) items = true -> s = [])).
Proof.
  rewrite get_last_comment_run. unfold json_of. cbn [fst].
  split; [intros ->; reflexivity|].
  split; [intros st ->; reflexivity|].
  split.
  { intros st j -> Hc. cbn [bind pyresult_monad].
    unfold pick_last_comment. rewrite Hc. reflexivity. }
  intros st kv items -> Hitems Hwf. cbn [bind pyresult_monad].
  unfold pick_last_comment, Py.contains, Py.getitem. rewrite Hitems.
  cbn [bind pyresult_monad negb Py.iter].
  pose proof (comments_of_well_formed E items Hwf) as H.
  destruct (existsb (unparsable E) items).
  - rewrite H. exists []. cbn. auto.
  - destruct H as [comments [-> [Hn He]]]. cbn [bind pyresult_monad].
    destruct comments as [|c cs] eqn:Hcs.
    + exists []. cbn. auto.
    + rewrite <- Hcs in *. rewrite sort_desc_comparable.
      2:{ intros x y Hx Hy. unfold comparable.
          rewrite (Hn x Hx), (Hn y Hy). reflexivity. }
      rewrite Hcs. cbn [fold_right bind pyresult_monad].
      destruct (insert_desc c (fold_right insert_desc [] cs)) as [|c' tl] eqn:Hi.
      * destruct (insert_desc_not_empty _ _ Hi).
      * exists (slice_to 50 (c_text c')). cbn.
        split; [reflexivity|]. split; [|discriminate].
        intros Hnc. specialize (He Hnc). rewrite Hcs in He. discriminate.
Qed.

(** ** The token and the handler *)

Lemma send_tasks_reply (E : env) (message_text : pystr) (s e : date)
  (w : world) :
  select_window E message_text = Ok (s, e) ->
  send_tasks E message_text w =
  (token <- get_token E ;;
   tasks <- get_due_cards E token s e ;;
   reply_with E tasks) w.
Proof.
  intros H. unfold send_tasks, lift. cbn [bind M_monad]. rewrite H.
  destruct (get_token E w) as [[token|x] w1]; [|reflexivity].
  destruct (get_due_cards E token s e w1) as [[[|p tasks]|x] w2];
    reflexivity.
Qed.

(** C3, as the code has it.  When the token request fails in transport or
    is answered with an error status, [get_token] raises nothing: it logs
    the error and returns [None].  The handler does not look at what it got:
    it goes on to [get_due_cards] with [None] as the token, and replies, or
    raises, as that call decides. *)
Theorem token_failure_is_passed_on (E : env) (message_text : pystr)
  (s e : date) (w : world) :
  token_request_fails E ->
  select_window E message_text = Ok (s, e) ->
  exists w1 x l,
    get_token E w = (Ok JNull, w1) /\
    is_RequestException x = true /\
    sent w1 = sent w ++ [token_request E] /\
    logfile w1 = l ++ [Error_receiving_token x] /\
    outbox w1 = outbox w /\
    send_tasks E message_text w =
    (tasks <- get_due_cards E JNull s e ;; reply_with E tasks) w1.
Proof.
  intros Hfail Hwin.
  rewrite (send_tasks_reply E message_text s e w Hwin).
  cbn [bind M_monad].
  unfold get_token, try_except, clear_log, requests_send, logging_error,
    raise_for_status, lift, token_request_fails, token_request in *.
  cbn [bind M_monad].
  set (w0 := if log_exists E
             then if 7 <=? log_age_days E
                  then {| sent := sent w; logfile := []; outbox := outbox w |}
                  else w
             else w).
  assert (Hw0 : (if log_exists E
                 then if 7 <=? log_age_days E
                      then (Ok tt, {| sent := sent w; logfile := [];
                                      outbox := outbox w |})
                      else (Ok tt, w)
                 else (Ok tt, w)) = (Ok tt, w0)).
  { unfold w0. destruct (log_exists E); [|reflexivity].
    destruct (7 <=? log_age_days E); reflexivity. }
  rewrite Hw0.
  assert (Hs : sent w0 = sent w /\ outbox w0 = outbox w).
  { unfold w0. destruct (log_exists E); [|auto].
    destruct (7 <=? log_age_days E); auto. }
  destruct Hs as [Hs Ho].
  destruct Hfail as [Ht|[st [b [Ht Hst]]]]; rewrite Ht; cbn.
  - eexists; exists ConnectionError, (logfile w0).
    split; [reflexivity|]. cbn. rewrite Hs, Ho. auto.
  - assert (Hb : (400 <=? st) && (st <? 600) = true).
    { apply andb_true_iff. split; [apply Z.leb_le|apply Z.ltb_lt]; lia. }
    rewrite Hb. cbn.
    eexists; exists (HTTPError st), (logfile w0).
    split; [reflexivity|]. cbn. rewrite Hs, Ho. auto.
Qed.

(** C4, as the code has it.  The first button asks for everything up to
    today: from [date.min] to today in the display timezone.  The third
    asks for everything up to a week from now: from [date.min] to today plus
    7 days.  A text with "tomorrow" in it and no "today" asks for tomorrow
    alone. *)
Theorem windows_of_the_buttons (E : env) :
  0 < toordinal (today E) -> toordinal (today E) + 7 <= MAXORDINAL ->
  select_window E (label Today) = Ok (date_min, today E) /\
  select_window E (label Week) = Ok (date_min, plus_days (today E) 7) /\
  (forall message_text,
      PyStr.contains (str "today") message_text = false ->
      PyStr.contains (str "tomorrow") message_text = true ->
      select_window E message_text
      = Ok (plus_days (today E) 1, plus_days (today E) 1)).
Proof.
  intros Hlo Hhi.
  assert (H7 : date_add_days (today E) 7 = Ok (plus_days (today E) 7)).
  { unfold date_add_days, plus_days.
    rewrite (proj2 (andb_true_iff _ _)); [reflexivity|].
    split; [apply Z.ltb_lt|apply Z.leb_le]; lia. }
  assert (H1 : date_add_days (today E) 1 = Ok (plus_days (today E) 1)).
  { unfold date_add_days, plus_days.
    rewrite (proj2 (andb_true_iff _ _)); [reflexivity|].
    split; [apply Z.ltb_lt|apply Z.leb_le]; lia. }
  unfold select_window. split; [|split].
  - replace (PyStr.contains (str "today") (label Today)) with true
      by (vm_compute; reflexivity).
    reflexivity.
  - replace (PyStr.contains (str "today") (label Week)) with false
      by (vm_compute; reflexivity).
    replace (PyStr.contains (str "tomorrow") (label Week)) with false
      by (vm_compute; reflexivity).
    rewrite H7. reflexivity.
  - intros message_text -> ->. rewrite H1. reflexivity.
Qed.

(** ** The traversal *)

Lemma lift_run {A : Type} (r : pyresult A) (w : world) : lift r w = (r, w).
Proof. reflexivity. Qed.

(** The board loop body reads its view, then scans the cards. *)
Lemma scan_board_view (E : env) (token p : json) (s e : date)
  (board : json) (result : report) (w : world) :
  exists w1,
    scan_board E token p s e board result w =
    match board_view E token board with
    | Raise x => (Raise x, w1)
    | Ok (name, valid, cards) =>
        for_each cards (scan_card E token p name valid s e) result w1
    end.
Proof.
  unfold scan_board, board_view. cbn [bind M_monad pyresult_monad].
  rewrite !lift_run.
  destruct (Py.getitem board (str "name")) as [name|x]; [|eauto].
  destruct (Py.getitem board (str "id")) as [id|x]; [|eauto].
  rewrite get_json_run.
  exists (add_sent (GET_board token id) w).
  destruct (json_of E (GET_board token id)) as [response|x]; [|eauto].
  unfold lift.
  repeat (break_match; try discriminate; try reflexivity; try congruence).
Qed.

Lemma scan_project_view (E : env) (token : json) (s e : date)
  (project : json) (result : report) (w : world) :
  exists w1,
    scan_project E token s e project result w =
    match project_view E token project with
    | Raise x => (Raise x, w1)
    | Ok (name, boards) =>
        for_each boards (scan_board E token name s e) result w1
    end.
Proof.
  unfold scan_project, project_view. cbn [bind M_monad pyresult_monad].
  rewrite !lift_run.
  destruct (Py.getitem project (str "name")) as [name|x]; [|eauto].
  destruct (Py.getitem project (str "id")) as [id|x]; [|eauto].
  rewrite get_json_run.
  exists (add_sent (GET_project token id) w).
  destruct (json_of E (GET_project token id)) as [response|x]; [|eauto].
  unfold lift.
  repeat (break_match; try discriminate; try reflexivity; try congruence).
Qed.

Lemma get_due_cards_view (E : env) (token : json) (s e : date) (w : world) :
  get_due_cards E token s e w =
  match projects_view E token with
  | Raise x => (Raise x, add_sent (GET_projects token) w)
  | Ok projects =>
      for_each projects (scan_project E token s e) []
        (add_sent (GET_projects token) w)
  end.
Proof.
  unfold get_due_cards, projects_view. cbn [bind M_monad pyresult_monad].
  rewrite get_json_run.
  destruct (json_of E (GET_projects token)) as [response|x]; [|reflexivity].
  unfold lift.
  repeat (break_match; try discriminate; try reflexivity; try congruence).
Qed.

(** Loops. *)

Section Loops.

Context {A B : Type}.
Variable body : A -> B -> M B.

(** A loop raises as soon as its body raises on one element. *)
Lemma for_each_fails (l : list A) (x : A) :
  In x l -> (forall acc, fails (body x acc)) ->
  forall acc, fails (for_each l body acc).
Proof.
  intros Hin Hx. induction l as [|y l IH]; [destruct Hin|].
  intros acc w. cbn [for_each bind M_monad].
  destruct (body y acc w) as [[acc'|z] w1] eqn:Hy; [|eauto].
  destruct Hin as [->|Hin].
  - destruct (Hx acc w) as [z [w2 Hz]]. congruence.
  - apply (IH Hin).
Qed.

(** What every turn of the body keeps, the loop keeps. *)
Lemma for_each_keeps (P : B -> Prop) (l : list A) :
  (forall x acc w acc' w',
      In x l -> body x acc w = (Ok acc', w') -> P acc -> P acc') ->
  forall acc w acc' w',
    for_each l body acc w = (Ok acc', w') -> P acc -> P acc'.
Proof.
  induction l as [|y l IH]; intros Hb acc w acc' w'.
  - cbn. intros [= <- <-]. auto.
  - cbn [for_each bind M_monad].
    destruct (body y acc w) as [[acc1|z] w1] eqn:Hy; [|discriminate].
    intros Hl Hacc. eapply IH; [| exact Hl |].
    + intros x a v a' v' Hx. apply Hb. right. exact Hx.
    + eapply Hb; [left; reflexivity| exact Hy | exact Hacc].
Qed.

End Loops.

(** A loop over a Report whose body either leaves it alone or leaves it
    non-empty: the Report comes out untouched when the body never hit, and
    non-empty when it did. *)
Lemma for_each_hits {A : Type} (body : A -> report -> M report)
  (hit : A -> bool) (l : list A) :
  (forall x acc w acc' w',
      In x l -> body x acc w = (Ok acc', w') ->
      (hit x = false /\ acc' = acc) \/ (hit x = true /\ acc' <> [])) ->
  forall acc w acc' w',
    for_each l body acc w = (Ok acc', w') ->
    (existsb hit l = false /\ acc' = acc) \/
    (existsb hit l = true /\ acc' <> []).
Proof.
  induction l as [|y l IH]; intros Hb acc w acc' w'.
  - cbn. intros [= <- <-]. auto.
  - cbn [for_each bind M_monad existsb].
    destruct (body y acc w) as [[acc1|z] w1] eqn:Hy; [|discriminate].
    intros Hl.
    assert (Hb' : forall x a v a' v',
               In x l -> body x a v = (Ok a', v') ->
               (hit x = false /\ a' = a) \/ (hit x = true /\ a' <> [])).
    { intros x a v a' v' Hx. apply Hb. right. exact Hx. }
    destruct (IH Hb' acc1 w1 acc' w' Hl) as [[Hn ->]|[Hh Hne]];
      destruct (Hb y acc w acc1 w1 (or_introl eq_refl) Hy)
        as [[Hy0 Heq]|[Hy1 Hne1]];
      rewrite ?Hy0, ?Hy1, ?Hn, ?Hh; cbn; subst; auto.
Qed.

Lemma existsb_false {A : Type} (f : A -> bool) (l : list A) :
  existsb f l = false <-> (forall x, In x l -> f x = false).
Proof.
  induction l as [|y l IH]; cbn.
  - split; [intros _ x []|reflexivity].
  - rewrite orb_false_iff, IH. split.
    + intros [Hy Hl] x [<-|Hx]; auto.
    + intros H. split; [apply H; auto|]. intros x Hx. apply H. auto.
Qed.

Lemma store_card_Ok (E : env) (token p b card : json) (dt : datetime)
  (result r' : report) (w w' : world) :
  store_card E token p b card dt result w = (Ok r', w') ->
  exists entry, report_add p b entry result = Ok r'.
Proof.
  unfold store_card. cbn [bind M_monad]. rewrite !lift_run.
  destruct (Py.getitem card (str "name")) as [name|]; [|discriminate].
  rewrite lift_run.
  destruct (short_name name) as [short|]; [|discriminate].
  rewrite lift_run.
  destruct (Py.getitem card (str "id")) as [id|]; [|discriminate].
  destruct (get_last_comment E token id w) as [[c|] w1]; [|discriminate].
  rewrite lift_run. intros [= H _]. eauto.
Qed.

Lemma scan_card_hits (E : env) (token p b : json) (valid : list json)
  (s e : date) (card : json) (result r' : report) (w w' : world) :
  scan_card E token p b valid s e card result w = (Ok r', w') ->
  (passes E valid s e card = false /\ r' = result) \/
  (passes E valid s e card = true /\ r' <> []).
Proof.
  rewrite scan_card_test. unfold passes.
  destruct (card_test E valid s e card) as [[dt|]|]; [| |discriminate].
  - intros H. right. split; [reflexivity|].
    destruct (store_card_Ok _ _ _ _ _ _ _ _ _ _ H) as [entry Hadd].
    apply (report_add_not_empty _ _ _ _ _ Hadd).
  - intros [= <- _]. auto.
Qed.

Lemma scan_card_keeps (E : env) (token p b : json) (valid : list json)
  (s e : date) (card : json) (result r' : report) (w w' : world) :
  scan_card E token p b valid s e card result w = (Ok r', w') ->
  no_empty_groups result -> no_empty_groups r'.
Proof.
  rewrite scan_card_test.
  destruct (card_test E valid s e card) as [[dt|]|]; [| |discriminate].
  - intros H Hr.
    destruct (store_card_Ok _ _ _ _ _ _ _ _ _ _ H) as [entry Hadd].
    apply (report_add_no_empty_groups _ _ _ _ _ Hr Hadd).
  - intros [= <- _]. auto.
Qed.

Lemma scan_board_hits (E : env) (token p : json) (s e : date)
  (board : json) (result r' : report) (w w' : world) :
  scan_board E token p s e board result w = (Ok r', w') ->
  (board_hits E token s e board = false /\ r' = result) \/
  (board_hits E token s e board = true /\ r' <> []).
Proof.
  destruct (scan_board_view E token p s e board result w) as [w1 ->].
  unfold board_hits.
  destruct (board_view E token board) as [[[name valid] cards]|];
    [|discriminate].
  apply for_each_hits. intros x acc v acc' v' _. apply scan_card_hits.
Qed.

Lemma scan_board_keeps (E : env) (token p : json) (s e : date)
  (board : json) (result r' : report) (w w' : world) :
  scan_board E token p s e board result w = (Ok r', w') ->
  no_empty_groups result -> no_empty_groups r'.
Proof.
  destruct (scan_board_view E token p s e board result w) as [w1 ->].
  destruct (board_view E token board) as [[[name valid] cards]|];
    [|discriminate].
  apply (for_each_keeps _ no_empty_groups).
  intros x acc v acc' v' _. apply scan_card_keeps.
Qed.

Lemma scan_project_hits (E : env) (token : json) (s e : date)
  (project : json) (result r' : report) (w w' : world) :
  scan_project E token s e project result w = (Ok r', w') ->
  (project_hits E token s e project = false /\ r' = result) \/
  (project_hits E token s e project = true /\ r' <> []).
Proof.
  destruct (scan_project_view E token s e project result w) as [w1 ->].
  unfold project_hits.
  destruct (project_view E token project) as [[name boards]|];
    [|discriminate].
  apply for_each_hits. intros x acc v acc' v' _. apply scan_board_hits.
Qed.

Lemma scan_project_keeps (E : env) (token : json) (s e : date)
  (project : json) (result r' : report) (w w' : world) :
  scan_project E token s e project result w = (Ok r', w') ->
  no_empty_groups result -> no_empty_groups r'.
Proof.
  destruct (scan_project_view E token s e project result w) as [w1 ->].
  destruct (project_view E token project) as [[name boards]|];
    [|discriminate].
  apply (for_each_keeps _ no_empty_groups).
  intros x acc v acc' v' _. apply scan_board_keeps.
Qed.

(** No scanned card passes exactly when no project hits. *)
Lemma scanned_cards_hits (E : env) (token : json) (s e : date)
  (projects : list json) :
  projects_view E token = Ok projects ->
  (existsb (project_hits E token s e) projects = false <->
   forall valid card,
     In (valid, card) (scanned_cards E token) ->
     passes E valid s e card = false).
Proof.
  intros Hv. unfold scanned_cards. rewrite Hv. rewrite existsb_false.
  split.
  - intros H valid card Hin.
    apply in_flat_map in Hin as [project [Hp Hin]].
    specialize (H project Hp). unfold project_hits in H.
    destruct (project_view E token project) as [[name boards]|];
      [|destruct Hin].
    apply in_flat_map in Hin as [board [Hb Hin]].
    rewrite existsb_false in H. specialize (H board Hb).
    unfold board_hits in H.
    destruct (board_view E token board) as [[[bname valid'] cards]|];
      [|destruct Hin].
    apply in_map_iff in Hin as [card' [[= <- <-] Hc]].
    rewrite existsb_false in H. apply H, Hc.
  - intros H project Hp. unfold project_hits.
    destruct (project_view E token project) as [[name boards]|] eqn:Hpv;
      [|reflexivity].
    apply existsb_false. intros board Hb. unfold board_hits.
    destruct (board_view E token board) as [[[bname valid] cards]|] eqn:Hbv;
      [|reflexivity].
    apply existsb_false. intros card Hc. apply H.
    apply in_flat_map. exists project. split; [exact Hp|]. rewrite Hpv.
    apply in_flat_map. exists board. split; [exact Hb|]. rewrite Hbv.
    apply in_map, Hc.
Qed.

(** C9. A Report that [get_due_cards] returns has no empty group: every
    project in it has a board, every board a card entry.  So it is empty
    exactly when none of the cards scanned passed the tests of the loop. *)
Theorem report_has_no_empty_groups (E : env) (token : json) (s e : date)
  (w w' : world) (r : report) :
  get_due_cards E token s e w = (Ok r, w') ->
  no_empty_groups r /\
  (r = [] <-> entries r = 0%nat) /\
  (r = [] <->
   forall valid card,
     In (valid, card) (scanned_cards E token) ->
     passes E valid s e card = false).
Proof.
  rewrite get_due_cards_view.
  destruct (projects_view E token) as [projects|] eqn:Hv; [|discriminate].
  intros H.
  assert (Hg : no_empty_groups r).
  { apply (for_each_keeps _ no_empty_groups _
             (fun x acc v acc' v' _ => scan_project_keeps E token s e x acc acc' v v')
             _ _ _ _ H).
    constructor. }
  split; [exact Hg|]. split.
  - split; [intros ->; reflexivity|].
    destruct Hg as [|[p boards] r [Hb Hcards] _]; [reflexivity|].
    cbn in Hb, Hcards.
    destruct Hcards as [|[b cards] boards Hc _]; [congruence|].
    cbn in Hc. destruct cards; [congruence|].
    cbn. discriminate.
  - rewrite <- (scanned_cards_hits E token s e projects Hv).
    destruct (for_each_hits _ (project_hits E token s e) projects
                (fun x acc v acc' v' _ => scan_project_hits E token s e x acc acc' v v')
                _ _ _ _ H) as [[Hn ->]|[Hh Hne]].
    + tauto.
    + rewrite Hh. split; [contradiction|discriminate].
Qed.

(** ** Missing keys *)

Lemma lacks_getitem (x : json) (k : string) :
  lacks x k -> Py.getitem x (str k) = Raise (KeyError (JStr (str k))).
Proof. intros [kv [-> H]]. unfold Py.getitem. rewrite H. reflexivity. Qed.

(** Follows a pure computation through the reads that are known, splitting
    on those that are not, until it raises. *)
Ltac follow_reads :=
  repeat (cbn [bind pyresult_monad Py.iter];
          repeat match goal with
                 | H : _ = Ok _ |- _ => rewrite H
                 | H : _ = Raise _ |- _ => rewrite H
                 end;
          try (eexists; reflexivity);
          try break_match).

Lemma map_r_cons {A B : Type} (f : A -> pyresult B) (x : A) (l : list A) :
  map_r f (x :: l) = (y <- f x ;; rest <- map_r f l ;; ret (y :: rest)).
Proof. reflexivity. Qed.

Lemma list_ids_lacks (lists : list json) (lst : json) :
  In lst lists ->
  Py.getitem lst (str "id") = Raise (KeyError (JStr (str "id"))) ->
  exists x, list_ids lists = Raise x.
Proof.
  intros Hin Hl. unfold list_ids.
  induction lists as [|y lists IH]; [destruct Hin|].
  rewrite map_r_cons.
  destruct Hin as [->|Hin].
  - rewrite Hl. cbn. eauto.
  - destruct (IH Hin) as [x ->].
    match goal with
    | |- context [bind ?c _] => destruct c
    end; cbn; eauto.
Qed.

Lemma card_lacks_key_fails (E : env) (token p b : json) (valid : list json)
  (s e : date) (card : json) :
  card_lacks_key E valid s e card ->
  forall acc, fails (scan_card E token p b valid s e card acc).
Proof.
  intros [k Hpass Hk Hl] acc w. rewrite scan_card_test.
  unfold passes in Hpass.
  destruct (card_test E valid s e card) as [[dt|]|]; try discriminate.
  apply lacks_getitem in Hl.
  unfold store_card. cbn [bind M_monad]. rewrite !lift_run.
  destruct Hk as [-> | ->].
  - rewrite Hl. eauto.
  - destruct (Py.getitem card (str "name")) as [name|]; [|eauto].
    rewrite lift_run. destruct (short_name name); [|eauto].
    rewrite lift_run, Hl. eauto.
Qed.

Lemma board_lacks_key_fails (E : env) (token p : json) (s e : date)
  (board : json) :
  board_lacks_key E token s e board ->
  forall acc, fails (scan_board E token p s e board acc).
Proof.
  intros H acc w.
  destruct (scan_board_view E token p s e board acc w) as [w1 ->].
  assert (Hv : (exists x, board_view E token board = Raise x) \/
               (exists name valid cards card,
                   board_view E token board = Ok (name, valid, cards) /\
                   In card cards /\ card_lacks_key E valid s e card)).
  { destruct H as [k Hk Hl|id response Hid Hr Hl
                  |id response included k Hid Hr Hi Hk Hl
                  |id response included lst lists Hid Hr Hi Hls Hin Hl
                  |name card valid cards Hview Hin Hc].
    - left. apply lacks_getitem in Hl. unfold board_view.
      destruct Hk as [-> | ->]; follow_reads.
    - left. apply lacks_getitem in Hl. unfold board_view. follow_reads.
    - left. apply lacks_getitem in Hl. unfold board_view.
      destruct Hk as [-> | ->]; follow_reads.
    - left. apply lacks_getitem in Hl. unfold board_view.
      destruct (list_ids_lacks lists lst Hin Hl) as [x Hids].
      cbn [Py.iter] in *. follow_reads.
    - right. eauto 10. }
  destruct Hv as [[x ->]|[name [valid [cards [card [-> [Hin Hc]]]]]]];
    [eauto|].
  apply (for_each_fails _ cards card Hin).
  intros acc'. apply card_lacks_key_fails, Hc.
Qed.

Lemma filter_r_cons {A : Type} (keep : A -> pyresult bool) (x : A)
  (l : list A) :
  filter_r keep (x :: l) =
  (b <- keep x ;; rest <- filter_r keep l ;;
   ret (if b : bool then x :: rest else rest)).
Proof. reflexivity. Qed.

Lemma filter_boards_lacks (E : env) (boards : list json) (board : json) :
  In board boards ->
  Py.getitem board (str "id") = Raise (KeyError (JStr (str "id"))) ->
  exists x, filter_boards E boards = Raise x.
Proof.
  intros Hin Hl. unfold filter_boards.
  induction boards as [|y boards IH]; [destruct Hin|].
  rewrite filter_r_cons.
  destruct Hin as [->|Hin].
  - rewrite Hl. cbn. eauto.
  - destruct (IH Hin) as [x ->].
    match goal with
    | |- context [bind ?c _] => destruct c
    end; cbn; eauto.
Qed.

Lemma project_lacks_key_fails (E : env) (token : json) (s e : date)
  (project : json) :
  project_lacks_key E token s e project ->
  forall acc, fails (scan_project E token s e project acc).
Proof.
  intros H acc w.
  destruct (scan_project_view E token s e project acc w) as [w1 ->].
  assert (Hv : (exists x, project_view E token project = Raise x) \/
               (exists name boards board,
                   project_view E token project = Ok (name, boards) /\
                   In board boards /\ board_lacks_key E token s e board)).
  { destruct H as [k Hk Hl|id response Hid Hr Hl
                  |id response included Hid Hr Hi Hl
                  |id response included board boards Hid Hr Hi Hbs Hin Hl
                  |name board boards Hview Hin Hb].
    - left. apply lacks_getitem in Hl. unfold project_view.
      destruct Hk as [-> | ->]; follow_reads.
    - left. apply lacks_getitem in Hl. unfold project_view. follow_reads.
    - left. apply lacks_getitem in Hl. unfold project_view. follow_reads.
    - left. apply lacks_getitem in Hl. unfold project_view.
      destruct (filter_boards_lacks E boards board Hin Hl) as [x Hf].
      follow_reads.
    - right. eauto 10. }
  destruct Hv as [[x ->]|[name [boards [board [-> [Hin Hb]]]]]]; [eauto|].
  apply (for_each_fails _ boards board Hin).
  intros acc'. apply board_lacks_key_fails, Hb.
Qed.

(** C8, as the code has it.  A key that the traversal reads and does not
    find makes the whole call raise: ["items"] of the project list;
    ["name"] and ["id"] of a project; ["included"] and ["boards"] of its
    detail view; ["id"] of any of its boards and ["name"] of an
    allow-listed one; ["included"], ["lists"] and ["cards"] of the board's
    detail view; ["id"] of a list; ["name"] and ["id"] of a card that passed
    the tests.  What is raised is all the caller gets: no Report. *)
Theorem missing_key_fails_the_call (E : env) (token : json) (s e : date) :
  traversal_lacks_key E token s e ->
  forall w, exists x w',
    get_due_cards E token s e w = (Raise x, w') /\
    (forall r, fst (get_due_cards E token s e w) <> Ok r).
Proof.
  intros H w.
  assert (Hf : exists x w', get_due_cards E token s e w = (Raise x, w')).
  { rewrite get_due_cards_view.
    destruct H as [response Hr Hl|project projects Hv Hin Hp].
    - apply lacks_getitem in Hl.
      assert (Hv : exists x, projects_view E token = Raise x)
        by (unfold projects_view; follow_reads).
      destruct Hv as [x ->]. eauto.
    - rewrite Hv.
      apply (for_each_fails _ projects project Hin).
      intros acc. apply project_lacks_key_fails, Hp. }
  destruct Hf as [x [w' Hf]]. exists x, w'. split; [exact Hf|].
  intros r. rewrite Hf. discriminate.
Qed.

(* ================================================================== *)
(** * Further properties *)

(** ** The shape of a normalised comment *)

Lemma collapsed_spaces (s : pystr) :
  forall b, collapsed b s = true ->
            Forall (fun c => isspace c = true -> c = SP) s.
Proof.
  induction s as [|c s IH]; intros b H; [constructor|].
  cbn [collapsed] in H. destruct (isspace c) eqn:Hc.
  - apply andb_prop in H as [H H2]. apply andb_prop in H as [_ H1].
    constructor; [intros _; apply N.eqb_eq, H1|apply (IH _ H2)].
  - constructor; [intros H1; congruence|apply (IH _ H)].
Qed.

Lemma sub_ws_length (s : pystr) :
  forall b, (length (sub_ws b s) <= length s)%nat.
Proof.
  induction s as [|c s IH]; intros b; cbn [sub_ws length]; [lia|].
  destruct (isspace c).
  - pose proof (IH true). destruct b; cbn [length]; lia.
  - pose proof (IH false). cbn [length]. lia.
Qed.

Lemma lstrip_length (s : pystr) : (length (lstrip s) <= length s)%nat.
Proof.
  destruct (lstrip_suffix s) as [ws H]. rewrite H at 2.
  rewrite length_app. lia.
Qed.

Lemma rstrip_length (s : pystr) : (length (rstrip s) <= length s)%nat.
Proof.
  destruct (rstrip_prefix s) as [ws H]. rewrite H at 2.
  rewrite length_app. lia.
Qed.

Lemma rstrip_ends_clean (s : pystr) : ends_clean (rstrip s).
Proof.
  unfold ends_clean, rstrip. rewrite rev_involutive.
  apply lstrip_starts_clean.
Qed.

Lemma clean_comment_starts_clean (s : pystr) : starts_clean (clean_comment s).
Proof.
  unfold clean_comment, strip.
  apply rstrip_starts_clean, lstrip_starts_clean.
Qed.

(** X1. Whatever the text, [clean_comment] gives a string whose only
    whitespace is the space character, never twice in a row and neither at
    the start nor at the end, and which is no longer than the text. *)
Theorem clean_comment_shape (s : pystr) :
  collapsed false (clean_comment s) = true /\
  Forall (fun c => isspace c = true -> c = SP) (clean_comment s) /\
  starts_clean (clean_comment s) /\
  ends_clean (clean_comment s) /\
  (length (clean_comment s) <= length s)%nat.
Proof.
  split; [apply clean_comment_collapsed|].
  split; [apply (collapsed_spaces _ false), clean_comment_collapsed|].
  split; [apply clean_comment_starts_clean|].
  split; [apply rstrip_ends_clean|].
  unfold clean_comment, strip.
  pose proof (rstrip_length (lstrip (sub_ws false s))).
  pose proof (lstrip_length (sub_ws false s)).
  pose proof (sub_ws_length s false). lia.
Qed.

(** ** What [get_last_comment] returns and does *)

Lemma sort_desc_In (l sorted : list comment) (c : comment) :
  sort_desc l = Ok sorted -> In c sorted -> In c l.
Proof.
  unfold sort_desc. destruct l as [|x l]; [intros [= <-] []|].
  destruct (forallb _ l); [|discriminate].
  intros [= <-]. apply (sorted_In c (x :: l)).
Qed.

(** What is picked is nothing, or the start of a normalised text. *)
Lemma pick_last_comment_Ok (E : env) (response : json) (s : pystr) :
  pick_last_comment E response = Ok s ->
  s = [] \/ exists raw, s = slice_to 50 (clean_comment raw).
Proof.
  unfold pick_last_comment.
  destruct (Py.contains (str "items") response) as [[|]|]; cbn;
    [|intros [= <-]; auto|discriminate].
  destruct (Py.getitem response (str "items")) as [items|]; cbn;
    [|discriminate].
  destruct (Py.iter items) as [l|]; cbn; [|discriminate].
  destruct (comments_of E l) as [[|c cs]|] eqn:Hc; cbn;
    [intros [= <-]; auto| |discriminate].
  destruct (sort_desc (c :: cs)) as [[|c' tl]|] eqn:Hs; cbn;
    try discriminate.
  intros [= <-]. right.
  assert (Hin : In c' (c :: cs))
    by (apply (sort_desc_In _ _ _ Hs); left; reflexivity).
  destruct (comments_of_In E l _ c' Hc Hin) as [item [raw [_ [_ Ht]]]].
  exists raw. rewrite Ht. reflexivity.
Qed.

Lemma get_last_comment_Ok (E : env) (token card_id : json) (w : world)
  (s : pystr) :
  fst (get_last_comment E token card_id w) = Ok s ->
  s = [] \/ exists raw, s = slice_to 50 (clean_comment raw).
Proof.
  rewrite get_last_comment_run. cbn [fst].
  destruct (json_of E (GET_card_actions token card_id)) as [response|x];
    cbn [bind pyresult_monad].
  - destruct (pick_last_comment E response) as [s'|x] eqn:Hp; cbn.
    + intros [= <-]. apply (pick_last_comment_Ok E response s' Hp).
    + destruct (is_RequestException x); [intros [= <-]; auto|].
      destruct (is_ValueError x); [intros [= <-]; auto|discriminate].
  - cbn. destruct (is_RequestException x); [intros [= <-]; auto|].
    destruct (is_ValueError x); [intros [= <-]; auto|discriminate].
Qed.

Lemma slice_to_prefix (n : nat) (s : pystr) :
  exists rest, s = slice_to n s ++ rest.
Proof. exists (skipn n s). unfold slice_to. symmetry. apply firstn_skipn. Qed.

(** X2. A comment that [get_last_comment] returns has at most 50
    characters, holds no whitespace but single spaces, and does not start
    with one. *)
Theorem last_comment_shape (E : env) (token card_id : json) (w : world)
  (s : pystr) :
  fst (get_last_comment E token card_id w) = Ok s ->
  (length s <= 50)%nat /\
  collapsed false s = true /\
  Forall (fun c => isspace c = true -> c = SP) s /\
  starts_clean s.
Proof.
  intros H. apply get_last_comment_Ok in H as [->|[raw ->]].
  - repeat split; cbn; try lia; constructor.
  - destruct (slice_to_prefix 50 (clean_comment raw)) as [rest Hr].
    assert (Hc : collapsed false (slice_to 50 (clean_comment raw)) = true).
    { apply (collapsed_prefix _ rest). rewrite <- Hr.
      apply clean_comment_collapsed. }
    split; [unfold slice_to; apply firstn_le_length|].
    split; [exact Hc|]. split; [apply (collapsed_spaces _ false Hc)|].
    pose proof (clean_comment_starts_clean raw) as Hs.
    rewrite Hr in Hs.
    destruct (slice_to 50 (clean_comment raw)); [exact I|exact Hs].
Qed.

(** X3. Whether it returns a comment, an empty string or raises,
    [get_last_comment] sends exactly one request, for the actions of the
    card with the token it was given, and touches neither the log nor the
    chat. *)
Theorem last_comment_one_request (E : env) (token card_id : json)
  (w : world) :
  sent (snd (get_last_comment E token card_id w))
  = sent w ++ [GET_card_actions token card_id] /\
  logfile (snd (get_last_comment E token card_id w)) = logfile w /\
  outbox (snd (get_last_comment E token card_id w)) = outbox w.
Proof. rewrite get_last_comment_run. repeat split. Qed.

(** The head of the sorted list, when timestamps may repeat: the first
    comment nothing before is as late as and nothing after is later than. *)
Lemma sorted_head_first (pre post : list comment) (c : comment) :
  (forall x, In x pre -> sort_key (createdAt x) < sort_key (createdAt c)) ->
  (forall x, In x post -> sort_key (createdAt x) <= sort_key (createdAt c)) ->
  exists tl, fold_right insert_desc [] (pre ++ c :: post) = c :: tl.
Proof.
  intros Hpre Hpost. induction pre as [|x pre IH]; cbn [app fold_right].
  - destruct (fold_right insert_desc [] post) as [|y tl] eqn:Hs;
      [exists []; reflexivity|].
    assert (Hy : In y post) by (apply sorted_In; rewrite Hs; left; reflexivity).
    cbn [insert_desc]. specialize (Hpost y Hy).
    destruct (Z.ltb_spec (sort_key (createdAt c)) (sort_key (createdAt y)));
      [lia|eauto].
  - destruct IH as [tl ->]; [intros y Hy; apply Hpre; right; exact Hy|].
    cbn [insert_desc]. specialize (Hpre x (or_introl eq_refl)).
    destruct (Z.ltb_spec (sort_key (createdAt x)) (sort_key (createdAt c)));
      [eauto|lia].
Qed.

(** X4. When several comment entries of the action log share the latest
    timestamp, the one that comes first in the log is returned: the
    descending sort is stable.  The entry returned is told by its place in
    the log: every comment before it is earlier, none after it is later. *)
Theorem last_comment_tie_first (E : env) (token card_id : json) (w : world)
  (st : Z) (kv : list (pystr * json)) (before after : list json)
  (item : json) (raw : pystr) (created : datetime) :
  http E (GET_card_actions token card_id) = Response st (Some (JObj kv)) ->
  Py.lookup (str "items") kv = Some (JList (before ++ item :: after)) ->
  forallb (well_formed_action E) (before ++ item :: after) = true ->
  existsb (unparsable E) (before ++ item :: after) = false ->
  is_comment_action E item raw created ->
  (forall a ra ta, In a before -> is_comment_action E a ra ta ->
                   wall ta < wall created) ->
  (forall a ra ta, In a after -> is_comment_action E a ra ta ->
                   wall ta <= wall created) ->
  fst (get_last_comment E token card_id w) = Ok (firstn 50 (normalized raw)).
Proof.
  intros Hhttp Hitems Hwf Hp Hact Hbefore Hafter.
  destruct (comments_of_parsable E _ Hwf Hp) as [comments [Hcs Hn]].
  pose proof Hcs as Hsplit.
  rewrite comments_of_app in Hsplit.
  destruct (comments_of E before) as [pre|] eqn:Hpre; [|discriminate].
  cbn [bind pyresult_monad] in Hsplit.
  destruct (comments_of E (item :: after)) as [rest|] eqn:Hrest;
    [|discriminate].
  injection Hsplit as Hsplit.
  change (item :: after) with ([item] ++ after) in Hrest.
  rewrite comments_of_app in Hrest.
  destruct (comment_of_comment_action E item raw created Hact) as [Hi Hco].
  assert (H1 : comments_of E [item]
               = Ok [{| c_text := clean_comment raw; createdAt := created |}]).
  { cbn [comments_of]. unfold is_comment in Hi.
    destruct (Py.getitem item (str "type")); [|discriminate].
    cbn [bind pyresult_monad]. rewrite Hi, Hco. reflexivity. }
  rewrite H1 in Hrest. cbn [bind pyresult_monad] in Hrest.
  destruct (comments_of E after) as [post|] eqn:Hpost; [|discriminate].
  injection Hrest as <-. cbn [app] in Hsplit. subst comments.
  set (c := {| c_text := clean_comment raw; createdAt := created |}) in *.
  assert (Hc : In c (pre ++ c :: post))
    by (apply in_or_app; right; left; reflexivity).
  destruct (sorted_head_first pre post c) as [tl Hs].
  - intros x Hx.
    destruct (comments_of_In E before pre x Hpre Hx)
      as [a [ra [Ha [Hact' _]]]].
    rewrite (naive_sort_key (createdAt x)),
            (naive_sort_key (createdAt c) (Hn c Hc)).
    + exact (Hbefore a ra _ Ha Hact').
    + apply Hn. apply in_or_app. left. exact Hx.
  - intros x Hx.
    destruct (comments_of_In E after post x Hpost Hx)
      as [a [ra [Ha [Hact' _]]]].
    rewrite (naive_sort_key (createdAt x)),
            (naive_sort_key (createdAt c) (Hn c Hc)).
    + exact (Hafter a ra _ Ha Hact').
    + apply Hn. apply in_or_app. right. right. exact Hx.
  - rewrite (get_last_comment_head E token card_id w st kv _ _ tl c
               Hhttp Hitems Hcs Hn Hs).
    cbn [c_text c]. rewrite clean_comment_normalized. reflexivity.
Qed.

(** ** The token *)

Lemma clear_log_run (E : env) (w : world) :
  clear_log E w = (Ok tt, cleared E w) /\
  sent (cleared E w) = sent w /\ outbox (cleared E w) = outbox w /\
  logfile (cleared E w)
  = if log_exists E && (7 <=? log_age_days E) then [] else logfile w.
Proof.
  unfold cleared, clear_log.
  destruct (log_exists E); [|auto].
  destruct (7 <=? log_age_days E); auto.
Qed.

(** X5. When the token request is answered with a good status and a JSON
    document, [get_token] returns the document's ["item"] and writes nothing
    to the log; when the document has no ["item"], the [KeyError] goes to
    the caller, as no clause catches it. *)
Theorem get_token_item_or_key_error (E : env) (j : json) (w : world) :
  token_answered E j ->
  (forall t, Py.getitem j (str "item") = Ok t ->
             get_token E w
             = (Ok t, add_sent (token_request E) (cleared E w))) /\
  (lacks j "item" ->
   get_token E w
   = (Raise (KeyError (JStr (str "item"))),
      add_sent (token_request E) (cleared E w))).
Proof.
  intros [st [Hhttp Hst]].
  assert (Hs : (400 <=? st) && (st <? 600) = false).
  { apply andb_false_iff. destruct Hst; [left; apply Z.leb_gt|right; apply Z.ltb_ge]; lia. }
  destruct (clear_log_run E w) as [Hc _].
  assert (H : get_token E w =
              (match Py.getitem j (str "item") with
               | Ok t => Ok t
               | Raise x => if is_RequestException x then Ok JNull else Raise x
               end,
               match Py.getitem j (str "item") with
               | Ok t => add_sent (token_request E) (cleared E w)
               | Raise x =>
                   if is_RequestException x
                   then snd (logging_error (Error_receiving_token x)
                               (add_sent (token_request E) (cleared E w)))
                   else add_sent (token_request E) (cleared E w)
               end)).
  { unfold get_token, try_except. cbn [bind M_monad]. rewrite Hc.
    unfold requests_send, token_request in *. rewrite Hhttp.
    unfold raise_for_status, lift. cbn [status_code body response_json].
    rewrite Hs.
    destruct (Py.getitem j (str "item")) as [t|x]; [reflexivity|].
    destruct (is_RequestException x); reflexivity. }
  split.
  - intros t Ht. rewrite H, Ht. reflexivity.
  - intros Hl. apply lacks_getitem in Hl. rewrite H, Hl. reflexivity.
Qed.

(** X6. Whatever the answer, [get_token] sends exactly one request, the
    one with the configured credentials, and never replies to the chat.  It
    first empties a log that exists and is at least 7 days old, and then
    adds at most one record: the error it turned into [None]. *)
Theorem get_token_effects (E : env) (w : world) :
  sent (snd (get_token E w)) = sent w ++ [token_request E] /\
  outbox (snd (get_token E w)) = outbox w /\
  let kept := if log_exists E && (7 <=? log_age_days E)
              then [] else logfile w in
  logfile (snd (get_token E w)) = kept \/
  exists x, is_RequestException x = true /\
            fst (get_token E w) = Ok JNull /\
            logfile (snd (get_token E w))
            = kept ++ [Error_receiving_token x].
Proof.
  destruct (clear_log_run E w) as [Hc [Hs [Ho Hl]]].
  unfold get_token, try_except. cbn [bind M_monad]. rewrite Hc.
  unfold requests_send, token_request, raise_for_status, lift,
    logging_error.
  destruct (http E (POST_access_tokens (USERNAME (cfg E)) (PASSWORD (cfg E))))
    as [|st b]; cbn.
  - rewrite Hs, Ho, Hl. split; [reflexivity|]. split; [reflexivity|].
    right. exists ConnectionError. auto.
  - destruct ((400 <=? st) && (st <? 600)); cbn.
    + rewrite Hs, Ho, Hl. split; [reflexivity|]. split; [reflexivity|].
      right. exists (HTTPError st). auto.
    + destruct b as [j|]; cbn.
      * destruct (Py.getitem j (str "item")) as [t|x]; cbn;
          [rewrite Hs, Ho, Hl; auto|].
        destruct (is_RequestException x) eqn:Hx; cbn;
          rewrite Hs, Ho, Hl; [|auto].
        split; [reflexivity|]. split; [reflexivity|]. right. exists x. auto.
      * rewrite Hs, Ho, Hl. split; [reflexivity|]. split; [reflexivity|].
        right. exists JSONDecodeError. auto.
Qed.

(** ** The tests of a card *)

(** The window is the last thing the tests look at. *)
Lemma card_test_due_date (E : env) (valid : list json) (s e : date)
  (card : json) :
  card_test E valid s e card =
  match due_date_of_card E valid card with
  | Raise x => Raise x
  | Ok None => Ok None
  | Ok (Some dt) =>
      if date_le s (date_of dt) && date_le (date_of dt) e
      then Ok (Some dt) else Ok None
  end.
Proof.
  unfold card_test, due_date_of_card. cbn [bind pyresult_monad ret].
  repeat (break_match; cbn [bind pyresult_monad ret];
          try reflexivity; try discriminate).
Qed.

(** X7. A card that passes the tests for a window passes them for every
    wider one: what the button for today reports, the button for the week
    reports too. *)
Theorem wider_window_keeps_cards (E : env) (valid : list json)
  (s e s' e' : date) (card : json) :
  passes E valid s e card = true ->
  toordinal s' <= toordinal s -> toordinal e <= toordinal e' ->
  passes E valid s' e' card = true.
Proof.
  unfold passes. rewrite !card_test_due_date.
  destruct (due_date_of_card E valid card) as [[dt|]|]; try discriminate.
  destruct (date_le s (date_of dt) && date_le (date_of dt) e) eqn:Hw;
    [|discriminate].
  intros _ Hs He. apply window_spec in Hw.
  rewrite (proj2 (window_spec s' e' (date_of dt))); [reflexivity|lia].
Qed.

(** X8. A card whose listId is missing, or can be hashed and is not among
    the valid list ids, or is valid while isDueDateCompleted counts as true
    or dueDate counts as false, is passed over before its due date is
    parsed: whatever its name, its id and its due date hold, the Report
    stays as it was, nothing is fetched and nothing is raised.  A listId
    that cannot be hashed, a list or an object, is another matter: the
    membership test of line 103 raises [TypeError]. *)
Theorem excluded_before_parsing (E : env) (token p b : json)
  (valid : list json) (s e : date) (kv : list (pystr * json))
  (result : report) (w : world) :
  (match Py.lookup (str "listId") kv with
   | Some l => Py.hashable l = true
   | None => True
   end ->
   Py.lookup (str "listId") kv = None \/
   (exists l, Py.lookup (str "listId") kv = Some l /\
              existsb (fun y => Py.eq_scalar y l) valid = false) \/
   (exists c, Py.lookup (str "isDueDateCompleted") kv = Some c /\
              Py.truthy c = true) \/
   (exists d, Py.lookup (str "dueDate") kv = Some d /\ Py.truthy d = false) ->
   scan_card E token p b valid s e (JObj kv) result w = (Ok result, w)) /\
  (forall l,
      Py.lookup (str "listId") kv = Some l -> Py.hashable l = false ->
      scan_card E token p b valid s e (JObj kv) result w
      = (Raise TypeError, w)).
Proof.
  rewrite scan_card_test.
  unfold card_test, Py.contains, Py.getitem, Py.get, PyDict.set_contains.
  split.
  - intros Hh H.
    destruct (Py.lookup (str "listId") kv) as [l|] eqn:Hl; cbn;
      [|reflexivity].
    rewrite Hh. cbn.
    destruct (existsb (fun y => Py.eq_scalar y l) valid) eqn:Hv; cbn;
      [|reflexivity].
    destruct H as [H|[[l' [[= <-] H]]|[[c [Hc Ht]]|[d [Hd Ht]]]]];
      try congruence.
    + rewrite Hc.
      destruct (Py.lookup (str "dueDate") kv); cbn;
        rewrite ?Ht; cbn; rewrite ?andb_false_r; reflexivity.
    + rewrite Hd. cbn.
      destruct (Py.lookup (str "isDueDateCompleted") kv); cbn;
        rewrite ?Ht; reflexivity.
  - intros l -> Hh. cbn. rewrite Hh. reflexivity.
Qed.

(** ** What one card can do to the whole call *)

(** A scanned card on which the loop body raises makes the call raise. *)
Lemma scanned_card_fails (E : env) (token : json) (s e : date)
  (valid : list json) (card : json) :
  In (valid, card) (scanned_cards E token) ->
  (forall p b acc, fails (scan_card E token p b valid s e card acc)) ->
  fails (get_due_cards E token s e).
Proof.
  unfold scanned_cards. intros Hin Hcard w. rewrite get_due_cards_view.
  destruct (projects_view E token) as [projects|]; [|destruct Hin].
  apply in_flat_map in Hin as [project [Hp Hin]].
  apply (for_each_fails _ projects project Hp). clear w.
  intros acc w.
  destruct (scan_project_view E token s e project acc w) as [w1 ->].
  destruct (project_view E token project) as [[name boards]|]; [|destruct Hin].
  apply in_flat_map in Hin as [board [Hb Hin]].
  apply (for_each_fails _ boards board Hb). clear acc w w1.
  intros acc w.
  destruct (scan_board_view E token name s e board acc w) as [w1 ->].
  destruct (board_view E token board) as [[[bname valid'] cards]|];
    [|destruct Hin].
  apply in_map_iff in Hin as [card' [[= <- <-] Hc]].
  apply (for_each_fails _ cards card' Hc). intros acc'. apply Hcard.
Qed.

(** X9. An open card on a valid list whose dueDate is a string that
    [fromisoformat] rejects is not skipped: the [ValueError] leaves the card
    loop, and the whole call raises, whatever the window. *)
Theorem unparsable_due_date_fails_the_call (E : env) (token : json)
  (s e : date) (valid : list json) (kv : list (pystr * json)) (l : json)
  (d : pystr) :
  In (valid, JObj kv) (scanned_cards E token) ->
  Py.lookup (str "listId") kv = Some l -> Py.hashable l = true ->
  existsb (fun y => Py.eq_scalar y l) valid = true ->
  Py.lookup (str "dueDate") kv = Some (JStr d) -> d <> [] ->
  fromisoformat E (remove_char 90%N d) = None ->
  match Py.lookup (str "isDueDateCompleted") kv with
  | Some c => Py.truthy c = false
  | None => True
  end ->
  (forall p b acc w,
      scan_card E token p b valid s e (JObj kv) acc w
      = (Raise ValueError, w)) /\
  (forall w, exists x w',
      get_due_cards E token s e w = (Raise x, w')).
Proof.
  intros Hin Hl Hh Hv Hd Hne Hp Hc.
  assert (H : forall p b acc w,
             scan_card E token p b valid s e (JObj kv) acc w
             = (Raise ValueError, w)).
  { intros p b acc w. rewrite scan_card_test.
    unfold card_test, Py.contains, Py.getitem, Py.get, PyDict.set_contains.
    rewrite Hl. cbn. rewrite Hh. cbn. rewrite Hv, Hd. cbn.
    unfold due_date_local, parse_iso.
    cbn [replace_Z bind pyresult_monad]. rewrite Hp.
    destruct d as [|ch d]; [congruence|].
    destruct (Py.lookup (str "isDueDateCompleted") kv) as [c|]; cbn;
      rewrite ?Hc; reflexivity. }
  split; [exact H|].
  apply (scanned_card_fails E token s e valid (JObj kv) Hin).
  intros p b acc w. rewrite H. eauto.
Qed.

(** X10. With an end date before the start date no card passes the tests:
    a Report that [get_due_cards] returns for such a window is empty. *)
Theorem inverted_window_reports_nothing (E : env) (token : json)
  (s e : date) (w w' : world) (r : report) :
  toordinal e < toordinal s ->
  get_due_cards E token s e w = (Ok r, w') ->
  r = [].
Proof.
  intros Hinv. rewrite get_due_cards_view.
  destruct (projects_view E token) as [projects|] eqn:Hv; [|discriminate].
  intros H.
  destruct (for_each_hits _ (project_hits E token s e) projects
              (fun x acc v acc' v' _ =>
                 scan_project_hits E token s e x acc acc' v v')
              _ _ _ _ H) as [[_ ->]|[Hh _]]; [reflexivity|].
  assert (Hn : existsb (project_hits E token s e) projects = false).
  { apply (scanned_cards_hits E token s e projects Hv).
    intros valid card _. unfold passes. rewrite card_test_due_date.
    destruct (due_date_of_card E valid card) as [[dt|]|]; try reflexivity.
    destruct (date_le s (date_of dt) && date_le (date_of dt) e) eqn:Hw;
      [|reflexivity].
    apply window_spec in Hw. lia. }
  congruence.
Qed.

(** X11. The window a message text selects is never empty and never looks
    further than 7 days ahead: it ends between today and today plus 7, and
    it starts at its end or at [date.min]. *)
Theorem select_window_bounds (E : env) (message_text : pystr) (s e : date) :
  0 < toordinal (today E) ->
  select_window E message_text = Ok (s, e) ->
  toordinal s <= toordinal e /\
  toordinal (today E) <= toordinal e <= toordinal (today E) + 7 /\
  (s = date_min \/ s = e).
Proof.
  unfold select_window, date_add_days.
  remember (today E) as t eqn:Ht. clear Ht. destruct t as [t].
  cbn [toordinal]. intros Hlo.
  destruct (PyStr.contains (str "today") message_text).
  - intros [= <- <-]. unfold date_min. cbn [toordinal].
    repeat split; auto; lia.
  - destruct (PyStr.contains (str "tomorrow") message_text).
    + destruct ((0 <? t + 1) && (t + 1 <=? MAXORDINAL));
        cbn [bind pyresult_monad ret]; [|discriminate].
      intros [= <- <-]. cbn [toordinal]. repeat split; auto; lia.
    + destruct ((0 <? t + 7) && (t + 7 <=? MAXORDINAL));
        cbn [bind pyresult_monad ret]; [|discriminate].
      intros [= <- <-]. unfold date_min. cbn [toordinal].
      repeat split; auto; lia.
Qed.

(** ** Looking an entry up again *)

Lemma pystr_eqb_eq (s t : pystr) : PyStr.eqb s t = true <-> s = t.
Proof.
  revert t. induction s as [|c s IH]; intros [|d t]; cbn;
    try (split; [discriminate|discriminate]); [tauto|].
  rewrite andb_true_iff, N.eqb_eq, IH.
  split; [intros [-> ->]; reflexivity|intros [= -> ->]; auto].
Qed.

Lemma eq_scalar_sym (x y : json) : Py.eq_scalar x y = Py.eq_scalar y x.
Proof.
  destruct x as [|a|n|s| |], y as [|b|m|t| |]; cbn; try reflexivity.
  - destruct a, b; reflexivity.
  - apply Z.eqb_sym.
  - destruct (PyStr.eqb s t) eqn:H1, (PyStr.eqb t s) eqn:H2; auto.
    + apply pystr_eqb_eq in H1. subst.
      rewrite (proj2 (pystr_eqb_eq t t) eq_refl) in H2. discriminate.
    + apply pystr_eqb_eq in H2. subst.
      rewrite (proj2 (pystr_eqb_eq s s) eq_refl) in H1. discriminate.
Qed.

Lemma eq_scalar_trans (x y z : json) :
  Py.eq_scalar x y = true -> Py.eq_scalar y z = true ->
  Py.eq_scalar x z = true.
Proof.
  destruct x as [|a|n|s| |], y as [|b|m|t| |], z as [|c|k|u| |]; cbn;
    try discriminate; try reflexivity; intros H1 H2;
    repeat match goal with
           | H : Bool.eqb _ _ = true |- _ => apply Bool.eqb_prop in H
           | H : (_ =? _) = true |- _ => apply Z.eqb_eq in H
           | H : PyStr.eqb _ _ = true |- _ => apply pystr_eqb_eq in H
           end;
    subst;
    try apply Bool.eqb_reflx; try apply Z.eqb_eq; try apply pystr_eqb_eq;
    try reflexivity;
    repeat match goal with
           | x : bool |- _ => destruct x
           end;
    cbn in *; try reflexivity; try discriminate; lia.
Qed.

Section DictLookup.

Context {V : Type}.
Implicit Types (k : json) (d : list (json * V)).

(** Keys that are equal find the same value. *)
Lemma find_eq_scalar k k' d :
  Py.eq_scalar k k' = true -> PyDict.find k' d = PyDict.find k d.
Proof.
  intros H. induction d as [|[k0 v0] d IH]; cbn; [reflexivity|].
  destruct (Py.eq_scalar k0 k) eqn:H0.
  - rewrite (eq_scalar_trans _ _ _ H0 H). reflexivity.
  - destruct (Py.eq_scalar k0 k') eqn:H1; [|exact IH].
    rewrite eq_scalar_sym in H.
    rewrite (eq_scalar_trans _ _ _ H1 H) in H0. discriminate.
Qed.

(** Setting a key leaves the other keys as they were. *)
Lemma find_setitem_other k k' (v : V) d :
  Py.eq_scalar k k' = false ->
  PyDict.find k' (PyDict.setitem k v d) = PyDict.find k' d.
Proof.
  intros H. induction d as [|[k0 v0] d IH]; cbn.
  - rewrite H. reflexivity.
  - destruct (Py.eq_scalar k0 k) eqn:H0; cbn.
    + destruct (Py.eq_scalar k0 k') eqn:H1; [|reflexivity].
      rewrite eq_scalar_sym in H0.
      rewrite (eq_scalar_trans _ _ _ H0 H1) in H. discriminate.
    + destruct (Py.eq_scalar k0 k'); [reflexivity|exact IH].
Qed.

(** Setting a key keeps the keys in their places; a new one goes last. *)
Lemma setitem_keys k (v : V) d :
  List.map fst (PyDict.setitem k v d) =
  match PyDict.find k d with
  | Some _ => List.map fst d
  | None => List.map fst d ++ [k]
  end.
Proof.
  induction d as [|[k0 v0] d IH]; cbn; [reflexivity|].
  destruct (Py.eq_scalar k0 k); cbn; [reflexivity|].
  rewrite IH. destruct (PyDict.find k d); reflexivity.
Qed.

End DictLookup.

Lemma find_or_empty_eq_scalar {V : Type} (k k' : json)
  (d : list (json * list V)) :
  Py.eq_scalar k k' = true -> find_or_empty k' d = find_or_empty k d.
Proof.
  intros H. unfold find_or_empty. rewrite (find_eq_scalar k k' d H).
  reflexivity.
Qed.

Lemma find_or_empty_setitem {V : Type} (k : json) (v : list V)
  (d : list (json * list V)) :
  Py.hashable k = true -> find_or_empty k (PyDict.setitem k v d) = v.
Proof.
  intros H. unfold find_or_empty. rewrite (find_setitem k v d H).
  reflexivity.
Qed.

Lemma find_or_empty_setitem_other {V : Type} (k k' : json) (v : list V)
  (d : list (json * list V)) :
  Py.eq_scalar k k' = false ->
  find_or_empty k' (PyDict.setitem k v d) = find_or_empty k' d.
Proof.
  intros H. unfold find_or_empty. rewrite (find_setitem_other k k' v d H).
  reflexivity.
Qed.

(** X12. Adding an entry for a project and a board (names that can be
    hashed) puts it at the end of what the Report holds under these two
    names, changes nothing under any other pair of names, and keeps the
    projects in their order, a new one going last. *)
Theorem report_add_lookup (p b : json) (e : entry) (r : report) :
  Py.hashable p = true -> Py.hashable b = true ->
  exists r',
    report_add p b e r = Ok r' /\
    find_or_empty b (find_or_empty p r')
    = find_or_empty b (find_or_empty p r) ++ [e] /\
    (forall p' b',
        Py.eq_scalar p p' && Py.eq_scalar b b' = false ->
        find_or_empty b' (find_or_empty p' r')
        = find_or_empty b' (find_or_empty p' r)) /\
    List.map fst r' =
    match PyDict.find p r with
    | Some _ => List.map fst r
    | None => List.map fst r ++ [p]
    end.
Proof.
  intros Hp Hb. rewrite (report_add_eq p b e r Hp Hb).
  eexists. split; [reflexivity|]. split; [|split].
  - rewrite (find_or_empty_setitem p _ r Hp).
    apply (find_or_empty_setitem b _ _ Hb).
  - intros p' b' H.
    destruct (Py.eq_scalar p p') eqn:Hpp.
    + cbn in H.
      rewrite (find_or_empty_eq_scalar p p' _ Hpp).
      rewrite (find_or_empty_setitem p _ r Hp).
      rewrite (find_or_empty_setitem_other b b' _ _ H).
      rewrite (find_or_empty_eq_scalar p p' r Hpp). reflexivity.
    + rewrite (find_or_empty_setitem_other p p' _ r Hpp). reflexivity.
  - apply setitem_keys.
Qed.

(** ** What [get_due_cards] sends *)

Lemma add_sents_nil (w : world) : add_sents [] w = w.
Proof. destruct w. unfold add_sents. cbn. rewrite app_nil_r. reflexivity. Qed.

Lemma add_sents_app (l1 l2 : list request) (w : world) :
  add_sents l2 (add_sents l1 w) = add_sents (l1 ++ l2) w.
Proof. unfold add_sents. cbn. rewrite app_assoc. reflexivity. Qed.

Lemma tally_app (l1 l2 : list request) :
  tally (l1 ++ l2) = (tally l1 + tally l2)%nat.
Proof. unfold tally. rewrite filter_app, length_app. reflexivity. Qed.

(** A computation that raises before it sends anything reads. *)
Lemma reads_raise (E : env) (token : json) (acc : report) (c : M report)
  (x : exn) :
  (forall w, c w = (Raise x, w)) -> reads E token acc c.
Proof.
  intros H w. exists []. rewrite H. cbn [fst snd].
  rewrite add_sents_nil. split; [reflexivity|]. split; [constructor|].
  discriminate.
Qed.

(** What storing makes of a card: the entry it adds. *)
Lemma store_card_entry (E : env) (token p b card : json) (dt : datetime)
  (result r' : report) (w w' : world) :
  store_card E token p b card dt result w = (Ok r', w') ->
  exists name short id c,
    short_name name = Ok short /\
    fst (get_last_comment E token id w) = Ok c /\
    w' = add_sents [GET_card_actions token id] w /\
    report_add p b (short, strftime_dmY_HM dt, c) result = Ok r'.
Proof.
  unfold store_card. cbn [bind M_monad]. rewrite !lift_run.
  destruct (Py.getitem card (str "name")) as [name|]; [|discriminate].
  rewrite lift_run.
  destruct (short_name name) as [short|] eqn:Hs; [|discriminate].
  rewrite lift_run.
  destruct (Py.getitem card (str "id")) as [id|]; [|discriminate].
  rewrite get_last_comment_run.
  match goal with
  | |- context [absorb ?x] => destruct (absorb x) as [c|] eqn:Hc
  end; [|discriminate].
  rewrite lift_run. intros [= H <-].
  exists name, short, id, c. rewrite get_last_comment_run.
  repeat split; auto.
Qed.

Lemma reads_scan_card (E : env) (token p b : json) (valid : list json)
  (s e : date) (card : json) (result : report) :
  reads E token result (scan_card E token p b valid s e card result).
Proof.
  intros w. rewrite scan_card_test.
  destruct (card_test E valid s e card) as [[dt|]|].
  - destruct (store_card E token p b card dt result w) as [[r'|x] w'] eqn:H.
    + destruct (store_card_entry _ _ _ _ _ _ _ _ _ _ H)
        as [name [short [id [c [_ [_ [-> Hadd]]]]]]].
      exists [GET_card_actions token id]. cbn [fst snd].
      split; [reflexivity|]. split; [repeat constructor|].
      intros acc' [= <-]. rewrite (report_add_entries _ _ _ _ _ Hadd).
      cbn. lia.
    + (* raised: before or after the comment was fetched *)
      revert H. unfold store_card. cbn [bind M_monad]. rewrite !lift_run.
      destruct (Py.getitem card (str "name")) as [name|].
      2:{ intros [= _ <-]. exists []. rewrite add_sents_nil. cbn.
          split; [reflexivity|]. split; [constructor|discriminate]. }
      rewrite lift_run. destruct (short_name name) as [short|].
      2:{ intros [= _ <-]. exists []. rewrite add_sents_nil. cbn.
          split; [reflexivity|]. split; [constructor|discriminate]. }
      rewrite lift_run. destruct (Py.getitem card (str "id")) as [id|].
      2:{ intros [= _ <-]. exists []. rewrite add_sents_nil. cbn.
          split; [reflexivity|]. split; [constructor|discriminate]. }
      rewrite get_last_comment_run.
      match goal with
      | |- context [absorb ?y] => destruct (absorb y) as [c|]
      end; rewrite ?lift_run; intros [= _ <-];
        exists [GET_card_actions token id]; cbn;
        (split; [reflexivity|]); (split; [repeat constructor|discriminate]).
  - exists []. rewrite add_sents_nil. cbn.
    split; [reflexivity|]. split; [constructor|].
    intros acc' [= <-]. lia.
  - exists []. rewrite add_sents_nil. cbn.
    split; [reflexivity|]. split; [constructor|discriminate].
Qed.

Lemma reads_for_each (E : env) (token : json) {A : Type}
  (body : A -> report -> M report) (l : list A) :
  (forall x acc, In x l -> reads E token acc (body x acc)) ->
  forall acc, reads E token acc (for_each l body acc).
Proof.
  induction l as [|x l IH]; intros Hb acc w.
  - exists []. rewrite add_sents_nil. cbn.
    split; [reflexivity|]. split; [constructor|].
    intros acc' [= <-]. lia.
  - cbn [for_each bind M_monad].
    destruct (Hb x acc (or_introl eq_refl) w) as [l1 [Hw [Hf He]]].
    destruct (body x acc w) as [[acc1|y] w1]; cbn [fst snd] in *.
    + destruct (IH (fun z a Hz => Hb z a (or_intror Hz)) acc1 w1)
        as [l2 [Hw2 [Hf2 He2]]].
      subst w1. exists (l1 ++ l2). rewrite Hw2, add_sents_app.
      split; [reflexivity|]. split; [apply Forall_app; split; auto|].
      intros acc' Hacc. rewrite (He2 acc' Hacc), (He acc1 eq_refl), tally_app.
      lia.
    + exists l1. split; [exact Hw|]. split; [exact Hf|discriminate].
Qed.

(** One more request in front. *)
Lemma reads_after (E : env) (token : json) (acc : report) (c : M report)
  (r : request) (w : world) :
  reads_for E token r -> is_card_actions r = false ->
  reads E token acc c ->
  exists l,
    snd (c (add_sent r w)) = add_sents (r :: l) w /\
    Forall (reads_for E token) (r :: l) /\
    (forall acc', fst (c (add_sent r w)) = Ok acc' ->
                  entries acc' = (entries acc + tally (r :: l))%nat).
Proof.
  intros Hr Hn Hc. destruct (Hc (add_sent r w)) as [l [Hw [Hf He]]].
  exists l. split.
  - rewrite Hw. change (add_sent r w) with (add_sents [r] w).
    rewrite add_sents_app. reflexivity.
  - split; [constructor; auto|].
    intros acc' Ha. rewrite (He acc' Ha).
    unfold tally. cbn [filter]. rewrite Hn. reflexivity.
Qed.

Lemma reads_scan_board (E : env) (token p : json) (s e : date)
  (board : json) (result : report) :
  (forall id, Py.getitem board (str "id") = Ok id ->
              in_BOARD_IDS E id = true) ->
  reads E token result (scan_board E token p s e board result).
Proof.
  intros Hallowed w.
  unfold scan_board. cbn [bind M_monad]. rewrite ?lift_run.
  destruct (Py.getitem board (str "name")) as [name|x].
  2:{ exists []. rewrite add_sents_nil. cbn.
      split; [reflexivity|]. split; [constructor|discriminate]. }
  destruct (Py.getitem board (str "id")) as [id|x] eqn:Hid.
  2:{ exists []. rewrite add_sents_nil. cbn.
      split; [reflexivity|]. split; [constructor|discriminate]. }
  rewrite get_json_run.
  assert (Hr : reads_for E token (GET_board token id))
    by (split; [reflexivity|apply Hallowed; reflexivity]).
  assert (Hstop : forall x : exn,
             exists l,
               snd (@Raise report x, add_sent (GET_board token id) w)
               = add_sents l w /\
               Forall (reads_for E token) l /\
               (forall acc',
                   fst (@Raise report x, add_sent (GET_board token id) w)
                   = Ok acc' ->
                   entries acc' = (entries result + tally l)%nat)).
  { intros x. exists [GET_board token id]. cbn.
    split; [reflexivity|]. split; [repeat constructor; apply Hr|discriminate]. }
  destruct (json_of E (GET_board token id)) as [response|x]; [|apply Hstop].
  rewrite ?lift_run.
  destruct (Py.getitem response (str "included")) as [included|x];
    [|apply Hstop].
  rewrite ?lift_run.
  destruct (Py.getitem included (str "lists")) as [lists|x]; [|apply Hstop].
  rewrite ?lift_run. destruct (Py.iter lists) as [ls|x]; [|apply Hstop].
  rewrite ?lift_run. destruct (list_ids ls) as [valid|x]; [|apply Hstop].
  rewrite ?lift_run.
  destruct (Py.getitem included (str "cards")) as [cards|x]; [|apply Hstop].
  rewrite ?lift_run. destruct (Py.iter cards) as [cs|x]; [|apply Hstop].
  destruct (reads_after E token result
              (for_each cs (scan_card E token p name valid s e) result)
              (GET_board token id) w Hr eq_refl) as [l H].
  - apply reads_for_each. intros card acc _. apply reads_scan_card.
  - exists (GET_board token id :: l). exact H.
Qed.

(** The boards kept by the filter are the allow-listed ones. *)
Lemma filter_boards_allowed (E : env) (boards : list json) :
  forall kept,
    filter_boards E boards = Ok kept ->
    forall board, In board kept ->
                  In board boards /\
                  exists id, Py.getitem board (str "id") = Ok id /\
                             in_BOARD_IDS E id = true.
Proof.
  unfold filter_boards.
  set (keep := fun b : json =>
                 id <- Py.getitem b (str "id") ;; ret (in_BOARD_IDS E id)).
  induction boards as [|b boards IH]; intros kept.
  - intros [= <-] board [].
  - rewrite filter_r_cons. unfold keep at 1.
    destruct (Py.getitem b (str "id")) as [id|] eqn:Hid; [|discriminate].
    destruct (filter_r keep boards) as [rest|] eqn:Hrest; [|discriminate].
    cbn [bind pyresult_monad ret].
    destruct (in_BOARD_IDS E id) eqn:Ha; intros [= <-] board Hin.
    + destruct Hin as [<-|Hin]; [split; [left; reflexivity|eauto]|].
      destruct (IH rest eq_refl board Hin) as [H1 H2]. split; [right|]; auto.
    + destruct (IH rest eq_refl board Hin) as [H1 H2]. split; [right|]; auto.
Qed.

Lemma reads_scan_project (E : env) (token : json) (s e : date)
  (project : json) (result : report) :
  reads E token result (scan_project E token s e project result).
Proof.
  intros w.
  unfold scan_project. cbn [bind M_monad]. rewrite ?lift_run.
  destruct (Py.getitem project (str "name")) as [name|x].
  2:{ exists []. rewrite add_sents_nil. cbn.
      split; [reflexivity|]. split; [constructor|discriminate]. }
  destruct (Py.getitem project (str "id")) as [id|x].
  2:{ exists []. rewrite add_sents_nil. cbn.
      split; [reflexivity|]. split; [constructor|discriminate]. }
  rewrite get_json_run.
  assert (Hr : reads_for E token (GET_project token id)) by reflexivity.
  assert (Hstop : forall x : exn,
             exists l,
               snd (@Raise report x, add_sent (GET_project token id) w)
               = add_sents l w /\
               Forall (reads_for E token) l /\
               (forall acc',
                   fst (@Raise report x, add_sent (GET_project token id) w)
                   = Ok acc' ->
                   entries acc' = (entries result + tally l)%nat)).
  { intros x. exists [GET_project token id]. cbn.
    split; [reflexivity|]. split; [repeat constructor|discriminate]. }
  destruct (json_of E (GET_project token id)) as [response|x]; [|apply Hstop].
  rewrite ?lift_run.
  destruct (Py.getitem response (str "included")) as [included|x];
    [|apply Hstop].
  rewrite ?lift_run.
  destruct (Py.getitem included (str "boards")) as [boards|x]; [|apply Hstop].
  rewrite ?lift_run. destruct (Py.iter boards) as [bs|x]; [|apply Hstop].
  rewrite ?lift_run.
  destruct (filter_boards E bs) as [kept|x] eqn:Hk; [|apply Hstop].
  destruct (reads_after E token result
              (for_each kept (scan_board E token name s e) result)
              (GET_project token id) w Hr eq_refl) as [l H].
  - apply reads_for_each. intros board acc Hin. apply reads_scan_board.
    intros id' Hid'.
    destruct (filter_boards_allowed E bs kept Hk board Hin)
      as [_ [id'' [Hid'' Ha]]].
    congruence.
  - exists (GET_project token id :: l). exact H.
Qed.

(** The whole call: the projects are asked for first, and all that follows
    are reads for the same token. *)
Lemma get_due_cards_reads (E : env) (token : json) (s e : date) (w : world) :
  exists l,
    snd (get_due_cards E token s e w) = add_sents (GET_projects token :: l) w /\
    Forall (reads_for E token) (GET_projects token :: l) /\
    (forall r, fst (get_due_cards E token s e w) = Ok r ->
               entries r = tally (GET_projects token :: l)).
Proof.
  unfold get_due_cards. cbn [bind M_monad]. rewrite get_json_run.
  assert (Hr : reads_for E token (GET_projects token)) by reflexivity.
  assert (Hstop : forall x : exn,
             exists l,
               snd (@Raise report x, add_sent (GET_projects token) w)
               = add_sents (GET_projects token :: l) w /\
               Forall (reads_for E token) (GET_projects token :: l) /\
               (forall r,
                   fst (@Raise report x, add_sent (GET_projects token) w)
                   = Ok r ->
                   entries r = tally (GET_projects token :: l))).
  { intros x. exists []. cbn.
    split; [reflexivity|]. split; [repeat constructor|discriminate]. }
  destruct (json_of E (GET_projects token)) as [response|x]; [|apply Hstop].
  rewrite ?lift_run.
  destruct (Py.getitem response (str "items")) as [projects|x];
    [|apply Hstop].
  rewrite ?lift_run. destruct (Py.iter projects) as [ps|x]; [|apply Hstop].
  destruct (reads_after E token [] (for_each ps (scan_project E token s e) [])
              (GET_projects token) w Hr eq_refl) as [l H].
  - apply reads_for_each. intros project acc _. apply reads_scan_project.
  - exists l. exact H.
Qed.

(** X13. [get_due_cards] only reads: it leaves the log and the chat alone,
    asks for the projects first, sends every request with the token it was
    given, never asks for a token, and asks for a board only when its id is
    in the allow-list.  This holds also when the call raises. *)
Theorem get_due_cards_only_reads (E : env) (token : json) (s e : date)
  (w : world) :
  exists l,
    sent (snd (get_due_cards E token s e w))
    = sent w ++ GET_projects token :: l /\
    Forall (reads_for E token) l /\
    logfile (snd (get_due_cards E token s e w)) = logfile w /\
    outbox (snd (get_due_cards E token s e w)) = outbox w.
Proof.
  destruct (get_due_cards_reads E token s e w) as [l [Hw [Hf _]]].
  exists l. rewrite Hw. cbn. inversion Hf; subst. auto.
Qed.

(** X14. In a call that returns, the comments are fetched once for each
    entry of the Report, and for nothing else: the number of requests for
    card actions is the number of entries. *)
Theorem one_comment_fetch_per_entry (E : env) (token : json) (s e : date)
  (w w' : world) (r : report) :
  get_due_cards E token s e w = (Ok r, w') ->
  exists l, sent w' = sent w ++ l /\ tally l = entries r.
Proof.
  intros H.
  destruct (get_due_cards_reads E token s e w) as [l [Hw [_ He]]].
  rewrite H in Hw, He. cbn [fst snd] in *.
  exists (GET_projects token :: l). rewrite Hw. cbn.
  split; [reflexivity|]. symmetry. apply He. reflexivity.
Qed.

(** ** The size of what is reported *)

Lemma short_name_length (name : json) (n : pystr) :
  short_name name = Ok (JStr n) -> (length n <= 33)%nat.
Proof.
  unfold short_name.
  destruct name as [| | |s|l|kv]; cbn [Py.len bind pyresult_monad];
    try discriminate.
  - destruct (30 <? length s)%nat eqn:Hl; intros [= <-].
    + rewrite length_app. unfold slice_to.
      pose proof (firstn_le_length 30 s).
      change (length (str "...")) with 3%nat. lia.
    + apply Nat.ltb_ge in Hl. lia.
  - destruct (30 <? length l)%nat; discriminate.
  - destruct (30 <? length kv)%nat; discriminate.
Qed.

Lemma report_add_all_entries (Q : entry -> Prop) (p b : json) (e : entry)
  (r r' : report) :
  all_entries Q r -> Q e -> report_add p b e r = Ok r' -> all_entries Q r'.
Proof.
  intros Hr He H. destruct (report_add_hashable _ _ _ _ _ H) as [Hp Hb].
  rewrite (report_add_eq _ _ _ _ Hp Hb) in H. injection H as <-.
  unfold all_entries in *.
  assert (Hboards : Forall (fun b0 : json * list entry => Forall Q (snd b0))
                      (find_or_empty p r)).
  { destruct (PyDict.find p r) as [boards|] eqn:Hf.
    - rewrite (find_or_empty_some _ _ _ Hf).
      apply (find_Forall
               (fun bs : board_map =>
                  Forall (fun b0 : json * list entry => Forall Q (snd b0)) bs)
               _ _ _ Hr Hf).
    - rewrite (find_or_empty_none _ _ Hf). constructor. }
  apply (setitem_Forall
           (fun bs : board_map =>
              Forall (fun b0 : json * list entry => Forall Q (snd b0)) bs));
    [|exact Hr].
  apply (setitem_Forall (fun cs : list entry => Forall Q cs));
    [|exact Hboards].
  apply Forall_app. split; [|repeat constructor; exact He].
  destruct (PyDict.find b (find_or_empty p r)) as [cards|] eqn:Hg.
  - rewrite (find_or_empty_some _ _ _ Hg).
    apply (find_Forall (fun cs : list entry => Forall Q cs) _ _ _ Hboards Hg).
  - rewrite (find_or_empty_none _ _ Hg). constructor.
Qed.

Lemma last_comment_length (E : env) (token card_id : json) (w : world)
  (c : pystr) :
  fst (get_last_comment E token card_id w) = Ok c -> (length c <= 50)%nat.
Proof.
  intros H. apply get_last_comment_Ok in H as [->|[raw ->]]; [cbn; lia|].
  unfold slice_to. apply firstn_le_length.
Qed.

Lemma scan_card_fits (E : env) (token p b : json) (valid : list json)
  (s e : date) (card : json) (result r' : report) (w w' : world) :
  scan_card E token p b valid s e card result w = (Ok r', w') ->
  all_entries entry_fits result -> all_entries entry_fits r'.
Proof.
  rewrite scan_card_test.
  destruct (card_test E valid s e card) as [[dt|]|]; [| |discriminate].
  - intros H Hr.
    destruct (store_card_entry _ _ _ _ _ _ _ _ _ _ H)
      as [name [short [id [c [Hs [Hc [_ Hadd]]]]]]].
    apply (report_add_all_entries entry_fits p b
             (short, strftime_dmY_HM dt, c) result r' Hr); [|exact Hadd].
    split; cbn [fst snd].
    + apply (last_comment_length E token id w c Hc).
    + intros n ->. apply (short_name_length name n Hs).
  - intros [= <- _]. auto.
Qed.

(** X15. Every entry of a Report that [get_due_cards] returns fits a chat
    message: its comment has at most 50 characters and its name, when a
    string, at most 33. *)
Theorem reported_entries_fit (E : env) (token : json) (s e : date)
  (w w' : world) (r : report) :
  get_due_cards E token s e w = (Ok r, w') ->
  all_entries entry_fits r.
Proof.
  rewrite get_due_cards_view.
  destruct (projects_view E token) as [projects|]; [|discriminate].
  intros H.
  apply (for_each_keeps _ (all_entries entry_fits) projects) in H;
    [exact H| |constructor].
  clear. intros project acc w acc' w' _.
  destruct (scan_project_view E token s e project acc w) as [w1 ->].
  destruct (project_view E token project) as [[name boards]|];
    [|discriminate].
  apply (for_each_keeps _ (all_entries entry_fits)).
  clear. intros board acc w acc' w' _.
  destruct (scan_board_view E token name s e board acc w) as [w1 ->].
  destruct (board_view E token board) as [[[bname valid] cards]|];
    [|discriminate].
  apply (for_each_keeps _ (all_entries entry_fits)).
  intros card a v a' v' _. apply scan_card_fits.
Qed.

(** ** An empty allow-list *)

Lemma filter_zero {A : Type} (f : A -> bool) (l : list A) :
  length (filter f l) = 0%nat -> Forall (fun x => f x = false) l.
Proof.
  induction l as [|x l IH]; cbn; [constructor|].
  destruct (f x) eqn:Hx; cbn; [discriminate|]. auto.
Qed.

(** X16. With an empty allow-list a call that returns gives an empty
    Report, and has asked for no board and for no card. *)
Theorem empty_allow_list_reports_nothing (E : env) (token : json)
  (s e : date) (w w' : world) (r : report) :
  BOARD_IDS (cfg E) = [] ->
  get_due_cards E token s e w = (Ok r, w') ->
  r = [] /\
  exists l,
    sent w' = sent w ++ l /\
    Forall (fun q => match q with
                     | GET_projects _ | GET_project _ _ => True
                     | _ => False
                     end) l.
Proof.
  intros Hempty H.
  assert (Hno : forall id, in_BOARD_IDS E id = false).
  { intros id. unfold in_BOARD_IDS. rewrite Hempty.
    destruct id; reflexivity. }
  assert (Hr : r = []).
  { revert H. rewrite get_due_cards_view.
    destruct (projects_view E token) as [projects|] eqn:Hv; [|discriminate].
    intros H.
    destruct (for_each_hits _ (project_hits E token s e) projects
                (fun x acc v acc' v' _ =>
                   scan_project_hits E token s e x acc acc' v v')
                _ _ _ _ H) as [[_ ->]|[Hh _]]; [reflexivity|].
    apply existsb_exists in Hh as [project [_ Hh]].
    unfold project_hits, project_view in Hh.
    destruct (Py.getitem project (str "name")); [|discriminate].
    destruct (Py.getitem project (str "id")) as [id|]; [|discriminate].
    cbn [bind pyresult_monad] in Hh.
    destruct (json_of E (GET_project token id)); [|discriminate].
    cbn [bind pyresult_monad] in Hh.
    destruct (Py.getitem _ (str "included")) as [inc|]; [|discriminate].
    cbn [bind pyresult_monad] in Hh.
    destruct (Py.getitem inc (str "boards")) as [bs|]; [|discriminate].
    cbn [bind pyresult_monad] in Hh.
    destruct (Py.iter bs) as [boards|]; [|discriminate].
    cbn [bind pyresult_monad] in Hh.
    destruct (filter_boards E boards) as [kept|] eqn:Hk; [|discriminate].
    cbn [bind pyresult_monad ret] in Hh.
    apply existsb_exists in Hh as [board [Hin _]].
    destruct (filter_boards_allowed E boards kept Hk board Hin)
      as [_ [bid [_ Ha]]].
    rewrite Hno in Ha. discriminate. }
  split; [exact Hr|].
  destruct (get_due_cards_reads E token s e w) as [l [Hw [Hf He]]].
  rewrite H in Hw, He. cbn [fst snd] in *.
  exists (GET_projects token :: l). rewrite Hw. split; [reflexivity|].
  specialize (He r eq_refl). rewrite Hr in He. cbn in He.
  assert (Hz : Forall (fun q => is_card_actions q = false)
                 (GET_projects token :: l)).
  { apply filter_zero. symmetry. exact He. }
  clear He Hw H.
  induction Hf as [|q l' Hq Hf IH]; [constructor|].
  inversion Hz; subst. constructor; [|apply IH; assumption].
  destruct q; cbn in *; try exact I; try discriminate; try contradiction.
  destruct Hq as [_ Hq]. rewrite Hno in Hq. discriminate.
Qed.

(** ** A single day *)

(** The due date of a card that takes the tests is a field of the card
    that line 110 could turn into a local time. *)
Lemma due_date_of_card_inv (E : env) (valid : list json) (card : json)
  (dt : datetime) :
  due_date_of_card E valid card = Ok (Some dt) ->
  exists d, card_field card "dueDate" = Some d /\
            due_date_local E d = Ok dt.
Proof.
  unfold due_date_of_card, card_field, Py.contains, Py.getitem, Py.get.
  destruct card as [| | |t|l|kv]; cbn [bind pyresult_monad];
    try discriminate.
  { destruct (PyStr.contains _ t); discriminate. }
  { destruct (existsb _ l); discriminate. }
  destruct (Py.lookup (str "listId") kv) as [l|]; cbn; [|discriminate].
  destruct (PyDict.set_contains l valid) as [[|]|]; cbn; try discriminate.
  destruct (Py.lookup (str "dueDate") kv) as [d|]; cbn.
  - destruct (Py.lookup (str "isDueDateCompleted") kv) as [c|]; cbn;
      (destruct (Py.truthy d && _); [|discriminate]);
      (destruct (due_date_local E d) as [dt'|] eqn:Hd; [|discriminate]);
      intros [= <-]; exists d; auto.
  - destruct (Py.lookup (str "isDueDateCompleted") kv); discriminate.
Qed.

(** X17. With the same day as start and end, as the handler for a typed
    date calls it, the tests pass only the cards due on that very day in
    the display timezone: the dueDate is a string, and the clock time it
    reads, taken as UTC, lies on the clocks of the zone between the midnight
    that begins the day and the next one. *)
Theorem single_day_window (E : env) (valid : list json) (d : date)
  (card : json) :
  passes E valid d d card = true ->
  exists stamp dt,
    card_field card "dueDate" = Some (JStr stamp) /\
    fromisoformat E (remove_char 90%N stamp) = Some dt /\
    local_date E (wall dt) d.
Proof.
  unfold passes. rewrite card_test_due_date.
  destruct (due_date_of_card E valid card) as [[dt'|]|] eqn:Hdue;
    try discriminate.
  destruct (date_le d (date_of dt') && date_le (date_of dt') d) eqn:Hw;
    [|discriminate].
  intros _.
  destruct (due_date_of_card_inv E valid card dt' Hdue) as [d0 [Hf Hloc]].
  destruct (due_date_local_inv E d0 dt' Hloc) as [stamp [dt [-> [Hp Hwall]]]].
  exists stamp, dt. split; [exact Hf|]. split; [exact Hp|].
  apply (local_date_of E dt dt' d Hwall).
  apply window_spec in Hw.
  unfold date_of in *. destruct d as [o]. cbn [toordinal] in Hw.
  f_equal. lia.
Qed.

(** ** Replies *)

Lemma get_token_frame (E : env) (w : world) :
  sent (snd (get_token E w)) = sent w ++ [token_request E] /\
  outbox (snd (get_token E w)) = outbox w.
Proof.
  destruct (clear_log_run E w) as [Hc [Hs [Ho _]]].
  unfold get_token, try_except. cbn [bind M_monad]. rewrite Hc.
  unfold requests_send, token_request, raise_for_status, lift,
    logging_error.
  destruct (http E (POST_access_tokens (USERNAME (cfg E)) (PASSWORD (cfg E))))
    as [|st b]; cbn; [rewrite Hs, Ho; auto|].
  destruct ((400 <=? st) && (st <? 600)); cbn; [rewrite Hs, Ho; auto|].
  destruct b as [j|]; cbn; [|rewrite Hs, Ho; auto].
  destruct (Py.getitem j (str "item")) as [t|x]; cbn; [rewrite Hs, Ho; auto|].
  destruct (is_RequestException x); cbn; rewrite Hs, Ho; auto.
Qed.

(** The token, the cards, then a reply: when the last step always sends
    one reply with a text, the whole sends that reply when it returns and
    none when it raises, and its first request is the one for a token. *)
Lemma pipeline_replies (E : env) (s e : date) (k : report -> M unit) :
  (forall tasks v, exists r,
      k tasks v = (Ok tt, {| sent := sent v; logfile := logfile v;
                             outbox := outbox v ++ [r] |}) /\
      text r <> []) ->
  forall w,
    let run := (token <- get_token E ;;
                tasks <- get_due_cards E token s e ;;
                k tasks) w in
    match fst run with
    | Ok _ => exists r, outbox (snd run) = outbox w ++ [r] /\ text r <> []
    | Raise _ => outbox (snd run) = outbox w
    end /\
    exists l, sent (snd run) = sent w ++ token_request E :: l.
Proof.
  intros Hk w. cbn [bind M_monad].
  destruct (get_token_frame E w) as [Hs Ho].
  destruct (get_token E w) as [[token|x] w1]; cbn [fst snd] in *.
  2:{ split; [exact Ho|]. exists []. exact Hs. }
  destruct (get_due_cards_reads E token s e w1) as [l [Hw _]].
  destruct (get_due_cards E token s e w1) as [[tasks|x] w2];
    cbn [fst snd] in *; subst w2.
  2:{ cbn. split; [exact Ho|]. rewrite Hs, <- app_assoc.
      eexists. reflexivity. }
  destruct (Hk tasks (add_sents (GET_projects token :: l) w1)) as [r [-> Hr]].
  cbn. split.
  - exists r. rewrite Ho. auto.
  - rewrite Hs, <- app_assoc. eexists. reflexivity.
Qed.

Lemma NO_TASKS_not_empty : NO_TASKS <> [].
Proof. unfold NO_TASKS, str. cbn. discriminate. Qed.

Lemma reply_with_one (E : env) (tasks : report) (v : world) :
  exists r,
    reply_with E tasks v
    = (Ok tt, {| sent := sent v; logfile := logfile v;
                 outbox := outbox v ++ [r] |}) /\
    text r <> [].
Proof.
  unfold reply_with, message_reply. destruct tasks as [|p tasks].
  - eexists. split; [reflexivity|]. apply NO_TASKS_not_empty.
  - eexists. split; [reflexivity|]. cbn [text].
    destruct (strip (response_text E (p :: tasks)));
      [apply NO_TASKS_not_empty|discriminate].
Qed.

Lemma reply_by_date_one (E : env) (tasks : report) (v : world) :
  exists r,
    reply_by_date E tasks v
    = (Ok tt, {| sent := sent v; logfile := logfile v;
                 outbox := outbox v ++ [r] |}) /\
    text r <> [].
Proof.
  unfold reply_by_date, message_reply. destruct tasks as [|p tasks].
  - eexists. split; [reflexivity|]. apply NO_TASKS_not_empty.
  - eexists. split; [reflexivity|]. cbn [text].
    destruct (strip (response_text_by_date E (p :: tasks)));
      [apply NO_TASKS_not_empty|discriminate].
Qed.

(** X18. A button press is answered at most once: when [send_tasks]
    returns it has sent exactly one reply, whose text is not empty; when it
    raises, be it in the window, the token or the traversal, it has sent
    none. *)
Theorem send_tasks_replies_once (E : env) (message_text : pystr)
  (w : world) :
  match fst (send_tasks E message_text w) with
  | Ok _ =>
      exists r, outbox (snd (send_tasks E message_text w)) = outbox w ++ [r]
                /\ text r <> []
  | Raise _ => outbox (snd (send_tasks E message_text w)) = outbox w
  end.
Proof.
  destruct (select_window E message_text) as [[s e]|x] eqn:Hwin.
  - rewrite (send_tasks_reply E message_text s e w Hwin).
    apply (pipeline_replies E s e (reply_with E) (reply_with_one E) w).
  - unfold send_tasks, lift. cbn [bind M_monad]. rewrite Hwin. reflexivity.
Qed.

(** X19. A text that [strptime] rejects is answered with the hint about
    the format and nothing else: no request goes to Planka and the log is
    not touched.  A text it accepts starts with the request for a token;
    then exactly one reply with a text is sent when the handler returns,
    and none when it raises. *)
Theorem tasks_by_date_replies (E : env)
  (strptime_dmY : pystr -> option datetime) (message_text : pystr)
  (w : world) :
  (strptime_dmY message_text = None ->
   tasks_by_date E strptime_dmY message_text w
   = (Ok tt,
      {| sent := sent w; logfile := logfile w;
         outbox := outbox w ++ [{| text := BAD_DATE; reply_markup := false;
                                   parse_mode_HTML := false |}] |})) /\
  (forall parsed,
      strptime_dmY message_text = Some parsed ->
      exists l,
        sent (snd (tasks_by_date E strptime_dmY message_text w))
        = sent w ++ token_request E :: l) /\
  match fst (tasks_by_date E strptime_dmY message_text w) with
  | Ok _ =>
      exists r,
        outbox (snd (tasks_by_date E strptime_dmY message_text w))
        = outbox w ++ [r] /\ text r <> []
  | Raise _ =>
      outbox (snd (tasks_by_date E strptime_dmY message_text w)) = outbox w
  end.
Proof.
  unfold tasks_by_date.
  destruct (strptime_dmY message_text) as [parsed|].
  - destruct (pipeline_replies E (date_of parsed) (date_of parsed)
                (reply_by_date E) (reply_by_date_one E) w) as [H1 H2].
    split; [discriminate|]. split; [intros _ _; exact H2|exact H1].
  - split; [reflexivity|]. split; [discriminate|].
    cbn. eexists. split; [reflexivity|]. cbn.
    unfold BAD_DATE, str. cbn. discriminate.
Qed.

(** Stripping keeps what stands before a character that is no
    whitespace. *)
Lemma lstrip_app_keep (l1 l2 : pystr) (c : N) :
  isspace c = false ->
  exists l1', lstrip (l1 ++ c :: l2) = l1' ++ c :: l2.
Proof.
  intros Hc. induction l1 as [|x l1 IH]; cbn.
  - rewrite Hc. exists []. reflexivity.
  - destruct (isspace x); [exact IH|].
    exists (x :: l1). reflexivity.
Qed.

Lemma rstrip_app_keep (a rest : pystr) (c : N) :
  isspace c = false ->
  exists tail, rstrip (a ++ c :: rest) = a ++ c :: tail.
Proof.
  intros Hc. unfold rstrip.
  rewrite rev_app_distr. cbn [rev]. rewrite <- app_assoc. cbn [app].
  destruct (lstrip_app_keep (rev rest) (rev a) c Hc) as [l1' ->].
  exists (rev l1').
  rewrite rev_app_distr. cbn [rev]. rewrite rev_involutive, <- app_assoc.
  reflexivity.
Qed.

(** X20. For a Report that is not empty the reply of [send_tasks] is the
    rendering itself, never the fallback: its text starts, without a line
    break before it, with the header of the first project, and it comes
    with the keyboard and in HTML mode. *)
Theorem reply_starts_with_project (E : env) (p : json) (boards : board_map)
  (rest : report) (w : world) :
  exists tail,
    reply_with E ((p, boards) :: rest) w
    = (Ok tt,
       {| sent := sent w; logfile := logfile w;
          outbox := outbox w ++
            [{| text := str "----- Project: <b>" ++ format_value E p ++
                        str "</b> -----" ++ tail;
                reply_markup := true; parse_mode_HTML := true |}] |}).
Proof.
  unfold reply_with, message_reply, response_text.
  cbn [List.map concat]. unfold render_project at 1. cbn [fst snd].
  set (body := NL ++ concat (List.map (render_board E) boards)).
  set (others := concat (List.map (render_project E) rest)).
  assert (Hstrip : exists tail,
             strip ((NL ++ str "----- Project: <b>" ++ format_value E p ++
                     str "</b> -----" ++ body) ++ others)
             = str "----- Project: <b>" ++ format_value E p ++
               str "</b> -----" ++ tail).
  { unfold strip.
    change (str "----- Project: <b>") with (45%N :: str "---- Project: <b>").
    change (str "</b> -----") with (str "</b> ----" ++ [45%N]).
    change NL with [10%N] at 1.
    cbn [app lstrip].
    replace (isspace 10) with true by (vm_compute; reflexivity).
    cbn [lstrip].
    replace (isspace 45) with false by (vm_compute; reflexivity).
    destruct (rstrip_app_keep
                (45%N :: str "---- Project: <b>" ++ format_value E p ++
                 str "</b> ----")
                (body ++ others) 45%N) as [tail Ht];
      [vm_compute; reflexivity|].
    exists tail.
    repeat rewrite <- app_assoc in *. cbn [app] in *.
    repeat rewrite <- app_assoc in Ht. exact Ht. }
  destruct Hstrip as [tail Hs]. exists tail.
  repeat rewrite <- app_assoc in *. rewrite Hs.
  change (str "----- Project: <b>") with (45%N :: str "---- Project: <b>").
  reflexivity.
Qed.

(** ** The order of the entries *)

Lemma report_add_appends (p b : json) (e : entry) (r r' : report) :
  report_add p b e r = Ok r' ->
  find_or_empty b (find_or_empty p r')
  = find_or_empty b (find_or_empty p r) ++ [e].
Proof.
  intros H. destruct (report_add_hashable _ _ _ _ _ H) as [Hp Hb].
  rewrite (report_add_eq _ _ _ _ Hp Hb) in H. injection H as <-.
  rewrite (find_or_empty_setitem p _ r Hp).
  apply (find_or_empty_setitem b _ _ Hb).
Qed.

Lemma store_card_entry_of (E : env) (token p b card : json)
  (valid : list json) (s e : date) (dt : datetime)
  (result r' : report) (w w' : world) :
  card_test E valid s e card = Ok (Some dt) ->
  store_card E token p b card dt result w = (Ok r', w') ->
  exists x, entry_of E token valid s e card x /\
            report_add p b x result = Ok r'.
Proof.
  intros Ht. unfold store_card. cbn [bind M_monad]. rewrite !lift_run.
  destruct (Py.getitem card (str "name")) as [name|] eqn:Hn; [|discriminate].
  rewrite lift_run.
  destruct (short_name name) as [short|] eqn:Hs; [|discriminate].
  rewrite lift_run.
  destruct (Py.getitem card (str "id")) as [id|] eqn:Hi; [|discriminate].
  destruct (get_last_comment E token id w) as [[c|] w1] eqn:Hc;
    [|discriminate].
  rewrite lift_run. intros [= H _].
  exists (short, strftime_dmY_HM dt, c). split; [|exact H].
  exists name, dt, id, w. cbn [fst snd]. rewrite Hc. auto 10.
Qed.

Lemma card_loop_in_order (E : env) (token p b : json) (valid : list json)
  (s e : date) (cards : list json) :
  forall result w r' w',
    for_each cards (scan_card E token p b valid s e) result w = (Ok r', w') ->
    exists added,
      find_or_empty b (find_or_empty p r')
      = find_or_empty b (find_or_empty p result) ++ added /\
      Forall2 (entry_of E token valid s e)
        (filter (passes E valid s e) cards) added.
Proof.
  induction cards as [|card cards IH]; intros result w r' w'.
  - cbn. intros [= <- _]. exists []. rewrite app_nil_r.
    split; [reflexivity|constructor].
  - cbn [for_each bind M_monad filter].
    destruct (scan_card E token p b valid s e card result w)
      as [[r1|x] w1] eqn:Hc; [|discriminate].
    intros Hl. destruct (IH r1 w1 r' w' Hl) as [added [Hfind Hall]].
    revert Hc. rewrite scan_card_test. unfold passes.
    destruct (card_test E valid s e card) as [[dt|]|] eqn:Ht;
      [| |discriminate].
    + intros Hc.
      destruct (store_card_entry_of E token p b card valid s e dt
                  result r1 w w1 Ht Hc) as [x [Hx Hadd]].
      exists (x :: added). split.
      * rewrite Hfind, (report_add_appends _ _ _ _ _ Hadd), <- app_assoc.
        reflexivity.
      * constructor; [exact Hx|exact Hall].
    + intros [= <- _]. exists added. auto.
Qed.

(** X21. The entries of a board appear in the order of its cards: what
    the board loop adds under the names of the project and the board are
    the entries of the cards that pass the tests, one each, in the order in
    which the API lists the cards, after what was there before. *)
Theorem board_entries_in_card_order (E : env) (token p : json) (s e : date)
  (board bname : json) (valid cards : list json) (result r' : report)
  (w w' : world) :
  board_view E token board = Ok (bname, valid, cards) ->
  scan_board E token p s e board result w = (Ok r', w') ->
  exists added,
    find_or_empty bname (find_or_empty p r')
    = find_or_empty bname (find_or_empty p result) ++ added /\
    Forall2 (entry_of E token valid s e)
      (filter (passes E valid s e) cards) added.
Proof.
  intros Hv.
  destruct (scan_board_view E token p s e board result w) as [w1 ->].
  rewrite Hv. apply card_loop_in_order.
Qed.

(* ================================================================== *)
(** * The properties at work on the sample world *)

(** What a comment action of the sample logs holds: the hypothesis [H]
    that an item is one gives its timestamp, or cannot be for an item of
    another type. *)
Ltac read_comment H :=
  let Ht := fresh in
  let Hty := fresh in
  let Hd := fresh in
  let Hx := fresh in
  let Hs := fresh in
  let Hp := fresh in
  destruct H as [? [? [? [Ht [Hty [Hd [Hx [Hs Hp]]]]]]]];
  vm_compute in Ht; injection Ht as <-;
  try (vm_compute in Hty; discriminate Hty);
  vm_compute in Hs; injection Hs as <-;
  vm_compute in Hp; injection Hp as <-.

Module Runs.

Import Sample.

Local Open Scope string_scope.
Local Open Scope Z_scope.

(** The due card of the sample board is a card of the data model and adds
    its entry. *)
Lemma due_card_contributes_iff_witness :
  data_model_card E0 card0 = true /\
  exists result' w'',
    scan_card E0 tok (s "Ops") (s "Sprint") [s "l1"] june10 june10 card0 []
      quiet = (Ok result', w'') /\
    (due_relevant E0 [s "l1"] june10 june10 card0
     <-> entries result' = S (entries [])) /\
    (~ due_relevant E0 [s "l1"] june10 june10 card0 <-> result' = []).
Proof.
  split; [vm_compute; reflexivity|].
  apply (due_card_contributes_iff E0 tok (s "Ops") (s "Sprint") [s "l1"]
           june10 june10 card0 [] quiet
           (snd (get_last_comment E0 tok (s "c1") quiet))
           (s "c1") (str "second note"));
    vm_compute; reflexivity.
Defined.

(** A latest comment of 69 characters, 68 once normalised, is cut to 50. *)
Lemma clean_comment_idempotent_truncated_witness :
  clean_comment (clean_comment long_comment) = clean_comment long_comment /\
  exists kept rest,
    fst (get_last_comment (env0 (planka [card0] long_log)) tok (s "c1") quiet)
    = Ok kept /\
    length kept = 50%nat /\
    rest <> [] /\ normalized long_comment = (kept ++ rest)%list.
Proof.
  destruct (clean_comment_idempotent_truncated
              (env0 (planka [card0] long_log)) tok (s "c1") quiet
              long_comment) as [H1 H2].
  split; [exact H1|].
  apply (H2 200 [(str "items", JList long_log)] long_log
            (comment_action
               "The quick  brown fox jumps over the lazy dog and then takes a long nap"
               "2025-06-02T08:00:00.000Z")
            long_comment (naive 2025 6 2 8 0 0 0)).
  - vm_compute. reflexivity.
  - vm_compute. reflexivity.
  - vm_compute. reflexivity.
  - vm_compute. reflexivity.
  - right. left. reflexivity.
  - exists (s "commentCard"), (obj [("text", JStr long_comment)]),
      (str "2025-06-02T08:00:00.000Z").
    repeat split; vm_compute; reflexivity.
  - intros other raw' t' [<-|[<-|[]]] Hact; [right|left; reflexivity].
    read_comment Hact. vm_compute. reflexivity.
  - vm_compute. repeat constructor.
Defined.

(** The name of 35 characters is stored as its first 30 and three dots. *)
Lemma stored_name_shortened_witness :
  passes E0 [s "l1"] june10 june10 card_long = true /\
  exists stored date,
    scan_card E0 tok (s "Ops") (s "Sprint") [s "l1"] june10 june10
      card_long [] quiet =
    (Ok [(s "Ops", [(s "Sprint", [(JStr stored, date, str "second note")])])],
     add_sent (GET_card_actions tok (s "c2")) quiet) /\
    stored = str "Review the deployment pipeline..." /\
    length stored = 33%nat.
Proof.
  split; [vm_compute; reflexivity|].
  destruct (stored_name_shortened E0 tok (s "Ops") (s "Sprint") [s "l1"]
              june10 june10 card_long [] quiet
              (add_sent (GET_card_actions tok (s "c2")) quiet)
              (s "c2") (str "second note")
              (str "Review the deployment pipeline logs"))
    as [stored [date [Hrun [_ [_ H35]]]]]; try (vm_compute; reflexivity).
  exists stored, date. split; [exact Hrun|].
  destruct (H35 eq_refl) as [Hs [_ Hl]]. split; [exact Hs|exact Hl].
Defined.

(** A card without the completion flag is reported; a record without a due
    date is passed over. *)
Lemma absent_completed_and_absent_due_date_witness :
  (exists result',
      scan_card E0 tok (s "Ops") (s "Sprint") [s "l1"] june10 june10
        card_long [] quiet
      = (Ok result', add_sent (GET_card_actions tok (s "c2")) quiet) /\
      entries result' = 1%nat) /\
  scan_card E0 tok (s "Ops") (s "Sprint") [s "l1"] june10 june10
    (JObj card_bare) [] quiet = (Ok [], quiet).
Proof.
  destruct (absent_completed_and_absent_due_date E0 tok (s "Ops")
              (s "Sprint") [s "l1"] june10 june10 [] quiet) as [Ha Hb].
  split.
  - apply (Ha card_long (add_sent (GET_card_actions tok (s "c2")) quiet)
             (s "c2") (str "second note") (s "l1")
             (s "2025-06-10T10:00:00.000Z")
             (Datetime (wall (naive 2025 6 10 13 0 0 0))
                       (Some (3 * 3600 * us_per_second))));
      try (vm_compute; reflexivity); try discriminate.
    split; vm_compute; discriminate.
  - apply (Hb card_bare); vm_compute; reflexivity.
Defined.

(** The normalised texts of the sample comments. *)
Example normalized_second_note :
  normalized (str " second
 note ") = str "second note".
Proof. reflexivity. Qed.

Example normalized_long_comment :
  normalized long_comment
  = str "The quick brown fox jumps over the lazy dog and then takes a long nap".
Proof. reflexivity. Qed.

(** The later of the two comments of the sample log is the one returned:
    T1 is June 1, T2 is June 2. *)
Lemma last_comment_is_latest_witness :
  fst (get_last_comment E0 tok (s "c1") quiet)
  = Ok (firstn 50 (normalized (str " second
 note "))) /\
  (length (firstn 50 (normalized (str " second
 note "))) <= 50)%nat.
Proof.
  apply (last_comment_is_latest E0 tok (s "c1") quiet 200
           [(str "items", JList actions)] actions
           (comment_action " second
 note " "2025-06-02T08:00:00.000Z")
           (str " second
 note ") (naive 2025 6 2 8 0 0 0)).
  - vm_compute. reflexivity.
  - vm_compute. reflexivity.
  - vm_compute. reflexivity.
  - vm_compute. reflexivity.
  - intros a b ra rb ta tb [<-|[<-|[<-|[]]]] [<-|[<-|[<-|[]]]] Ha Hb Heq;
      try reflexivity;
      read_comment Ha; read_comment Hb; vm_compute in Heq; discriminate Heq.
  - right. right. left. reflexivity.
  - exists (s "commentCard"), (obj [("text", s " second
 note ")]), (str "2025-06-02T08:00:00.000Z").
    repeat split; vm_compute; reflexivity.
  - intros other raw' t' [<-|[<-|[<-|[]]]] Hact;
      read_comment Hact; vm_compute; discriminate.
Defined.

(** A well-formed log gives a string; an unreachable server, the empty
    one. *)
Lemma get_last_comment_degrades_witness :
  (exists c,
      fst (get_last_comment E0 tok (s "c1") quiet) = Ok c) /\
  fst (get_last_comment (env0 (fun _ => Transport_error)) tok (s "c1") quiet)
  = Ok [].
Proof.
  split.
  - destruct (get_last_comment_degrades E0 tok (s "c1") quiet)
      as [_ [_ [_ H]]].
    destruct (H 200 [(str "items", JList actions)] actions)
      as [c [Hc _]]; try (vm_compute; reflexivity).
    exists c. exact Hc.
  - destruct (get_last_comment_degrades (env0 (fun _ => Transport_error))
                tok (s "c1") quiet) as [H _].
    apply H. reflexivity.
Defined.

(** C2 as stated fails: a comment action without its ["data"] makes
    [get_last_comment] raise [KeyError] instead of returning a string. *)
Lemma get_last_comment_raises :
  let E := env0 (planka [card0] [obj [("type", s "commentCard")]]) in
  fst (get_last_comment E tok (s "c1") quiet)
  = Raise (KeyError (JStr (str "data"))) /\
  ~ exists c, fst (get_last_comment E tok (s "c1") quiet) = Ok c.
Proof.
  assert (H : fst (get_last_comment
                     (env0 (planka [card0] [obj [("type", s "commentCard")]]))
                     tok (s "c1") quiet)
              = Raise (KeyError (JStr (str "data"))))
    by (vm_compute; reflexivity).
  split; [exact H|]. intros [c Hc]. rewrite H in Hc. discriminate.
Qed.

(** With the server out of reach, [get_token] gives [None] and the
    handler carries on with it. *)
Lemma token_failure_is_passed_on_witness :
  let E := env0 planka_down in
  token_request_fails E /\
  exists w1 x l,
    get_token E quiet = (Ok JNull, w1) /\
    is_RequestException x = true /\
    sent w1 = (sent quiet ++ [token_request E])%list /\
    logfile w1 = (l ++ [Error_receiving_token x])%list /\
    outbox w1 = outbox quiet /\
    send_tasks E (label Today) quiet =
    (tasks <- get_due_cards E JNull date_min (today E) ;;
     reply_with E tasks) w1.
Proof.
  split; [left; reflexivity|].
  apply (token_failure_is_passed_on (env0 planka_down) (label Today)
           date_min (today (env0 planka_down)) quiet).
  - left. reflexivity.
  - vm_compute. reflexivity.
Defined.

(** C3 as stated fails: after the token request failed, the handler still
    calls the Aggregator, which asks for the projects with [None] as the
    token; what is raised there ends the handler, and the user gets no
    reply at all. *)
Lemma no_token_still_aggregates :
  let E := env0 planka_down in
  fst (get_token E quiet) = Ok JNull /\
  send_tasks E (label Today) quiet =
  (Raise (KeyError (JStr (str "items"))),
   {| sent := [token_request E; GET_projects JNull];
      logfile := [Error_receiving_token ConnectionError];
      outbox := [] |}).
Proof. split; vm_compute; reflexivity. Qed.

(** The windows of the first and the third button on 2025-06-10. *)
Lemma windows_of_the_buttons_witness :
  0 < toordinal (today E0) /\
  select_window E0 (label Today) = Ok (date_min, june10) /\
  select_window E0 (label Week) = Ok (date_min, day 2025 6 17).
Proof.
  split; [vm_compute; reflexivity|].
  destruct (windows_of_the_buttons E0) as [H1 [H2 _]].
  - vm_compute. reflexivity.
  - vm_compute. discriminate.
  - split; [exact H1|exact H2].
Defined.

(** C4 as stated fails: the third button does not ask for the seven days
    after today only; its window starts at [date.min], so that a card due
    long ago is in it. *)
Lemma week_window_reaches_back :
  select_window E0 (label Week) = Ok (date_min, day 2025 6 17) /\
  select_window E0 (label Week)
  <> Ok (specified_window (today E0) Week) /\
  passes E0 [s "l1"] date_min (day 2025 6 17)
    (obj [("listId", s "l1"); ("dueDate", s "2019-01-01T10:00:00.000Z")])
  = true.
Proof.
  split; [vm_compute; reflexivity|].
  split; [vm_compute; discriminate|vm_compute; reflexivity].
Qed.

(** The second button's label has a capital T, which the test for
    "tomorrow" does not match: the button gets the window of the third. *)
Example tomorrow_button_window :
  PyStr.contains (str "tomorrow") (label Tomorrow) = false /\
  select_window E0 (label Tomorrow) = Ok (date_min, day 2025 6 17).
Proof. split; vm_compute; reflexivity. Qed.

(** A due card without an id makes the whole call raise. *)
Lemma missing_key_fails_the_call_witness :
  let E := env0 (planka [card0; card_no_id] actions) in
  exists x w',
    get_due_cards E tok june10 june10 quiet = (Raise x, w') /\
    (forall r, fst (get_due_cards E tok june10 june10 quiet) <> Ok r).
Proof.
  apply (missing_key_fails_the_call
           (env0 (planka [card0; card_no_id] actions)) tok june10 june10).
  apply (Projects_project_lacks _ _ _ _
           (obj [("id", s "p1"); ("name", s "Ops")])
           [obj [("id", s "p1"); ("name", s "Ops")]]);
    [vm_compute; reflexivity|left; reflexivity|].
  apply (Project_board_lacks _ _ _ _ _ (s "Ops")
           (obj [("id", s "b1"); ("name", s "Sprint")])
           [obj [("id", s "b1"); ("name", s "Sprint")]]);
    [vm_compute; reflexivity|left; reflexivity|].
  apply (Board_card_lacks _ _ _ _ _ (s "Sprint") card_no_id [s "l1"]
           [card0; card_no_id]);
    [vm_compute; reflexivity|right; left; reflexivity|].
  apply (Card_lacks _ _ _ _ _ "id");
    [vm_compute; reflexivity|right; reflexivity|].
  eexists. split; reflexivity.
Defined.

(** C8 as stated fails: keys that are never read may be missing.  The
    board [b2] has no name and the only card has neither a name nor an id,
    and the call returns an empty Report all the same. *)
Lemma unread_keys_may_be_missing :
  let E := env0 (planka [JObj card_bare] actions) in
  lacks (JObj card_bare) "name" /\ lacks (JObj card_bare) "id" /\
  lacks (obj [("id", s "b2")]) "name" /\
  fst (get_due_cards E tok june10 june10 quiet) = Ok [].
Proof.
  intros E.
  split; [eexists; split; reflexivity|].
  split; [eexists; split; reflexivity|].
  split; [eexists; split; reflexivity|].
  vm_compute. reflexivity.
Qed.

(** The Report of the sample board has one project, one board, one
    entry. *)
Lemma report_has_no_empty_groups_witness :
  let r := [(s "Ops",
             [(s "Sprint",
               [(s "Fix pipeline", str "10-06-2025 13:00",
                 str "second note")])])] in
  fst (get_due_cards E0 tok june10 june10 quiet) = Ok r /\
  no_empty_groups r /\
  (r = [] <-> entries r = 0%nat) /\
  (r = [] <->
   forall valid card,
     In (valid, card) (scanned_cards E0 tok) ->
     passes E0 valid june10 june10 card = false).
Proof.
  split; [vm_compute; reflexivity|].
  apply (report_has_no_empty_groups E0 tok june10 june10 quiet
           (snd (get_due_cards E0 tok june10 june10 quiet))).
  vm_compute. reflexivity.
Defined.

(** The window is read in the display timezone, and both of its days
    count: at UTC+3, a card due at 20:59 UTC on June 10 is still of June 10,
    one due at 21:00 UTC is of June 11, and one due at 21:00 UTC on June 9
    is of June 10 already. *)
Example window_in_display_timezone :
  passes E0 [s "l1"] june10 june10 (card_due "2025-06-10T20:59:59.000Z")
  = true /\
  passes E0 [s "l1"] june10 june10 (card_due "2025-06-10T21:00:00.000Z")
  = false /\
  passes E0 [s "l1"] june10 june10 (card_due "2025-06-09T21:00:00.000Z")
  = true /\
  passes E0 [s "l1"] june10 june10 (card_due "2025-06-09T20:59:59.000Z")
  = false /\
  passes E0 [s "l1"] (day 2025 6 9) june10
    (card_due "2025-06-08T21:00:00.000Z") = true /\
  passes E0 [s "l1"] (day 2025 6 9) june10
    (card_due "2025-06-10T20:59:59.000Z") = true.
Proof. repeat split; vm_compute; reflexivity. Qed.

End Runs.

(* ================================================================== *)
(** * The further properties at work on the sample world *)

Module MoreRuns.

Import Sample SampleMore.

Local Open Scope string_scope.
Local Open Scope Z_scope.

(** The comment of the sample card has the shape [get_last_comment]
    promises. *)
Lemma last_comment_shape_witness :
  fst (get_last_comment E0 tok (s "c1") quiet) = Ok (str "second note") /\
  (length (str "second note") <= 50)%nat /\
  collapsed false (str "second note") = true /\
  starts_clean (str "second note").
Proof.
  split; [vm_compute; reflexivity|].
  destruct (last_comment_shape E0 tok (s "c1") quiet (str "second note"))
    as [H1 [H2 [_ H4]]]; [vm_compute; reflexivity|].
  split; [exact H1|]. split; [exact H2|exact H4].
Defined.

(** Of the two comments written at the same instant, the first is
    returned. *)
Lemma last_comment_tie_first_witness :
  fst (get_last_comment (env0 (planka [card0] actions_tie)) tok (s "c1") quiet)
  = Ok (firstn 50 (normalized (str "first of two"))).
Proof.
  apply (last_comment_tie_first (env0 (planka [card0] actions_tie)) tok
           (s "c1") quiet 200 [(str "items", JList actions_tie)]
           [comment_action "old note" "2025-06-01T08:00:00.000Z"]
           [comment_action "second of two" "2025-06-02T08:00:00.000Z"]
           (comment_action "first of two" "2025-06-02T08:00:00.000Z")
           (str "first of two") (naive 2025 6 2 8 0 0 0)).
  - vm_compute. reflexivity.
  - vm_compute. reflexivity.
  - vm_compute. reflexivity.
  - vm_compute. reflexivity.
  - exists (s "commentCard"), (obj [("text", s "first of two")]),
      (str "2025-06-02T08:00:00.000Z").
    repeat split; vm_compute; reflexivity.
  - intros a ra ta [<-|[]] Hact. read_comment Hact. vm_compute. reflexivity.
  - intros a ra ta [<-|[]] Hact. read_comment Hact. vm_compute. discriminate.
Defined.

(** A token request answered with a token, and one answered without. *)
Lemma get_token_item_or_key_error_witness :
  get_token E0 quiet = (Ok tok, add_sent (token_request E0) quiet) /\
  fst (get_token (env0 planka_no_item) quiet)
  = Raise (KeyError (JStr (str "item"))).
Proof.
  split.
  - destruct (get_token_item_or_key_error E0 token_body quiet) as [H _].
    + exists 200. split; [reflexivity|left; lia].
    + apply (H tok). vm_compute. reflexivity.
  - destruct (get_token_item_or_key_error (env0 planka_no_item)
                (obj [("error", s "unknown user")]) quiet) as [_ H].
    + exists 200. split; [reflexivity|left; lia].
    + rewrite H; [reflexivity|]. eexists. split; reflexivity.
Defined.

(** The card due today is also in the window of the week. *)
Lemma wider_window_keeps_cards_witness :
  passes E0 [s "l1"] june10 june10 card0 = true /\
  passes E0 [s "l1"] date_min (day 2025 6 17) card0 = true.
Proof.
  split; [vm_compute; reflexivity|].
  apply (wider_window_keeps_cards E0 [s "l1"] june10 june10
           date_min (day 2025 6 17) card0).
  - vm_compute. reflexivity.
  - vm_compute. discriminate.
  - vm_compute. discriminate.
Defined.

(** A completed card is passed over although its due date is no
    timestamp; one whose listId is a list raises. *)
Lemma excluded_before_parsing_witness :
  scan_card E0 tok (s "Ops") (s "Sprint") [s "l1"] june10 june10
    (JObj card_done) [] quiet = (Ok [], quiet) /\
  scan_card E0 tok (s "Ops") (s "Sprint") [s "l1"] june10 june10
    (JObj card_odd_list) [] quiet = (Raise TypeError, quiet).
Proof.
  split.
  - destruct (excluded_before_parsing E0 tok (s "Ops") (s "Sprint") [s "l1"]
                june10 june10 card_done [] quiet) as [H _].
    apply H.
    + vm_compute. reflexivity.
    + right. right. left. exists (JBool true). split; reflexivity.
  - destruct (excluded_before_parsing E0 tok (s "Ops") (s "Sprint") [s "l1"]
                june10 june10 card_odd_list [] quiet) as [_ H].
    apply (H (JList [s "l1"])); reflexivity.
Defined.

(** The same due date on an open card makes the whole call raise. *)
Lemma unparsable_due_date_fails_the_call_witness :
  let E := env0 (planka [card0; JObj card_bad_date] actions) in
  scan_card E tok (s "Ops") (s "Sprint") [s "l1"] june10 june10
    (JObj card_bad_date) [] quiet = (Raise ValueError, quiet) /\
  exists x w', get_due_cards E tok june10 june10 quiet = (Raise x, w').
Proof.
  intros E.
  destruct (unparsable_due_date_fails_the_call E tok june10 june10 [s "l1"]
              card_bad_date (s "l1") (str "soon")) as [H1 H2].
  - vm_compute. right. left. reflexivity.
  - vm_compute. reflexivity.
  - reflexivity.
  - vm_compute. reflexivity.
  - vm_compute. reflexivity.
  - vm_compute. discriminate.
  - vm_compute. reflexivity.
  - vm_compute. exact I.
  - split; [apply H1|apply H2].
Defined.

(** A window from June 11 back to June 10 reports nothing. *)
Lemma inverted_window_reports_nothing_witness :
  fst (get_due_cards E0 tok (day 2025 6 11) june10 quiet) = Ok [].
Proof.
  destruct (get_due_cards E0 tok (day 2025 6 11) june10 quiet)
    as [[r|x] w'] eqn:H.
  - cbn [fst]. f_equal.
    apply (inverted_window_reports_nothing E0 tok (day 2025 6 11) june10
             quiet w' r); [vm_compute; reflexivity|exact H].
  - vm_compute in H. discriminate.
Defined.

(** The window of the third button on 2025-06-10. *)
Lemma select_window_bounds_witness :
  toordinal date_min <= toordinal (day 2025 6 17) /\
  toordinal (today E0) <= toordinal (day 2025 6 17)
    <= toordinal (today E0) + 7 /\
  (date_min = date_min \/ date_min = day 2025 6 17).
Proof.
  apply (select_window_bounds E0 (label Week) date_min (day 2025 6 17));
    vm_compute; reflexivity.
Defined.

(** A first entry for a project and a board. *)
Lemma report_add_lookup_witness :
  let x : entry := (s "Fix pipeline", str "10-06-2025 13:00", str "") in
  exists r',
    report_add (s "Ops") (s "Sprint") x [] = Ok r' /\
    find_or_empty (s "Sprint") (find_or_empty (s "Ops") r') = ([] ++ [x])%list.
Proof.
  intros x.
  destruct (report_add_lookup (s "Ops") (s "Sprint") x [])
    as [r' [H1 [H2 _]]]; [reflexivity|reflexivity|].
  exists r'. split; [exact H1|exact H2].
Defined.

(** One entry, one comment fetched. *)
Lemma one_comment_fetch_per_entry_witness :
  let r := [(s "Ops",
             [(s "Sprint",
               [(s "Fix pipeline", str "10-06-2025 13:00",
                 str "second note")])])] in
  exists l,
    sent (snd (get_due_cards E0 tok june10 june10 quiet))
    = (sent quiet ++ l)%list /\
    tally l = entries r.
Proof.
  intros r.
  apply (one_comment_fetch_per_entry E0 tok june10 june10 quiet
           (snd (get_due_cards E0 tok june10 june10 quiet)) r).
  vm_compute. reflexivity.
Defined.

(** The entry of the sample Report fits. *)
Lemma reported_entries_fit_witness :
  all_entries entry_fits
    [(s "Ops",
      [(s "Sprint",
        [(s "Fix pipeline", str "10-06-2025 13:00", str "second note")])])].
Proof.
  apply (reported_entries_fit E0 tok june10 june10 quiet
           (snd (get_due_cards E0 tok june10 june10 quiet))).
  vm_compute. reflexivity.
Defined.

(** With nothing allow-listed the due card is not reported, and its board
    is not asked for. *)
Lemma empty_allow_list_reports_nothing_witness :
  fst (get_due_cards env_closed tok june10 june10 quiet) = Ok [] /\
  exists l,
    sent (snd (get_due_cards env_closed tok june10 june10 quiet))
    = (sent quiet ++ l)%list /\
    Forall (fun q => match q with
                     | GET_projects _ | GET_project _ _ => True
                     | _ => False
                     end) l.
Proof.
  split; [vm_compute; reflexivity|].
  destruct (empty_allow_list_reports_nothing env_closed tok june10 june10
              quiet (snd (get_due_cards env_closed tok june10 june10 quiet))
              []) as [_ H]; [reflexivity|vm_compute; reflexivity|exact H].
Defined.

(** The card reported for June 10 is due on June 10, Moscow time. *)
Lemma single_day_window_witness :
  exists stamp dt,
    card_field card0 "dueDate" = Some (JStr stamp) /\
    fromisoformat E0 (remove_char 90%N stamp) = Some dt /\
    local_date E0 (wall dt) june10.
Proof.
  apply (single_day_window E0 [s "l1"] june10 card0).
  vm_compute. reflexivity.
Defined.

(** February 31 gets the hint; June 10 starts with the token request. *)
Lemma tasks_by_date_replies_witness :
  tasks_by_date E0 parse_date (str "31-02-2025") quiet
  = (Ok tt,
     {| sent := []; logfile := [];
        outbox := [{| text := BAD_DATE; reply_markup := false;
                      parse_mode_HTML := false |}] |}) /\
  exists l,
    sent (snd (tasks_by_date E0 parse_date (str "10-06-2025") quiet))
    = (sent quiet ++ token_request E0 :: l)%list.
Proof.
  split.
  - destruct (tasks_by_date_replies E0 parse_date (str "31-02-2025") quiet)
      as [H _].
    apply H. vm_compute. reflexivity.
  - destruct (tasks_by_date_replies E0 parse_date (str "10-06-2025") quiet)
      as [_ [H _]].
    apply (H (naive 2025 6 10 0 0 0 0)). vm_compute. reflexivity.
Defined.

(** Three cards, the second without a due date: the entries of the first
    and the third, in this order. *)
Lemma board_entries_in_card_order_witness :
  let E := env0 (planka [card0; JObj card_bare; card_long] actions) in
  let r' := [(s "Ops",
              [(s "Sprint",
                [(s "Fix pipeline", str "10-06-2025 13:00",
                  str "second note");
                 (s "Review the deployment pipeline...",
                  str "10-06-2025 13:00", str "second note")])])] in
  exists added,
    find_or_empty (s "Sprint") (find_or_empty (s "Ops") r')
    = (find_or_empty (s "Sprint") (find_or_empty (s "Ops") []) ++ added)%list
    /\
    Forall2 (entry_of E tok [s "l1"] june10 june10)
      (filter (passes E [s "l1"] june10 june10)
         [card0; JObj card_bare; card_long]) added.
Proof.
  intros E r'.
  apply (board_entries_in_card_order E tok (s "Ops") june10 june10
           (obj [("id", s "b1"); ("name", s "Sprint")]) (s "Sprint")
           [s "l1"] [card0; JObj card_bare; card_long] [] r' quiet
           (snd (scan_board E tok (s "Ops") june10 june10
                   (obj [("id", s "b1"); ("name", s "Sprint")]) [] quiet))).
  - vm_compute. reflexivity.
  - vm_compute. reflexivity.
Defined.

End MoreRuns.
